(** * The plot service: normalisation, validation and evaluation pipeline

    A shallow embedding of [api/plot.py].  The request handler parses a JSON
    body over a record of defaults, validates every field, evaluates the
    expression over a sampled grid in a restricted namespace and renders the
    curve.

    Conventions of the embedding:
    - a Python [str] is a Rocq [string]; a character is a code point below 256;
    - a Python [float] is an IEEE 754 binary64 number ([spec_float] at
      precision 53), a Python [int] is a [Z];
    - a Python [dict] with string keys is a [gmap string _];
    - dictionaries are mutable objects: they live in a heap and are handled
      through their address, so that aliasing with the module-level
      [DEFAULT_PAYLOAD] is visible;
    - exceptions are values of type [exn]; code that can raise returns
      [exn + A];
    - the behaviour of the interpreter and of the libraries the module calls
      ([bytes.decode], [json.loads], [float(str)], [eval], NumPy,
      matplotlib) is gathered in the class [Host]; the code that [eval]
      runs can read and write the dictionaries of the heap and the array
      bound to [x], so the evaluation is an operation on both. *)

From Stdlib Require Import ZArith String Ascii Bool List.
From Stdlib Require Import Strings.Byte.
From Stdlib Require Import Floats.SpecFloat.
From stdpp Require Import gmap strings list fin_maps pretty.

Set Warnings "-register-all".
Open Scope Z_scope.

(** ** Floating point numbers *)

Abbreviation float := spec_float.

Module Float.
Definition prec : Z := 53.
Definition emax : Z := 1024.

(** Conversion of an integer, rounding to nearest even. *)
Definition of_Z (z : Z) : float := binary_normalize prec emax z 0 false.
Definition add : float -> float -> float := SFadd prec emax.
Definition sub : float -> float -> float := SFsub prec emax.
Definition mul : float -> float -> float := SFmul prec emax.
Definition div : float -> float -> float := SFdiv prec emax.
Definition opp : float -> float := SFopp.

(** The binary64 number nearest to the decimal fraction [n / d]; this is how
    a literal such as [0.1] or a JSON number such as [10.01] is read. *)
Definition of_ratio (n : Z) (d : positive) : float :=
  match n with
  | Z0 => S754_zero false
  | Zpos p => div (S754_finite false p 0) (S754_finite false d 0)
  | Zneg p => div (S754_finite true p 0) (S754_finite false d 0)
  end.

Definition le (a b : float) : bool := SFleb a b.
(** [a >= b]; false as soon as one side is not-a-number. *)
Definition ge (a b : float) : bool :=
  match SFcompare a b with
  | Some Gt | Some Eq => true
  | _ => false
  end.

Definition is_zero (f : float) : bool :=
  match f with S754_zero _ => true | _ => false end.
Definition is_inf (f : float) : bool :=
  match f with S754_infinity _ => true | _ => false end.
(** [math.isfinite] / [np.isfinite]. *)
Definition isfinite (f : float) : bool :=
  match f with
  | S754_zero _ | S754_finite _ _ _ => true
  | S754_infinity _ | S754_nan => false
  end.

(** [math.pi] and [math.e]. *)
Definition pi : float := S754_finite false 7074237752028440 (-51).
Definition e : float := S754_finite false 6121026514868073 (-51).
End Float.

(** ** Exceptions *)

Inductive exn_class :=
| ValueError | JSONDecodeError | UnicodeDecodeError
| TypeError | KeyError | AttributeError
| NameError | SyntaxError | ZeroDivisionError | OverflowError | RuntimeError
| KeyboardInterrupt | SystemExit | GeneratorExit.

(** An exception instance: its class and [str(exc)]. *)
Record exn := Exn { exn_class_of : exn_class; exn_msg : string }.

(** [isinstance(exc, ValueError)]: [json.JSONDecodeError] and
    [UnicodeDecodeError] derive from [ValueError]. *)
Definition is_ValueError (e : exn) : bool :=
  match exn_class_of e with
  | ValueError | JSONDecodeError | UnicodeDecodeError => true
  | _ => false
  end.

(** [isinstance(exc, Exception)]: [KeyboardInterrupt], [SystemExit] and
    [GeneratorExit] derive from [BaseException] only, and pass through
    [except Exception]. *)
Definition Exception (e : exn) : bool :=
  match exn_class_of e with
  | KeyboardInterrupt | SystemExit | GeneratorExit => false
  | _ => true
  end.

Definition is_JSONDecodeError (e : exn) : bool :=
  match exn_class_of e with
  | JSONDecodeError => true
  | _ => false
  end.

(** Results of code that can raise. *)
Definition result (A : Type) : Type := exn + A.

Definition ok {A} (a : A) : result A := inr a.
Definition throw {A} (c : exn_class) (msg : string) : result A := inl (Exn c msg).

Definition rbind {A B} (r : result A) (k : A -> result B) : result B :=
  match r with
  | inl e => inl e
  | inr a => k a
  end.

Declare Scope result_scope.
Delimit Scope result_scope with res.
Notation "x <-r c1 ;; c2" := (rbind c1 (fun x => c2))
  (at level 100, c1 at next level, right associativity) : result_scope.
Open Scope result_scope.

(** ** Values carried by a payload *)

(** What [json.loads] produces, and what the validator stores back. *)
Inductive jval :=
| JNull
| JBool (b : bool)
| JInt (z : Z)
| JFloat (f : float)
| JStr (s : string)
| JList (l : list jval)
| JDict (m : gmap string jval).

Abbreviation dict := (gmap string jval).

(** Addresses of dictionary objects. *)
Abbreviation loc := nat.

(** The dictionaries alive, by address. *)
Abbreviation heap := (list dict).

(** What [rfile.read] returns. *)
Abbreviation bytes := (list byte).

(** [v is None] *)
Definition is_None (v : jval) : bool :=
  match v with JNull => true | _ => false end.

(** [bool(v)] *)
Definition truthy (v : jval) : bool :=
  match v with
  | JNull => false
  | JBool b => b
  | JInt z => negb (z =? 0)
  | JFloat f => negb (Float.is_zero f)
  | JStr s => negb (String.eqb s "")
  | JList l => match l with [] => false | _ => true end
  | JDict m => negb (bool_decide (m = ∅))
  end.

(** The name of the type of a value, as error messages print it. *)
Definition type_name (v : jval) : string :=
  match v with
  | JNull => "NoneType"
  | JBool _ => "bool"
  | JInt _ => "int"
  | JFloat _ => "float"
  | JStr _ => "str"
  | JList _ => "list"
  | JDict _ => "dict"
  end.

(** ** Text *)

Module Text.
Definition code (c : ascii) : N := N_of_ascii c.

(** The characters [str.strip()] removes: the white space of Unicode, here
    below code point 256. *)
Definition is_space (c : ascii) : bool :=
  let n := code c in
  ((9 <=? n) && (n <=? 13) || (28 <=? n) && (n <=? 32)
   || (n =? 133) || (n =? 160))%N.

(** The characters [\w] matches in a [str] pattern: alphanumerics and the
    underscore, here below code point 256. *)
Definition is_word (c : ascii) : bool :=
  let n := code c in
  ((48 <=? n) && (n <=? 57) || (65 <=? n) && (n <=? 90)
   || (97 <=? n) && (n <=? 122) || (n =? 95)
   || (n =? 170) || (n =? 178) || (n =? 179) || (n =? 181)
   || (n =? 185) || (n =? 186) || (188 <=? n) && (n <=? 190)
   || (192 <=? n) && (n <=? 214) || (216 <=? n) && (n <=? 246)
   || (248 <=? n) && (n <=? 255))%N.

Fixpoint lstrip (s : string) : string :=
  match s with
  | String c s' => if is_space c then lstrip s' else s
  | EmptyString => EmptyString
  end.

Fixpoint rstrip (s : string) : string :=
  match s with
  | String c s' =>
      match rstrip s' with
      | EmptyString => if is_space c then EmptyString else String c EmptyString
      | r => String c r
      end
  | EmptyString => EmptyString
  end.

(** [s.strip()] *)
Definition strip (s : string) : string := rstrip (lstrip s).

Definition is_empty (s : string) : bool :=
  match s with EmptyString => true | _ => false end.

Definition head (s : string) : option ascii :=
  match s with String c _ => Some c | EmptyString => None end.

(** The last character of [prev] followed by [s]. *)
Fixpoint last_char (prev : option ascii) (s : string) : option ascii :=
  match s with
  | String c s' => last_char (Some c) s'
  | EmptyString => prev
  end.

(** [strip_prefix p s] is the rest of [s] after the literal [p]. *)
Fixpoint strip_prefix (p s : string) : option string :=
  match p with
  | EmptyString => Some s
  | String a p' =>
      match s with
      | String c s' => if Ascii.eqb a c then strip_prefix p' s' else None
      | EmptyString => None
      end
  end.
End Text.

(** ** The denylist pattern

    [r"__|import|\bexec\b|\beval\b|\bos\b|\bsys\b"]: an alternation of
    literals, some of them between word boundaries. *)

Module Re.
Inductive item :=
| Lit (w : string)      (* w *)
| Word (w : string).    (* \bw\b *)

Definition is_word_opt (c : option ascii) : bool :=
  match c with Some a => Text.is_word a | None => false end.

(** [\b] between two neighbours; [None] is an end of the string. *)
Definition boundary (prev next : option ascii) : bool :=
  xorb (is_word_opt prev) (is_word_opt next).

(** Does the item match at this position, [prev] being the character just
    before it and [s] the text from it on? *)
Definition match_here (prev : option ascii) (s : string) (i : item) : bool :=
  match i with
  | Lit w =>
      match Text.strip_prefix w s with Some _ => true | None => false end
  | Word w =>
      boundary prev (Text.head s)
      && match Text.strip_prefix w s with
         | Some rest => boundary (Text.last_char prev w) (Text.head rest)
         | None => false
         end
  end.

Fixpoint search_from (alts : list item) (prev : option ascii) (s : string) : bool :=
  existsb (match_here prev s) alts
  || match s with
     | String c s' => search_from alts (Some c) s'
     | EmptyString => false
     end.

(** The truth value of [re.search(alts, s)]. *)
Definition search (alts : list item) (s : string) : bool :=
  search_from alts None s.
End Re.

Definition DENYLIST : list Re.item :=
  [Re.Lit "__"; Re.Lit "import"; Re.Word "exec"; Re.Word "eval";
   Re.Word "os"; Re.Word "sys"].

(** ** Values of the expression language *)

(** The number of cells of an array of the given shape. *)
Definition product (dims : list nat) : nat := foldr Nat.mul 1%nat dims.

(** A NumPy array of [float64]: its shape and its elements in row order,
    as many as the shape tells. *)
Record ndarray := MkNdArray {
  shape : list nat;
  data : list float;
  sized : Is_true (length data =? product shape)%nat
}.

(** The array of a shape and of elements whose number is seen to fit. *)
Abbreviation NdArray s d := (MkNdArray s d I).

(** The array of a shape and of elements, when their number fits. *)
Definition mk_array (s : list nat) (d : list float) : option ndarray :=
  match (length d =? product s)%nat as b
        return (Is_true b -> ndarray) -> option ndarray with
  | true => fun k => Some (k I)
  | false => fun _ => None
  end (MkNdArray s d).

(** An array of any dtype: of [float64], with its elements, or of another
    dtype, with its shape and the object that holds its elements. *)
Inductive array :=
| Floats (a : ndarray)
| Typed (dtype : string) (dims : list nat) (o : N).

(** [a.shape] *)
Definition array_shape (a : array) : list nat :=
  match a with
  | Floats a => shape a
  | Typed _ dims _ => dims
  end.

(** The objects an expression can denote. *)
Inductive value :=
| VInt (z : Z)                        (* int *)
| VFloat (f : float)                  (* float *)
| VArr (a : ndarray)                  (* numpy.ndarray of float64 *)
| VTyped (dtype : string) (dims : list nat) (o : N)
                                      (* numpy.ndarray of another dtype *)
| VUfunc (name : string)              (* numpy.sin, numpy.sqrt, ... *)
| VModule (name : string)             (* the numpy module *)
| VDict (d : gmap string value)       (* dict *)
| VObject (o : N).                    (* any other object *)

(** The name of the type of an object, as error messages print it. *)
Definition value_type_name (v : value) : string :=
  match v with
  | VInt _ => "int"
  | VFloat _ => "float"
  | VArr _ | VTyped _ _ _ => "numpy.ndarray"
  | VUfunc _ => "numpy.ufunc"
  | VModule _ => "module"
  | VDict _ => "dict"
  | VObject _ => "object"
  end.

(** What the parser of [eval] makes of a source text, as far as the
    evaluation can be told without running the code of an object: a
    literal constant, a name on its own, or a composite expression
    (operators, attribute access, subscripts, calls, conditional and
    boolean expressions, lambdas, comprehensions, assignment
    expressions, ...). *)
Inductive expr :=
| Constant (v : value)
| Name (id : string)
| Composite.

(** ** The interpreter and the libraries *)

Class Host := {
(** [b.decode("utf-8")] *)
decode_utf8 : bytes -> result string;
(** [json.loads(body)] *)
json_loads : string -> result jval;
(** [float(s)] and [int(s)] of a string; [None] is a [ValueError] *)
float_of_str : string -> option float;
int_of_str : string -> option Z;
(** [str(v)] of a value that is not a string *)
repr : jval -> string;
(** the parser run by [eval] *)
ast_parse : string -> result expr;
(** [eval(source, globals, locals)] of a composite expression, [x] being
    the array bound to [x] in the locals: what it returns or raises, what
    the array holds afterwards, and the heap afterwards *)
py_eval_composite :
  string -> gmap string value -> gmap string value -> ndarray -> heap ->
  result value * ndarray * heap;
(** [np.array(o, dtype=float)] of an object [VObject o] or of the array
    [VTyped _ _ o] *)
np_array_object : N -> result ndarray;
(** [np.isfinite(a).all()] of an array [Typed dtype _ o] *)
np_isfinite_all : string -> N -> result bool;
(** [np.linspace(start, stop, num)] *)
np_linspace : jval -> jval -> jval -> result ndarray;
(** drawing the figure of [x] and [y] and [base64.b64encode] of its PNG *)
savefig : dict -> ndarray -> array -> result string;
}.

(** ** Messages *)

Module Msg.
Definition e_grave : string := String (ascii_of_N 232) "".
Definition e_acute : string := String (ascii_of_N 233) "".
Definition e_circ : string := String (ascii_of_N 234) "".

Definition unreadable : string :=
  "Requ" +:+ e_circ +:+ "te illisible (JSON invalide): ".
Definition interval : string :=
  "Intervalle invalide: xMin doit " +:+ e_circ +:+ "tre < xMax".
Definition samples : string :=
  "Le nombre d'" +:+ e_acute +:+ "chantillons doit " +:+ e_circ
  +:+ "tre entre 2 et 10000".
Definition empty : string :=
  "L'expression ne peut pas " +:+ e_circ +:+ "tre vide.".
Definition disallowed : string :=
  "L'expression contient des " +:+ e_acute +:+ "l" +:+ e_acute
  +:+ "ments non autoris" +:+ e_acute +:+ "s.".
Definition line_width : string :=
  "L'" +:+ e_acute +:+ "paisseur de ligne doit " +:+ e_circ
  +:+ "tre entre 0.1 et 10.".
Definition evaluation : string :=
  "Impossible d'" +:+ e_acute +:+ "valuer l'expression: ".
Definition shape : string :=
  "L'expression doit produire une valeur pour chaque point x.".
Definition non_finite : string :=
  "L'expression g" +:+ e_acute +:+ "n" +:+ e_grave
  +:+ "re des valeurs non finies.".
Definition too_large : string := "Payload trop volumineux.".
Definition internal : string := "Erreur interne: ".
End Msg.

(** ** Conversions *)

Section Conversions.
Context `{Host}.

(** [float(v)] *)
Definition py_float (v : jval) : result float :=
  match v with
  | JBool b => ok (Float.of_Z (if b then 1 else 0))
  | JInt z =>
      let f := Float.of_Z z in
      if Float.is_inf f
      then throw OverflowError "int too large to convert to float"
      else ok f
  | JFloat f => ok f
  | JStr s =>
      match float_of_str s with
      | Some f => ok f
      | None =>
          throw ValueError ("could not convert string to float: '" +:+ s +:+ "'")
      end
  | JNull | JList _ | JDict _ =>
      throw TypeError
        ("float() argument must be a string or a real number, not '"
         +:+ type_name v +:+ "'")
  end.

(** [int(f)] of a float: the integer part, towards zero. *)
Definition int_of_float (f : float) : result Z :=
  match f with
  | S754_zero _ => ok 0
  | S754_finite s m e =>
      let a := Z.shiftl (Zpos m) e in
      ok (if s then - a else a)
  | S754_infinity _ =>
      throw OverflowError "cannot convert float infinity to integer"
  | S754_nan => throw ValueError "cannot convert float NaN to integer"
  end.

(** [int(v)] *)
Definition py_int (v : jval) : result Z :=
  match v with
  | JBool b => ok (if b then 1 else 0)
  | JInt z => ok z
  | JFloat f => int_of_float f
  | JStr s =>
      match int_of_str s with
      | Some z => ok z
      | None =>
          throw ValueError
            ("invalid literal for int() with base 10: '" +:+ s +:+ "'")
      end
  | JNull | JList _ | JDict _ =>
      throw TypeError
        ("int() argument must be a string, a bytes-like object or a real number, not '"
         +:+ type_name v +:+ "'")
  end.

(** [str(v)] *)
Definition py_str (v : jval) : string :=
  match v with
  | JStr s => s
  | _ => repr v
  end.
End Conversions.

(** ** The heap and its monad *)

(** A computation reads and updates the heap and returns or raises; the
    updates made before an exception stay. *)
Definition M (A : Type) : Type := heap -> result A * heap.

Definition ret {A} (a : A) : M A := fun h => (inr a, h).
Definition raise {A} (c : exn_class) (msg : string) : M A :=
  fun h => (inl (Exn c msg), h).
Definition bind {A B} (m : M A) (k : A -> M B) : M B :=
  fun h =>
    match m h with
    | (inr a, h') => k a h'
    | (inl e, h') => (inl e, h')
    end.
(** A value or an exception computed without the heap. *)
Definition lift {A} (r : result A) : M A := fun h => (r, h).
(** [try: m except C as exc: handler(exc)], [catches] telling the instances
    of [C]; another exception goes on. *)
Definition try_except {A} (catches : exn -> bool) (m : M A) (handler : exn -> M A) : M A :=
  fun h =>
    match m h with
    | (inr a, h') => (inr a, h')
    | (inl e, h') => if catches e then handler e h' else (inl e, h')
    end.

Declare Scope heap_scope.
Delimit Scope heap_scope with heap.
Notation "x <- c1 ;; c2" := (bind c1 (fun x => c2))
  (at level 100, c1 at next level, right associativity) : heap_scope.
Notation "c1 ;; c2" := (bind c1 (fun _ => c2))
  (at level 100, right associativity) : heap_scope.
Open Scope heap_scope.

(** The dictionary at an address. *)
Definition deref (l : loc) (h : heap) : dict := default ∅ (h !! l).

(** [d[k]] *)
Definition getitem (l : loc) (k : string) : M jval :=
  fun h =>
    match deref l h !! k with
    | Some v => (inr v, h)
    | None => (inl (Exn KeyError ("'" +:+ k +:+ "'")), h)
    end.

(** [d.get(k, dflt)] *)
Definition get (l : loc) (k : string) (dflt : jval) : M jval :=
  fun h => (inr (default dflt (deref l h !! k)), h).

(** [d[k] = v] *)
Definition setitem (l : loc) (k : string) (v : jval) : M unit :=
  fun h => (inr tt, <[l := <[k := v]> (deref l h)]> h).

(** [d.update(other)] *)
Definition update (l : loc) (other : dict) : M unit :=
  fun h => (inr tt, <[l := other ∪ deref l h]> h).

(** [dict(d)]: a new dictionary with the same items. *)
Definition dict_copy (l : loc) : M loc :=
  fun h => (inr (List.length h), h ++ [deref l h]).

(** ** Defaults *)

(** The module-level [DEFAULT_PAYLOAD] is the first object of the heap. *)
Definition DEFAULT_PAYLOAD : loc := 0%nat.

(** Its items when the module is loaded. *)
Definition default_items : dict :=
  list_to_map
    [("expression", JStr "sin(2 * pi * x)");
     ("xMin", JFloat (Float.mul (Float.of_Z (-2)) Float.pi));
     ("xMax", JFloat (Float.mul (Float.of_Z 2) Float.pi));
     ("samples", JInt 500);
     ("title", JStr ("Courbe param" +:+ Msg.e_acute +:+ "trable"));
     ("xLabel", JStr "x");
     ("yLabel", JStr "f(x)");
     ("color", JStr "#2563eb");
     ("lineWidth", JFloat (Float.of_Z 2));
     ("grid", JBool true);
     ("marker", JStr "")].

(** The heap when the module is loaded. *)
Definition initial_heap : heap := [default_items].

(** ** Normalisation and validation *)

Section Pipeline.
Context `{Host}.

(** [data.items()] *)
Definition items (data : jval) : result dict :=
  match data with
  | JDict m => ok m
  | _ =>
      throw AttributeError
        ("'" +:+ type_name data +:+ "' object has no attribute 'items'")
  end.

Definition parse_payload (body : string) : M loc :=
  if Text.is_empty body then dict_copy DEFAULT_PAYLOAD
  else
    data <- try_except is_JSONDecodeError (lift (json_loads body))
              (fun exc => raise ValueError (Msg.unreadable +:+ exn_msg exc)) ;;
    payload <- dict_copy DEFAULT_PAYLOAD ;;
    its <- lift (items data) ;;
    update payload (filter (fun kv => is_None kv.2 = false) its) ;;
    ret payload.

(** The first [try] block of [validate_payload]. *)
Definition read_interval (payload : loc) : M (float * float) :=
  try_except Exception
    (a <- getitem payload "xMin" ;;
     x_min <- lift (py_float a) ;;
     b <- getitem payload "xMax" ;;
     x_max <- lift (py_float b) ;;
     if Float.ge x_min x_max then raise ValueError ""
     else ret (x_min, x_max))
    (fun _ => raise ValueError Msg.interval).

(** The second [try] block. *)
Definition read_samples (payload : loc) : M Z :=
  try_except Exception
    (a <- getitem payload "samples" ;;
     samples <- lift (py_int a) ;;
     if negb ((2 <=? samples) && (samples <=? 10000)) then raise ValueError ""
     else ret samples)
    (fun _ => raise ValueError Msg.samples).

(** The third [try] block. *)
Definition read_line_width (payload : loc) : M float :=
  try_except Exception
    (a <- getitem payload "lineWidth" ;;
     line_width <- lift (py_float a) ;;
     if negb (Float.le (Float.of_ratio 1 10) line_width
              && Float.le line_width (Float.of_Z 10))
     then raise ValueError ""
     else ret line_width)
    (fun _ => raise ValueError Msg.line_width).

(** [s or DEFAULT_PAYLOAD[k]] *)
Definition or_default (s : string) (k : string) : M jval :=
  if Text.is_empty s then getitem DEFAULT_PAYLOAD k else ret (JStr s).

Definition validate_payload (payload : loc) : M loc :=
  iv <- read_interval payload ;;
  let x_min := iv.1 in
  let x_max := iv.2 in
  samples <- read_samples payload ;;
  e <- getitem payload "expression" ;;
  let expression := Text.strip (py_str e) in
  if Text.is_empty expression then raise ValueError Msg.empty
  else if Re.search DENYLIST expression then raise ValueError Msg.disallowed
  else
    setitem payload "xMin" (JFloat x_min) ;;
    setitem payload "xMax" (JFloat x_max) ;;
    setitem payload "samples" (JInt samples) ;;
    setitem payload "expression" (JStr expression) ;;
    t <- get payload "title" (JStr "") ;;
    t <- or_default (Text.strip (py_str t)) "title" ;;
    setitem payload "title" t ;;
    t <- get payload "xLabel" (JStr "") ;;
    t <- or_default (Text.strip (py_str t)) "xLabel" ;;
    setitem payload "xLabel" t ;;
    t <- get payload "yLabel" (JStr "") ;;
    t <- or_default (Text.strip (py_str t)) "yLabel" ;;
    setitem payload "yLabel" t ;;
    c <- get payload "color" JNull ;;
    c <- (if truthy c then ret c else getitem DEFAULT_PAYLOAD "color") ;;
    setitem payload "color" (JStr (py_str c)) ;;
    m <- get payload "marker" JNull ;;
    setitem payload "marker" (JStr (py_str (if truthy m then m else JStr ""))) ;;
    line_width <- read_line_width payload ;;
    setitem payload "lineWidth" (JFloat line_width) ;;
    g <- getitem DEFAULT_PAYLOAD "grid" ;;
    g <- get payload "grid" g ;;
    setitem payload "grid" (JBool (truthy g)) ;;
    ret payload.
End Pipeline.

(** ** Evaluation of the expression *)

Definition SAFE_FUNCTIONS : gmap string value :=
  list_to_map
    [("np", VModule "numpy");
     ("sin", VUfunc "sin");
     ("cos", VUfunc "cos");
     ("tan", VUfunc "tan");
     ("arcsin", VUfunc "arcsin");
     ("arccos", VUfunc "arccos");
     ("arctan", VUfunc "arctan");
     ("sinh", VUfunc "sinh");
     ("cosh", VUfunc "cosh");
     ("tanh", VUfunc "tanh");
     ("exp", VUfunc "exp");
     ("log", VUfunc "log");
     ("log10", VUfunc "log10");
     ("sqrt", VUfunc "sqrt");
     ("abs", VUfunc "absolute");
     ("pi", VFloat Float.pi);
     ("e", VFloat Float.e)].

(** Resolution of a name by [eval(source, globals, locals)]: the local
    namespace, then the global one, then the builtins, which are the
    dictionary bound to ["__builtins__"] in the globals. *)
Definition load_name (globals locals : gmap string value) (id : string) : result value :=
  match locals !! id with
  | Some v => ok v
  | None =>
      match globals !! id with
      | Some v => ok v
      | None =>
          match globals !! "__builtins__" with
          | Some (VDict builtins) =>
              match builtins !! id with
              | Some v => ok v
              | None => throw NameError ("name '" +:+ id +:+ "' is not defined")
              end
          | _ => throw NameError ("name '" +:+ id +:+ "' is not defined")
          end
      end
  end.

(** [np.array(v, dtype=float)] *)
Definition np_array_float `{Host} (v : value) : result ndarray :=
  match v with
  | VInt z =>
      let f := Float.of_Z z in
      if Float.is_inf f
      then throw OverflowError "int too large to convert to float"
      else ok (NdArray [] [f])
  | VFloat f => ok (NdArray [] [f])
  | VArr a => ok a
  | VTyped _ _ o | VObject o => np_array_object o
  | VUfunc _ | VModule _ | VDict _ =>
      throw TypeError
        ("float() argument must be a string or a real number, not '"
         +:+ value_type_name v +:+ "'")
  end.

Section Rendering.
Context `{Host}.

(** [eval(source, globals, locals)], [x] being the array bound to [x] in
    the locals.  A constant and a name on its own are evaluated without
    running the code of any object; whatever else the source is, the code
    it runs is the host's, and can write to [x] and to the heap. *)
Definition py_eval (globals locals : gmap string value) (source : jval)
    (x : ndarray) (h : heap) : result value * ndarray * heap :=
  match source with
  | JStr s =>
      match ast_parse s with
      | inl exc => (inl exc, x, h)
      | inr (Constant v) => (ok v, x, h)
      | inr (Name id) => (load_name globals locals id, x, h)
      | inr Composite => py_eval_composite s globals locals x h
      end
  | _ =>
      (throw TypeError "eval() arg 1 must be a string, bytes or code object",
       x, h)
  end.

(** [result if isinstance(result, np.ndarray) else np.array(result, dtype=float)] *)
Definition as_ndarray (raw : value) : result array :=
  match raw with
  | VArr a => ok (Floats a)
  | VTyped dtype dims o => ok (Typed dtype dims o)
  | _ => a <-r np_array_float raw ;; ok (Floats a)
  end.

(** [np.isfinite(result).all()] *)
Definition all_finite (a : array) : result bool :=
  match a with
  | Floats a => ok (forallb Float.isfinite (data a))
  | Typed dtype _ o => np_isfinite_all dtype o
  end.

(** The two namespaces handed to [eval]. *)
Definition eval_globals : gmap string value := {["__builtins__" := VDict ∅]}.
Definition safe_locals (x : ndarray) : gmap string value :=
  <["x" := VArr x]> SAFE_FUNCTIONS.

(** [evaluate_expression(expression, x)]: the array it returns, with what
    the array [x] of the caller holds afterwards. *)
Definition evaluate_expression (expression : jval) (x : ndarray) : M (array * ndarray) :=
  fun h =>
    let '(r, x', h') := py_eval eval_globals (safe_locals x) expression x h in
    match r with
    | inl exc =>
        if Exception exc
        then (throw ValueError (Msg.evaluation +:+ exn_msg exc), h')
        else (inl exc, h')
    | inr raw =>
        (result <-r as_ndarray raw ;;
         if negb (bool_decide (array_shape result = shape x'))
         then throw ValueError Msg.shape
         else
           finite <-r all_finite result ;;
           if negb finite then throw ValueError Msg.non_finite
           else ok (result, x'),
         h')
    end.

(** The metadata echoed with the image: [xMin], [xMax], [samples]. *)
Record metadata := Metadata { md_xMin : jval; md_xMax : jval; md_samples : jval }.

Definition render_plot (payload : loc) : M (string * metadata) :=
  a <- getitem payload "xMin" ;;
  b <- getitem payload "xMax" ;;
  n <- getitem payload "samples" ;;
  x <- lift (np_linspace a b n) ;;
  e <- getitem payload "expression" ;;
  r <- evaluate_expression e x ;;
  let y := r.1 in
  let x := r.2 in
  encoded <- (fun h => (savefig (deref payload h) x y, h)) ;;
  a <- getitem payload "xMin" ;;
  b <- getitem payload "xMax" ;;
  n <- getitem payload "samples" ;;
  ret (encoded, Metadata a b n).
End Rendering.

(** ** The request handler *)

Inductive body :=
| EmptyBody                                                   (* {} *)
| ErrorBody (error : string)                                  (* {"error": ...} *)
| ImageBody (image : string) (md : metadata) (dflt : bool).   (* {"image": ..., "metadata": ..., "default": ...} *)

Record response := Response {
  status : Z;
  headers : list (string * string);
  content : body
}.

Definition build_response (status : Z) (b : body) : response :=
  Response status
    [("Content-Type", "application/json; charset=utf-8");
     ("Cache-Control", "no-cache");
     ("Access-Control-Allow-Origin", "*");
     ("Access-Control-Allow-Methods", "GET, POST, OPTIONS");
     ("Access-Control-Allow-Headers", "Content-Type")]
    b.

Inductive request :=
| OPTIONS
| GET
| POST (content_length : Z) (sent : bytes).

Section Handler.
Context `{Host}.

Definition max_message_len : Z := 1000000.

Definition do_OPTIONS : M response := ret (build_response 200 EmptyBody).

Definition do_GET : M response :=
  r <- render_plot DEFAULT_PAYLOAD ;;
  ret (build_response 200 (ImageBody ("data:image/png;base64," +:+ r.1) r.2 true)).

(** [content_length] is the declared length and [sent] what
    [rfile.read(content_length)] returns. *)
Definition do_POST (content_length : Z) (sent : bytes) : M response :=
  if content_length >? max_message_len
  then ret (build_response 413 (ErrorBody Msg.too_large))
  else
    let body_bytes := if content_length =? 0 then [] else sent in
    body <- lift (decode_utf8 body_bytes) ;;
    try_except Exception
      (payload <- parse_payload body ;;
       payload <- validate_payload payload ;;
       r <- render_plot payload ;;
       ret (build_response 200 (ImageBody ("data:image/png;base64," +:+ r.1) r.2 false)))
      (fun exc =>
         if is_ValueError exc
         then ret (build_response 400 (ErrorBody (exn_msg exc)))
         else ret (build_response 500 (ErrorBody (Msg.internal +:+ exn_msg exc)))).

Definition handle (r : request) : M response :=
  match r with
  | OPTIONS => do_OPTIONS
  | GET => do_GET
  | POST content_length sent => do_POST content_length sent
  end.

(** The heap after a sequence of requests; a request whose handler raises
    gets no answer and the server goes on. *)
Fixpoint serve (rs : list request) (h : heap) : heap :=
  match rs with
  | [] => h
  | r :: rs' => serve rs' (handle r h).2
  end.
End Handler.

(** ** The declared length of a POST *)

(** [int(self.headers.get("Content-Length") or "0")], the header being
    absent or a text. *)
Definition read_content_length `{Host} (header : option string) : result Z :=
  let text := match header with
              | Some s => if Text.is_empty s then "0" else s
              | None => "0"
              end in
  py_int (JStr text).

(** [do_POST] from the header of the request. *)
Definition do_POST_header `{Host} (header : option string) (sent : bytes) : M response :=
  content_length <- lift (read_content_length header) ;;
  do_POST content_length sent.

(** ** A reference host

    An instance of [Host] on which the model runs.  It implements the part of
    the interpreter and of the libraries that the examples below exercise:
    UTF-8 texts in Latin-1, JSON, decimal number literals, the arithmetic
    expressions [+ - * /] with parentheses, names, attributes and calls,
    exact integer and binary64 arithmetic on numbers and on arrays of equal
    shape, [sqrt] and [abs] of arrays.  These expressions write to nothing.
    What lies outside that part, a text that this parser does not read
    included, is answered with a [RuntimeError] saying so (positions are
    left out of the messages of the JSON decoder).  The statements that
    quantify over hosts do not depend on this instance. *)

Module Reference.

Definition unsupported {A} (what : string) : result A :=
  throw RuntimeError ("not covered by the reference host: " +:+ what).

Definition digit (c : ascii) : option Z :=
  let n := N_of_ascii c in
  if ((48 <=? n) && (n <=? 57))%N then Some (Z.of_N n - 48) else None.

(** The longest prefix of decimal digits: its value, its length, the rest. *)
Fixpoint digits_from (acc : Z) (len : nat) (s : string) : Z * nat * string :=
  match s with
  | String c s' =>
      match digit c with
      | Some d => digits_from (10 * acc + d) (S len) s'
      | None => (acc, len, s)
      end
  | EmptyString => (acc, len, s)
  end.
Definition digits (s : string) : Z * nat * string := digits_from 0 0%nat s.

(** The binary64 number nearest to [n * 10 ^ e10], of the given sign. *)
Definition decimal (neg : bool) (n : Z) (e10 : Z) : float :=
  match n with
  | Zpos p =>
      let m := if neg then Zneg p else Zpos p in
      match e10 with
      | Zneg k => Float.of_ratio m (Pos.pow 10 k)
      | _ => Float.of_Z (m * 10 ^ e10)
      end
  | _ => S754_zero neg
  end.

(** A fraction [.ddd] and an exponent [e+dd], both optional, after the
    integer part [n]; [None] when there is neither. *)
Definition fraction_exponent (neg : bool) (n : Z) (s : string) : option (float * string) :=
  let '(n1, flen, s1, has_frac) :=
    match s with
    | String "." s' =>
        let '(f, len, rest) := digits_from n 0%nat s' in
        if (len =? 0)%nat then (n, 0%nat, s, false) else (f, len, rest, true)
    | _ => (n, 0%nat, s, false)
    end in
  let '(e, s2, has_exp) :=
    match s1 with
    | String c s' =>
        if (Ascii.eqb c "e" || Ascii.eqb c "E")%bool then
          let '(eneg, s'') :=
            match s' with
            | String "-" t => (true, t)
            | String "+" t => (false, t)
            | _ => (false, s')
            end in
          let '(v, len, rest) := digits s'' in
          if (len =? 0)%nat then (0, s1, false)
          else (if eneg then - v else v, rest, true)
        else (0, s1, false)
    | EmptyString => (0, s1, false)
    end in
  if (has_frac || has_exp)%bool
  then Some (decimal neg n1 (e - Z.of_nat flen), s2)
  else None.

(** ** UTF-8 *)
Module Utf8.
Definition hex_digit (n : N) : ascii :=
  ascii_of_N (if (n <? 10)%N then 48 + n else 87 + n).

Definition hex2 (n : N) : string :=
  String (hex_digit (n / 16)) (String (hex_digit (n mod 16)) "").

(** The error on the byte [b] at [first], the bytes up to [last] being part
    of the sequence refused. *)
Definition refuse {A} (b : N) (first last : nat) (reason : string) : result A :=
  throw UnicodeDecodeError
    (if (first =? last)%nat
     then "'utf-8' codec can't decode byte 0x" +:+ hex2 b +:+ " in position "
          +:+ pretty first +:+ ": " +:+ reason
     else "'utf-8' codec can't decode bytes in position " +:+ pretty first
          +:+ "-" +:+ pretty last +:+ ": " +:+ reason).

Definition is_cont (c : byte) : bool :=
  ((128 <=? Byte.to_N c) && (Byte.to_N c <=? 191))%N.

Definition beyond {A} : result A := unsupported "a character beyond U+00FF".

Fixpoint decode (pos : nat) (b : bytes) : result string :=
  match b with
  | [] => ok ""
  | c :: rest =>
      let n := Byte.to_N c in
      if (n <? 128)%N then
        s <-r decode (S pos) rest ;;
        ok (String (ascii_of_N n) s)
      else if ((n <? 194) || (244 <? n))%N%bool
      then refuse n pos pos "invalid start byte"
      else
        let lo := (if n =? 224 then 160 else if n =? 240 then 144 else 128)%N in
        let hi := (if n =? 237 then 159 else if n =? 244 then 143 else 191)%N in
        match rest with
        | [] => refuse n pos pos "unexpected end of data"
        | c2 :: rest2 =>
            let n2 := Byte.to_N c2 in
            if negb ((lo <=? n2) && (n2 <=? hi))%N
            then refuse n pos pos "invalid continuation byte"
            else if (n <? 196)%N then
              s <-r decode (S (S pos)) rest2 ;;
              ok (String (ascii_of_N ((n - 192) * 64 + (n2 - 128))) s)
            else if (n <? 224)%N then beyond
            else
              match rest2 with
              | [] => refuse n pos (S pos) "unexpected end of data"
              | c3 :: rest3 =>
                  if negb (is_cont c3)
                  then refuse n pos (S pos) "invalid continuation byte"
                  else if (n <? 240)%N then beyond
                  else
                    match rest3 with
                    | [] => refuse n pos (S (S pos)) "unexpected end of data"
                    | c4 :: _ =>
                        if negb (is_cont c4)
                        then refuse n pos (S (S pos)) "invalid continuation byte"
                        else beyond
                    end
              end
        end
  end.

Definition decode_utf8 (b : bytes) : result string := decode 0 b.
End Utf8.

(** ** JSON *)
Module Json.
Definition fail {A} (msg : string) : result A := throw JSONDecodeError msg.

Definition is_ws (c : ascii) : bool :=
  let n := N_of_ascii c in ((n =? 32) || (n =? 9) || (n =? 10) || (n =? 13))%N.

Fixpoint skip_ws (s : string) : string :=
  match s with
  | String c s' => if is_ws c then skip_ws s' else s
  | EmptyString => s
  end.

(** A number: an optional minus sign, an integer part without leading
    zeros, an optional fraction and an optional exponent. *)
Definition number (s : string) : result (jval * string) :=
  let '(neg, s0) :=
    match s with String "-" t => (true, t) | _ => (false, s) end in
  match s0 with
  | String c t =>
      match digit c with
      | Some d =>
          let '(n, s1) :=
            if d =? 0 then (0, t)
            else let '(v, _, rest) := digits s0 in (v, rest) in
          match fraction_exponent neg n s1 with
          | Some (f, rest) => ok (JFloat f, rest)
          | None => ok (JInt (if neg then - n else n), s1)
          end
      | None => fail "Expecting value"
      end
  | EmptyString => fail "Expecting value"
  end.

Definition hex (c : ascii) : option N :=
  let n := N_of_ascii c in
  if ((48 <=? n) && (n <=? 57))%N then Some (n - 48)%N
  else if ((97 <=? n) && (n <=? 102))%N then Some (n - 87)%N
  else if ((65 <=? n) && (n <=? 70))%N then Some (n - 55)%N
  else None.

(** The characters of a string literal after its opening quote. *)
Fixpoint chars (s : string) : result (string * string) :=
  match s with
  | EmptyString => fail "Unterminated string starting at"
  | String c s' =>
      if (N_of_ascii c =? 34)%N then ok (EmptyString, s')
      else if (N_of_ascii c =? 92)%N then
        match s' with
        | String e s'' =>
            let simple (a : N) :=
              r <-r chars s'' ;; ok (String (ascii_of_N a) r.1, r.2) in
            if (N_of_ascii e =? 34)%N then simple 34%N
            else if (N_of_ascii e =? 92)%N then simple 92%N
            else if Ascii.eqb e "/" then simple 47%N
            else if Ascii.eqb e "b" then simple 8%N
            else if Ascii.eqb e "f" then simple 12%N
            else if Ascii.eqb e "n" then simple 10%N
            else if Ascii.eqb e "r" then simple 13%N
            else if Ascii.eqb e "t" then simple 9%N
            else if Ascii.eqb e "u" then
              match s'' with
              | String a (String b (String c' (String d rest))) =>
                  match hex a, hex b, hex c', hex d with
                  | Some x3, Some x2, Some x1, Some x0 =>
                      let n := (((x3 * 16 + x2) * 16 + x1) * 16 + x0)%N in
                      if (n <? 256)%N
                      then r <-r chars rest ;; ok (String (ascii_of_N n) r.1, r.2)
                      else unsupported "a character above code point 255"
                  | _, _, _, _ => fail "Invalid \uXXXX escape"
                  end
              | _ => fail "Invalid \uXXXX escape"
              end
            else fail "Invalid \escape"
        | EmptyString => fail "Unterminated string starting at"
        end
      else if (N_of_ascii c <? 32)%N then fail "Invalid control character at"
      else r <-r chars s' ;; ok (String c r.1, r.2)
  end.

Definition literal (lit : string) (v : jval) (s : string) : result (jval * string) :=
  match Text.strip_prefix lit s with
  | Some rest => ok (v, rest)
  | None => fail "Expecting value"
  end.

(** A value at the head of [s] and the text after it. *)
Fixpoint value (fuel : nat) (s : string) {struct fuel} : result (jval * string) :=
  match fuel with
  | O => unsupported "nesting too deep"
  | S fuel' =>
      let elements :=
        fix elements (n : nat) (acc : list jval) (s : string) {struct n}
          : result (jval * string) :=
          match n with
          | O => unsupported "nesting too deep"
          | S n' =>
              r <-r value fuel' s ;;
              let acc' := (acc ++ [r.1])%list in
              match skip_ws r.2 with
              | String "," t => elements n' acc' (skip_ws t)
              | String "]" t => ok (JList acc', t)
              | _ => fail "Expecting ',' delimiter"
              end
          end in
      let members :=
        fix members (n : nat) (acc : dict) (s : string) {struct n}
          : result (jval * string) :=
          match n with
          | O => unsupported "nesting too deep"
          | S n' =>
              match s with
              | String q t =>
                  if (N_of_ascii q =? 34)%N then
                    k <-r chars t ;;
                    match skip_ws k.2 with
                    | String ":" t' =>
                        r <-r value fuel' (skip_ws t') ;;
                        let acc' := <[k.1 := r.1]> acc in
                        match skip_ws r.2 with
                        | String "," t'' => members n' acc' (skip_ws t'')
                        | String "}" t'' => ok (JDict acc', t'')
                        | _ => fail "Expecting ',' delimiter"
                        end
                    | _ => fail "Expecting ':' delimiter"
                    end
                  else fail "Expecting property name enclosed in double quotes"
              | EmptyString =>
                  fail "Expecting property name enclosed in double quotes"
              end
          end in
      match s with
      | String c t =>
          if (N_of_ascii c =? 34)%N then
            r <-r chars t ;; ok (JStr r.1, r.2)
          else if Ascii.eqb c "[" then
            match skip_ws t with
            | String "]" t' => ok (JList [], t')
            | t' => elements fuel' [] t'
            end
          else if Ascii.eqb c "{" then
            match skip_ws t with
            | String "}" t' => ok (JDict ∅, t')
            | t' => members fuel' ∅ t'
            end
          else if Ascii.eqb c "n" then literal "null" JNull s
          else if Ascii.eqb c "t" then literal "true" (JBool true) s
          else if Ascii.eqb c "f" then literal "false" (JBool false) s
          else if Ascii.eqb c "N" then literal "NaN" (JFloat S754_nan) s
          else if Ascii.eqb c "I" then
            literal "Infinity" (JFloat (S754_infinity false)) s
          else
            match Text.strip_prefix "-Infinity" s with
            | Some rest => ok (JFloat (S754_infinity true), rest)
            | None => number s
            end
      | EmptyString => fail "Expecting value"
      end
  end.

(** [json.loads(s)] *)
Definition loads (s : string) : result jval :=
  r <-r value (S (String.length s)) (skip_ws s) ;;
  match skip_ws r.2 with
  | EmptyString => ok r.1
  | _ => fail "Extra data"
  end.
End Json.

(** ** Numbers in strings *)

(** [int(s)]: white space around an optional sign and decimal digits. *)
Definition int_of_str (s : string) : option Z :=
  let s := Text.strip s in
  let '(neg, s0) :=
    match s with
    | String "-" t => (true, t)
    | String "+" t => (false, t)
    | _ => (false, s)
    end in
  let '(v, len, rest) := digits s0 in
  if ((len =? 0)%nat || negb (Text.is_empty rest))%bool then None
  else Some (if neg then - v else v).

(** [float(s)]: white space around an optional sign, decimal digits and an
    optional fraction and exponent. *)
Definition float_of_str (s : string) : option float :=
  let s := Text.strip s in
  let '(neg, s0) :=
    match s with
    | String "-" t => (true, t)
    | String "+" t => (false, t)
    | _ => (false, s)
    end in
  let '(v, len, rest) := digits s0 in
  if (len =? 0)%nat then None
  else
    match fraction_exponent neg v rest with
    | Some (f, EmptyString) => Some f
    | Some _ => None
    | None => if Text.is_empty rest then Some (decimal neg v 0) else None
    end.

(** [str(v)] of [None], of a boolean and of an integer; the text of a
    float, a list or a dictionary is not modelled and a placeholder stands
    for it. *)
Definition repr (v : jval) : string :=
  match v with
  | JNull => "None"
  | JBool true => "True"
  | JBool false => "False"
  | JInt z => pretty z
  | JStr s => s
  | JFloat _ => "<float>"
  | JList _ => "<list>"
  | JDict _ => "<dict>"
  end.

(** ** The parser of expressions *)

Inductive unaryop := UAdd | USub.
Inductive operator := Add | Sub | Mult | Div | FloorDiv | Mod | Pow.

(** Syntax trees of the expressions read: constants, names, attribute
    access, arithmetic and calls with positional arguments. *)
Inductive tree :=
| TConstant (v : value)
| TName (id : string)
| TAttribute (e : tree) (attr : string)
| TUnaryOp (op : unaryop) (operand : tree)
| TBinOp (lhs : tree) (op : operator) (rhs : tree)
| TCall (func : tree) (args : list tree).

Definition keywords : list string :=
  ["False"; "None"; "True"; "and"; "as"; "assert"; "async"; "await"; "break";
   "class"; "continue"; "def"; "del"; "elif"; "else"; "except"; "finally";
   "for"; "from"; "global"; "if"; "import"; "in"; "is"; "lambda"; "nonlocal";
   "not"; "or"; "pass"; "raise"; "return"; "try"; "while"; "with"; "yield"].

Module Parser.
(** A text that is not read: it can be one that Python refuses, or one of
    the syntax that is left out. *)
Definition fail {A} (msg : string) : result A := unsupported "this syntax".

Fixpoint skip (s : string) : string :=
  match s with
  | String c s' =>
      if ((N_of_ascii c =? 32) || (N_of_ascii c =? 9))%N then skip s' else s
  | EmptyString => s
  end.

Definition is_letter (c : ascii) : bool :=
  let n := N_of_ascii c in
  ((65 <=? n) && (n <=? 90) || (97 <=? n) && (n <=? 122) || (n =? 95))%N.

Fixpoint ident (s : string) : string * string :=
  match s with
  | String c s' =>
      if (is_letter c || match digit c with Some _ => true | None => false end)%bool
      then let '(i, rest) := ident s' in (String c i, rest)
      else (EmptyString, s)
  | EmptyString => (EmptyString, s)
  end.

Definition number (s : string) : result (tree * string) :=
  let '(v, len, rest) := digits s in
  match fraction_exponent false v rest with
  | Some (f, rest') => ok (TConstant (VFloat f), rest')
  | None =>
      match rest with
      | String "." _ => unsupported "this number literal"
      | _ =>
          match s with
          | String "0" _ =>
              if (len =? 1)%nat then ok (TConstant (VInt v), rest)
              else unsupported "this number literal"
          | _ => ok (TConstant (VInt v), rest)
          end
      end
  end.

(** Levels: 0 sums, 1 products, 2 signs and powers, 3 atoms with their
    attributes and calls. *)
Fixpoint parse (fuel : nat) (level : nat) (s : string) {struct fuel}
  : result (tree * string) :=
  match fuel with
  | O => unsupported "expression too deep"
  | S fuel' =>
      let sums :=
        fix sums (n : nat) (lhs : tree) (s : string) {struct n} :=
          match n with
          | O => unsupported "expression too long"
          | S n' =>
              match skip s with
              | String "+" t =>
                  r <-r parse fuel' 1%nat (skip t) ;;
                  sums n' (TBinOp lhs Add r.1) r.2
              | String "-" t =>
                  r <-r parse fuel' 1%nat (skip t) ;;
                  sums n' (TBinOp lhs Sub r.1) r.2
              | rest => ok (lhs, rest)
              end
          end in
      let products :=
        fix products (n : nat) (lhs : tree) (s : string) {struct n} :=
          match n with
          | O => unsupported "expression too long"
          | S n' =>
              match skip s with
              | String "*" (String "*" _) => fail "invalid syntax"
              | String "*" t =>
                  r <-r parse fuel' 2%nat (skip t) ;;
                  products n' (TBinOp lhs Mult r.1) r.2
              | String "/" (String "/" t) =>
                  r <-r parse fuel' 2%nat (skip t) ;;
                  products n' (TBinOp lhs FloorDiv r.1) r.2
              | String "/" t =>
                  r <-r parse fuel' 2%nat (skip t) ;;
                  products n' (TBinOp lhs Div r.1) r.2
              | String "%" t =>
                  r <-r parse fuel' 2%nat (skip t) ;;
                  products n' (TBinOp lhs Mod r.1) r.2
              | rest => ok (lhs, rest)
              end
          end in
      let arguments :=
        fix arguments (n : nat) (acc : list tree) (s : string) {struct n}
          : result (list tree * string) :=
          match n with
          | O => unsupported "expression too long"
          | S n' =>
              r <-r parse fuel' 0%nat s ;;
              let acc' := (acc ++ [r.1])%list in
              match skip r.2 with
              | String ")" t => ok (acc', t)
              | String "," t =>
                  match skip t with
                  | String ")" t' => ok (acc', t')
                  | t' => arguments n' acc' t'
                  end
              | _ => fail "invalid syntax"
              end
          end in
      let trailers :=
        fix trailers (n : nat) (e : tree) (s : string) {struct n} :=
          match n with
          | O => unsupported "expression too long"
          | S n' =>
              match skip s with
              | String "(" t =>
                  match skip t with
                  | String ")" t' => trailers n' (TCall e []) t'
                  | t' =>
                      r <-r arguments fuel' [] t' ;;
                      trailers n' (TCall e r.1) r.2
                  end
              | String "." t =>
                  let '(a, rest) := ident (skip t) in
                  if Text.is_empty a then fail "invalid syntax"
                  else trailers n' (TAttribute e a) rest
              | rest => ok (e, rest)
              end
          end in
      match level with
      | 0%nat =>
          r <-r parse fuel' 1%nat s ;;
          sums fuel' r.1 r.2
      | 1%nat =>
          r <-r parse fuel' 2%nat s ;;
          products fuel' r.1 r.2
      | 2%nat =>
          match s with
          | String "-" t =>
              r <-r parse fuel' 2%nat (skip t) ;;
              ok (TUnaryOp USub r.1, r.2)
          | String "+" t =>
              r <-r parse fuel' 2%nat (skip t) ;;
              ok (TUnaryOp UAdd r.1, r.2)
          | _ =>
              r <-r parse fuel' 3%nat s ;;
              match skip r.2 with
              | String "*" (String "*" t) =>
                  r' <-r parse fuel' 2%nat (skip t) ;;
                  ok (TBinOp r.1 Pow r'.1, r'.2)
              | _ => ok r
              end
          end
      | _ =>
          match s with
          | String "(" t =>
              r <-r parse fuel' 0%nat (skip t) ;;
              match skip r.2 with
              | String ")" t' => trailers fuel' r.1 t'
              | _ => fail "'(' was never closed"
              end
          | String c _ =>
              if is_letter c then
                let '(i, rest) := ident s in
                if bool_decide (i ∈ keywords) then unsupported "this keyword"
                else trailers fuel' (TName i) rest
              else
                match digit c with
                | Some _ =>
                    r <-r number s ;;
                    trailers fuel' r.1 r.2
                | None =>
                    if (N_of_ascii c <? 128)%N then fail "invalid syntax"
                    else unsupported "a character outside ASCII"
                end
          | EmptyString => fail "invalid syntax"
          end
      end
  end.

Definition ast_parse (s : string) : result tree :=
  r <-r parse (4 * S (String.length s)) 0%nat (skip s) ;;
  match skip r.2 with
  | EmptyString => ok r.1
  | _ => fail "invalid syntax"
  end.
End Parser.

(** ** Arithmetic *)
Module Ops.
Definition type_error {A} (what : string) : result A := throw TypeError what.

(** The array of a shape and of elements. *)
Definition array_of (s : list nat) (d : list float) : result value :=
  match mk_array s d with
  | Some a => ok (VArr a)
  | None => unsupported "elements that do not fill the shape"
  end.

(** [float(z)] *)
Definition float_of_int (z : Z) : result float :=
  let f := Float.of_Z z in
  if Float.is_inf f
  then throw OverflowError "int too large to convert to float"
  else ok f.

(** [a / b] on integers: the quotient rounded once. *)
Definition int_truediv (a b : Z) : result value :=
  match b with
  | Z0 => throw ZeroDivisionError "division by zero"
  | Zpos d =>
      let f := match a with
               | Z0 => S754_zero false
               | _ => Float.of_ratio a d
               end in
      if Float.is_inf f
      then throw OverflowError "integer division result too large for a float"
      else ok (VFloat f)
  | Zneg d =>
      let f := match a with
               | Z0 => S754_zero true
               | _ => Float.of_ratio (- a) d
               end in
      if Float.is_inf f
      then throw OverflowError "integer division result too large for a float"
      else ok (VFloat f)
  end.

Definition int_binop (op : operator) (a b : Z) : result value :=
  match op with
  | Add => ok (VInt (a + b))
  | Sub => ok (VInt (a - b))
  | Mult => ok (VInt (a * b))
  | Div => int_truediv a b
  | FloorDiv =>
      if b =? 0 then throw ZeroDivisionError "integer division or modulo by zero"
      else ok (VInt (a / b))
  | Mod =>
      if b =? 0 then throw ZeroDivisionError "integer modulo by zero"
      else ok (VInt (a mod b))
  | Pow =>
      if b <? 0 then unsupported "a negative power of an integer"
      else ok (VInt (a ^ b))
  end.

(** Operators on two Python floats. *)
Definition float_binop (op : operator) (a b : float) : result value :=
  match op with
  | Add => ok (VFloat (Float.add a b))
  | Sub => ok (VFloat (Float.sub a b))
  | Mult => ok (VFloat (Float.mul a b))
  | Div =>
      if Float.is_zero b then throw ZeroDivisionError "float division by zero"
      else ok (VFloat (Float.div a b))
  | FloorDiv | Mod | Pow => unsupported "this operator on floats"
  end.

(** Element-wise operators of NumPy: no exception, a division by zero
    gives an infinity or not-a-number. *)
Definition ufunc_binop (op : operator) : result (float -> float -> float) :=
  match op with
  | Add => ok Float.add
  | Sub => ok Float.sub
  | Mult => ok Float.mul
  | Div => ok Float.div
  | FloorDiv | Mod | Pow => unsupported "this operator on arrays"
  end.

(** A Python number as an operand of an array. *)
Definition scalar (v : value) : option (result float) :=
  match v with
  | VInt z =>
      Some (if Z.abs z <? 2 ^ 63 then ok (Float.of_Z z)
            else unsupported "an integer beyond 64 bits with an array")
  | VFloat f => Some (ok f)
  | _ => None
  end.

Definition py_binop (op : operator) (a b : value) : result value :=
  match a, b with
  | VInt x, VInt y => int_binop op x y
  | VInt x, VFloat y => fx <-r float_of_int x ;; float_binop op fx y
  | VFloat x, VInt y => fy <-r float_of_int y ;; float_binop op x fy
  | VFloat x, VFloat y => float_binop op x y
  | VArr x, VArr y =>
      f <-r ufunc_binop op ;;
      if bool_decide (shape x = shape y)
      then array_of (shape x) (zip_with f (data x) (data y))
      else unsupported "arrays of different shapes"
  | VArr x, _ =>
      match scalar b with
      | Some r =>
          f <-r ufunc_binop op ;;
          y <-r r ;;
          array_of (shape x) (map (fun u => f u y) (data x))
      | None => unsupported "this operand"
      end
  | _, VArr y =>
      match scalar a with
      | Some r =>
          f <-r ufunc_binop op ;;
          x <-r r ;;
          array_of (shape y) (map (fun u => f x u) (data y))
      | None => unsupported "this operand"
      end
  | _, _ => unsupported "this operand"
  end.

Definition py_unaryop (op : unaryop) (v : value) : result value :=
  match v, op with
  | VInt z, UAdd => ok (VInt z)
  | VInt z, USub => ok (VInt (- z))
  | VFloat f, UAdd => ok (VFloat f)
  | VFloat f, USub => ok (VFloat (Float.opp f))
  | VArr a, UAdd => ok (VArr a)
  | VArr a, USub => array_of (shape a) (map Float.opp (data a))
  | _, _ => unsupported "this operand"
  end.

Definition py_call (f : value) (args : list value) : result value :=
  match f with
  | VUfunc name =>
      match args with
      | [VArr a] =>
          if String.eqb name "sqrt"
          then array_of (shape a) (map (SFsqrt Float.prec Float.emax) (data a))
          else if String.eqb name "absolute"
          then array_of (shape a) (map SFabs (data a))
          else unsupported "this function"
      | _ => unsupported "this call"
      end
  | VInt _ | VFloat _ | VArr _ | VModule _ | VDict _ =>
      type_error ("'" +:+ value_type_name f +:+ "' object is not callable")
  | VTyped _ _ _ | VObject _ => unsupported "this call"
  end.

Definition ufuncs : list string :=
  ["sin"; "cos"; "tan"; "arcsin"; "arccos"; "arctan"; "sinh"; "cosh";
   "tanh"; "exp"; "log"; "log10"; "sqrt"; "absolute"].

Definition py_getattr (v : value) (attr : string) : result value :=
  match v with
  | VModule _ =>
      if bool_decide (attr ∈ ufuncs) then ok (VUfunc attr)
      else if String.eqb attr "abs" then ok (VUfunc "absolute")
      else if String.eqb attr "pi" then ok (VFloat Float.pi)
      else if String.eqb attr "e" then ok (VFloat Float.e)
      else unsupported "this attribute"
  | _ => unsupported "this attribute"
  end.
End Ops.

(** ** The evaluation of a tree *)
Section Eval.
Variables globals locals : gmap string value.

Fixpoint eval_tree (e : tree) : result value :=
  match e with
  | TConstant v => ok v
  | TName id => load_name globals locals id
  | TAttribute e attr =>
      v <-r eval_tree e ;;
      Ops.py_getattr v attr
  | TUnaryOp op operand =>
      v <-r eval_tree operand ;;
      Ops.py_unaryop op v
  | TBinOp lhs op rhs =>
      a <-r eval_tree lhs ;;
      b <-r eval_tree rhs ;;
      Ops.py_binop op a b
  | TCall func args =>
      f <-r eval_tree func ;;
      vs <-r (fix eval_args (l : list tree) : result (list value) :=
                match l with
                | [] => ok []
                | a :: l' =>
                    v <-r eval_tree a ;;
                    vs <-r eval_args l' ;;
                    ok (v :: vs)
                end) args ;;
      Ops.py_call f vs
  end.
End Eval.

(** The parser of [eval]: a text that is not read is left to the
    evaluation, which says so. *)
Definition ast_parse (s : string) : result expr :=
  match Parser.ast_parse s with
  | inr (TConstant v) => ok (Constant v)
  | inr (TName id) => ok (Name id)
  | _ => ok Composite
  end.

(** The expressions of this host write to nothing. *)
Definition py_eval_composite (s : string) (globals locals : gmap string value)
    (x : ndarray) (h : heap) : result value * ndarray * heap :=
  (t <-r Parser.ast_parse s ;; eval_tree globals locals t, x, h).

(** ** The grid *)

(** The samples of [np.linspace(start, stop, num)]: [num] points from
    [start], the last one set to [stop]. *)
Definition linspace (start stop : float) (num : Z) : list float :=
  let div := num - 1 in
  let delta := Float.sub stop start in
  let indices := map (fun i => Float.of_Z (Z.of_nat i)) (seq 0 (Z.to_nat num)) in
  let y :=
    if 0 <? div then
      let step := Float.div delta (Float.of_Z div) in
      if Float.is_zero step
      then map (fun i => Float.mul (Float.div i (Float.of_Z div)) delta) indices
      else map (fun i => Float.mul i step) indices
    else map (fun i => Float.mul i delta) indices in
  let y := map (fun v => Float.add v start) y in
  if 1 <? num then <[Z.to_nat div := stop]> y else y.

Definition number (v : jval) : result float :=
  match v with
  | JInt z => Ops.float_of_int z
  | JFloat f => ok f
  | _ => unsupported "this bound of the grid"
  end.

Definition np_linspace (start stop num : jval) : result ndarray :=
  match num with
  | JInt n =>
      if n <? 0 then throw ValueError "Number of samples must be non-negative."
      else
        a <-r number start ;;
        b <-r number stop ;;
        match mk_array [Z.to_nat n] (linspace a b n) with
        | Some x => ok x
        | None => unsupported "this grid"
        end
  | JFloat _ => throw TypeError "'float' object cannot be interpreted as an integer"
  | _ => unsupported "this number of samples"
  end.

(** The drawing is not modelled: a fixed text stands for the encoded
    image. *)
Definition savefig (payload : dict) (x : ndarray) (y : array) : result string :=
  ok "PNG".

#[export] Instance host : Host :=
  Build_Host Utf8.decode_utf8 Json.loads float_of_str int_of_str repr
    ast_parse py_eval_composite
    (fun _ => unsupported "this object")
    (fun _ _ => unsupported "this array")
    np_linspace savefig.
End Reference.

(** ** An expression that leaves the namespace

    [escape] is made of names of the namespace and of attribute access
    only.  Its generator runs under a lambda that [eval] calls: from the
    frame of the generator, [f_back] leads to the frame of the lambda, to
    that of the code of [eval] and to that of [evaluate_expression], whose
    globals are those of the module; the expression empties
    [DEFAULT_PAYLOAD] there and returns [x]. *)

Definition escape : string :=
  "(lambda x=x: [g := (g.gi_frame.f_back.f_back.f_back.f_globals['DEFAULT_PAYLOAD'].clear() for _ in [0]), [*g], x][2])()".

(** What the interpreter does on [escape]. *)
Definition escapes `{Host} : Prop :=
  ast_parse escape = ok Composite
  /\ forall (x : ndarray) (h : heap),
       py_eval_composite escape eval_globals (safe_locals x) x h
       = (ok (VArr x), x, <[DEFAULT_PAYLOAD := ∅]> h).

(** The reference host with an interpreter that does so. *)
Module Escaping.
Definition py_eval_composite (s : string) (globals locals : gmap string value)
    (x : ndarray) (h : heap) : result value * ndarray * heap :=
  if String.eqb s escape
  then (ok (VArr x), x, <[DEFAULT_PAYLOAD := ∅]> h)
  else Reference.py_eval_composite s globals locals x h.

Definition host : Host :=
  Build_Host Reference.Utf8.decode_utf8 Reference.Json.loads
    Reference.float_of_str Reference.int_of_str Reference.repr
    Reference.ast_parse py_eval_composite
    (fun _ => Reference.unsupported "this object")
    (fun _ _ => Reference.unsupported "this array")
    Reference.np_linspace Reference.savefig.
End Escaping.

(** ** What the checks of the validator decide

    The checks of [validate_payload] as functions of the items of the
    payload, in the order the specification lists them. *)

Section Checks.
Context `{Host}.

(** The interval when [xMin] and [xMax] convert to numbers that pass the
    comparison. *)
Definition interval_of (d : dict) : option (float * float) :=
  match d !! "xMin", d !! "xMax" with
  | Some a, Some b =>
      match py_float a, py_float b with
      | inr x_min, inr x_max =>
          if Float.ge x_min x_max then None else Some (x_min, x_max)
      | _, _ => None
      end
  | _, _ => None
  end.

(** The sample count when it converts to an integer within the bounds. *)
Definition samples_of (d : dict) : option Z :=
  match d !! "samples" with
  | Some a =>
      match py_int a with
      | inr n => if (2 <=? n) && (n <=? 10000) then Some n else None
      | inl _ => None
      end
  | None => None
  end.

(** The line width when it converts to a number within the bounds. *)
Definition line_width_of (d : dict) : option float :=
  match d !! "lineWidth" with
  | Some a =>
      match py_float a with
      | inr w =>
          if Float.le (Float.of_ratio 1 10) w && Float.le w (Float.of_Z 10)
          then Some w else None
      | inl _ => None
      end
  | None => None
  end.

(** The expression as the validator reads it. *)
Definition expression_of (d : dict) : string :=
  Text.strip (py_str (default JNull (d !! "expression"))).

(** The five checks that can fail, each with its message, in order. *)
Definition checks (d : dict) : list (bool * string) :=
  [(bool_decide (is_Some (interval_of d)), Msg.interval);
   (bool_decide (is_Some (samples_of d)), Msg.samples);
   (negb (Text.is_empty (expression_of d)), Msg.empty);
   (negb (Re.search DENYLIST (expression_of d)), Msg.disallowed);
   (bool_decide (is_Some (line_width_of d)), Msg.line_width)].

(** The message of the first check that fails. *)
Fixpoint first_failure (cs : list (bool * string)) : option string :=
  match cs with
  | [] => None
  | (passed, msg) :: cs' => if passed then first_failure cs' else Some msg
  end.

(** [str(v).strip() or dflt] *)
Definition text_or (dflt : jval) (v : jval) : jval :=
  let s := Text.strip (py_str v) in
  if Text.is_empty s then dflt else JStr s.

(** The items of a payload once the assignments that precede the check of
    the line width are done, [d0] being the items of [DEFAULT_PAYLOAD]. *)
Definition coerced (d0 d : dict) (x_min x_max : float) (samples : Z) : dict :=
  let expression := expression_of d in
  let d := <["xMin" := JFloat x_min]> d in
  let d := <["xMax" := JFloat x_max]> d in
  let d := <["samples" := JInt samples]> d in
  let d := <["expression" := JStr expression]> d in
  let d := <["title" := text_or (default JNull (d0 !! "title"))
                          (default (JStr "") (d !! "title"))]> d in
  let d := <["xLabel" := text_or (default JNull (d0 !! "xLabel"))
                           (default (JStr "") (d !! "xLabel"))]> d in
  let d := <["yLabel" := text_or (default JNull (d0 !! "yLabel"))
                           (default (JStr "") (d !! "yLabel"))]> d in
  let c := default JNull (d !! "color") in
  let d := <["color" := JStr (py_str (if truthy c then c
                                      else default JNull (d0 !! "color")))]> d in
  let m := default JNull (d !! "marker") in
  <["marker" := JStr (py_str (if truthy m then m else JStr ""))]> d.

(** The items of a payload that passed validation. *)
Definition validated (d0 d : dict) (x_min x_max : float) (samples : Z)
    (line_width : float) : dict :=
  let d := <["lineWidth" := JFloat line_width]> (coerced d0 d x_min x_max samples) in
  <["grid" := JBool (truthy (default (default JNull (d0 !! "grid")) (d !! "grid")))]> d.

(** The outcome of [validate_payload] on a payload holding [d]. *)
Definition validation (l : loc) (d0 d : dict) : result loc * dict :=
  match interval_of d with
  | None => (throw ValueError Msg.interval, d)
  | Some (x_min, x_max) =>
      match samples_of d with
      | None => (throw ValueError Msg.samples, d)
      | Some samples =>
          if Text.is_empty (expression_of d)
          then (throw ValueError Msg.empty, d)
          else if Re.search DENYLIST (expression_of d)
          then (throw ValueError Msg.disallowed, d)
          else
            match line_width_of d with
            | None =>
                (throw ValueError Msg.line_width,
                 coerced d0 d x_min x_max samples)
            | Some w => (ok l, validated d0 d x_min x_max samples w)
            end
      end
  end.
End Checks.

(** The keys that [validate_payload] assigns. *)
Definition FIELDS : list string :=
  ["xMin"; "xMax"; "samples"; "expression"; "title"; "xLabel"; "yLabel";
   "color"; "marker"; "lineWidth"; "grid"].

(** ** What the rendering and the handler compute *)

(** [d[k]] on the items of a dictionary. *)
Definition item (d : dict) (k : string) : result jval :=
  match d !! k with
  | Some v => ok v
  | None => throw KeyError ("'" +:+ k +:+ "'")
  end.

(** What [render_plot] reads before the evaluation: the expression and
    the grid. *)
Definition grid_of `{Host} (d : dict) : result (jval * ndarray) :=
  a <-r item d "xMin" ;;
  b <-r item d "xMax" ;;
  n <-r item d "samples" ;;
  x <-r np_linspace a b n ;;
  e <-r item d "expression" ;;
  ok (e, x).

(** What [render_plot] returns after the evaluation, [d] being what the
    payload holds then and [r] what the evaluation returned. *)
Definition drawn `{Host} (d : dict) (r : array * ndarray) : result (string * metadata) :=
  encoded <-r savefig d r.2 r.1 ;;
  a <-r item d "xMin" ;;
  b <-r item d "xMax" ;;
  n <-r item d "samples" ;;
  ok (encoded, Metadata a b n).

(** The evaluation of [expression] on [x] is quiet: its outcome is the
    same on every heap, and it leaves the heap as it was. *)
Definition quiet `{Host} (expression : jval) (x : ndarray) : Prop :=
  exists r, forall h : heap, evaluate_expression expression x h = (r, h).

(** The answer of [do_POST] to the outcome of its [try] block, when that is
    not an exception that passes through [except Exception]. *)
Definition post_answer (r : result (string * metadata)) : response :=
  match r with
  | inr r => build_response 200 (ImageBody ("data:image/png;base64," +:+ r.1) r.2 false)
  | inl exc =>
      if is_ValueError exc
      then build_response 400 (ErrorBody (exn_msg exc))
      else build_response 500 (ErrorBody (Msg.internal +:+ exn_msg exc))
  end.

(** ** Occurrences in a text, as the specification words the denylist *)

(** [sub] occurs somewhere in [s]. *)
Definition contains (sub s : string) : Prop :=
  exists pre post, s = pre +:+ sub +:+ post.

(** [w] occurs in [s] as a whole word: no word character just before it nor
    just after it. *)
Definition whole_word (w s : string) : Prop :=
  exists pre post,
    s = pre +:+ w +:+ post
    /\ Re.is_word_opt (Text.last_char None pre) = false
    /\ Re.is_word_opt (Text.head post) = false.

Definition disallowed (s : string) : Prop :=
  contains "__" s \/ contains "import" s
  \/ whole_word "exec" s \/ whole_word "eval" s
  \/ whole_word "os" s \/ whole_word "sys" s.

(** ** Shapes of the items of a pattern *)

(** A word of the pattern begins and ends with a word character. *)
Definition wordy (w : string) : Prop :=
  Re.is_word_opt (Text.head w) = true
  /\ forall prev, Re.is_word_opt (Text.last_char prev w) = true.

Fixpoint no_space (w : string) : bool :=
  match w with
  | String c w' => negb (Text.is_space c) && no_space w'
  | EmptyString => true
  end.

Definition item_text (i : Re.item) : string :=
  match i with Re.Lit w | Re.Word w => w end.

(** The literal of the item is not empty and has no white space. *)
Definition solid (i : Re.item) : bool :=
  negb (Text.is_empty (item_text i)) && no_space (item_text i).

(** ** Footprints *)

(** [m] changes no dictionary but the one at [l]. *)
Definition frame {A} (l : loc) (m : M A) : Prop :=
  forall (h : heap) l', l' <> l -> (m h).2 !! l' = h !! l'.

(** [m] changes no dictionary at all. *)
Definition reads {A} (m : M A) : Prop := forall h : heap, (m h).2 = h.

(** The heap still holds the defaults at their address. *)
Definition intact (h : heap) : Prop := h !! DEFAULT_PAYLOAD = Some default_items.

(** ** Example inputs *)

(** A heap with the defaults and one payload holding [d], at address 1. *)
Definition custom_heap (d : dict) : heap := initial_heap ++ [d].

(** A payload whose sample count and line width are not numbers. *)
Definition not_numbers : dict :=
  <["lineWidth" := JStr "thick"]> (<["samples" := JList []]> default_items).

(** A grid of two points and the grid of [np.linspace(-1, 1, 3)]. *)
Definition grid2 : ndarray := NdArray [2%nat] [Float.of_Z 0; Float.of_Z 1].
Definition grid3 : ndarray :=
  NdArray [3%nat] [Float.of_Z (-1); Float.of_Z 0; Float.of_Z 1].

(** The bytes of a text of ASCII characters. *)
Definition ascii_bytes (s : string) : bytes := list_byte_of_string s.

Definition quote (s : string) : string :=
  String (ascii_of_N 34) s +:+ String (ascii_of_N 34) "".

(** A body with a key that the defaults do not have. *)
Definition body_unknown_key : string := "{" +:+ quote "foo" +:+ ": 1}".

(** A body that sets one field and gives null for another. *)
Definition body_partial : string :=
  "{" +:+ quote "xMin" +:+ ": 5, " +:+ quote "color" +:+ ": null}".

(** A payload whose expression names a module of the denylist. *)
Definition denied : dict := <["expression" := JStr "os.getcwd()"]> default_items.

(** A payload with a key that no stage reads. *)
Definition with_note : dict := <["note" := JStr "draft"]> default_items.

(** A payload whose bounds and line width are not-a-number. *)
Definition with_nan : dict :=
  <["xMin" := JFloat S754_nan]> (<["lineWidth" := JFloat S754_nan]> default_items).

(** A payload without its expression. *)
Definition without_expression : dict := delete "expression" default_items.

(** A payload with a blank title, no color and the text [false] for the
    grid. *)
Definition blank_title : dict :=
  <["title" := JStr "   "]>
    (<["color" := JStr ""]> (<["grid" := JStr "false"]> default_items)).

(** A body that asks for one sample. *)
Definition body_one_sample : string := "{" +:+ quote "samples" +:+ ": 1}".

(** A body that plots the identity on three points. *)
Definition body_identity : string :=
  "{" +:+ quote "expression" +:+ ": " +:+ quote "x" +:+ ", "
  +:+ quote "samples" +:+ ": 3}".

(** A body whose expression names a function. *)
Definition body_function : string :=
  "{" +:+ quote "expression" +:+ ": " +:+ quote "sin" +:+ ", "
  +:+ quote "samples" +:+ ": 3}".

(** A body whose expression is [escape]. *)
Definition body_escape : string :=
  "{" +:+ quote "expression" +:+ ": " +:+ quote escape +:+ "}".

(** The defaults with [escape] for their expression. *)
Definition escaping : dict := <["expression" := JStr escape]> default_items.

(** The grid of the defaults, on the reference host. *)
Definition default_grid : ndarray :=
  match Reference.np_linspace (JFloat (Float.mul (Float.of_Z (-2)) Float.pi))
          (JFloat (Float.mul (Float.of_Z 2) Float.pi)) (JInt 500) with
  | inr x => x
  | inl _ => grid2
  end.


(** * Proofs *)

(** ** Running the heap monad *)

Lemma deref_lookup (h : heap) l d : h !! l = Some d -> deref l h = d.
Proof. unfold deref. by intros ->. Qed.

Lemma deref_insert_eq (h : heap) l d : (l < length h)%nat -> deref l (<[l := d]> h) = d.
Proof. intros. unfold deref. by rewrite list_lookup_insert_eq. Qed.

Lemma deref_insert_ne (h : heap) l l' d : l <> l' -> deref l' (<[l := d]> h) = deref l' h.
Proof. intros. unfold deref. by rewrite list_lookup_insert_ne. Qed.

Section Runs.
Context `{Host}.

(** The conversions raise exceptions that [except Exception] catches. *)
Lemma py_float_raises a exc : py_float a = inl exc -> Exception exc = true.
Proof.
  destruct a; simpl; try (by intros [= <-]).
  - destruct (Float.is_inf _); by intros [= <-].
  - destruct (float_of_str _); by intros [= <-].
Qed.

Lemma py_int_raises a exc : py_int a = inl exc -> Exception exc = true.
Proof.
  destruct a as [| |z|f|s| |]; simpl; try (by intros [= <-]).
  - destruct f; by intros [= <-].
  - destruct (int_of_str _); by intros [= <-].
Qed.

Lemma read_interval_run h l :
  read_interval l h =
    (match interval_of (deref l h) with
     | Some iv => ok iv
     | None => throw ValueError Msg.interval
     end, h).
Proof.
  unfold read_interval, interval_of, try_except, bind, getitem, lift, raise, ret.
  destruct (deref l h !! "xMin") as [a|]; [|done].
  destruct (py_float a) as [exc|x] eqn:Ha.
  { rewrite (py_float_raises a exc Ha). by destruct (deref l h !! "xMax"). }
  destruct (deref l h !! "xMax") as [b|]; [|done].
  destruct (py_float b) as [exc|y] eqn:Hb.
  { by rewrite (py_float_raises b exc Hb). }
  by destruct (Float.ge x y).
Qed.

Lemma read_samples_run h l :
  read_samples l h =
    (match samples_of (deref l h) with
     | Some n => ok n
     | None => throw ValueError Msg.samples
     end, h).
Proof.
  unfold read_samples, samples_of, try_except, bind, getitem, lift, raise, ret.
  destruct (deref l h !! "samples") as [a|]; [|done].
  destruct (py_int a) as [exc|n] eqn:Ha.
  { by rewrite (py_int_raises a exc Ha). }
  by destruct ((2 <=? n) && (n <=? 10000)).
Qed.

Lemma read_line_width_run h l :
  read_line_width l h =
    (match line_width_of (deref l h) with
     | Some w => ok w
     | None => throw ValueError Msg.line_width
     end, h).
Proof.
  unfold read_line_width, line_width_of, try_except, bind, getitem, lift, raise, ret.
  destruct (deref l h !! "lineWidth") as [a|]; [|done].
  destruct (py_float a) as [exc|w] eqn:Ha.
  { by rewrite (py_float_raises a exc Ha). }
  by destruct (Float.le (Float.of_ratio 1 10) w && Float.le w (Float.of_Z 10)).
Qed.



Lemma step_read_interval {A} l (f : float * float -> M A) h :
  bind (read_interval l) f h =
    match interval_of (deref l h) with
    | Some iv => f iv h
    | None => (throw ValueError Msg.interval, h)
    end.
Proof. unfold bind. rewrite read_interval_run. by destruct interval_of. Qed.

Lemma step_read_samples {A} l (f : Z -> M A) h :
  bind (read_samples l) f h =
    match samples_of (deref l h) with
    | Some n => f n h
    | None => (throw ValueError Msg.samples, h)
    end.
Proof. unfold bind. rewrite read_samples_run. by destruct samples_of. Qed.

Lemma step_read_line_width {A} l (f : float -> M A) h :
  bind (read_line_width l) f h =
    match line_width_of (deref l h) with
    | Some w => f w h
    | None => (throw ValueError Msg.line_width, h)
    end.
Proof. unfold bind. rewrite read_line_width_run. by destruct line_width_of. Qed.

Section Steps.
Variables (h : heap) (l : loc).
Hypothesis Hlen : (l < length h)%nat.
Hypothesis Hne : l <> DEFAULT_PAYLOAD.
Hypothesis H0 : h !! DEFAULT_PAYLOAD = Some default_items.

Lemma step_setitem {A} k v (f : unit -> M A) d :
  bind (setitem l k v) f (<[l := d]> h) = f tt (<[l := <[k := v]> d]> h).
Proof using Hlen Hne H0.
  unfold bind, setitem. by rewrite deref_insert_eq, list_insert_insert_eq.
Qed.

Lemma step_get {A} k dflt (f : jval -> M A) d :
  bind (get l k dflt) f (<[l := d]> h) = f (default dflt (d !! k)) (<[l := d]> h).
Proof using Hlen Hne H0. unfold bind, get. by rewrite deref_insert_eq. Qed.

Lemma step_getitem {A} k v (f : jval -> M A) d :
  d !! k = Some v ->
  bind (getitem l k) f (<[l := d]> h) = f v (<[l := d]> h).
Proof using Hlen Hne H0. intros Hk. unfold bind, getitem. by rewrite deref_insert_eq, Hk. Qed.

Lemma step_default {A} k (f : jval -> M A) d :
  is_Some (default_items !! k) ->
  bind (getitem DEFAULT_PAYLOAD k) f (<[l := d]> h)
  = f (default JNull (default_items !! k)) (<[l := d]> h).
Proof using Hlen Hne H0.
  intros [v Hk]. unfold bind, getitem.
  rewrite deref_insert_ne by done. by rewrite (deref_lookup _ _ _ H0), Hk.
Qed.

Lemma step_or_default {A} s k (f : jval -> M A) d :
  is_Some (default_items !! k) ->
  bind (or_default s k) f (<[l := d]> h)
  = f (if Text.is_empty s then default JNull (default_items !! k) else JStr s)
      (<[l := d]> h).
Proof using Hlen Hne H0.
  intros Hk. unfold or_default. destruct (Text.is_empty s).
  - by apply step_default.
  - done.
Qed.

Lemma step_truthy_or_default {A} c k (f : jval -> M A) d :
  is_Some (default_items !! k) ->
  bind (if truthy c then ret c else getitem DEFAULT_PAYLOAD k) f (<[l := d]> h)
  = f (if truthy c then c else default JNull (default_items !! k)) (<[l := d]> h).
Proof using Hlen Hne H0.
  intros Hk. destruct (truthy c).
  - done.
  - by apply step_default.
Qed.

End Steps.



Lemma validate_payload_run_insert h l d :
  (l < length h)%nat ->
  l <> DEFAULT_PAYLOAD ->
  h !! DEFAULT_PAYLOAD = Some default_items ->
  is_Some (d !! "expression") ->
  validate_payload l (<[l := d]> h) =
    ((validation l default_items d).1, <[l := (validation l default_items d).2]> h).
Proof.
  intros Hlen Hne H0 [e He].
  assert (Hd : deref l (<[l := d]> h) = d) by (by apply deref_insert_eq).
  unfold validate_payload, validation.
  rewrite step_read_interval, Hd.
  destruct (interval_of d) as [[x_min x_max]|]; [|done].
  rewrite step_read_samples, Hd.
  destruct (samples_of d) as [n|]; [|done].
  rewrite (step_getitem h l Hlen Hne H0 _ e) by done.
  assert (Hex : Text.strip (py_str e) = expression_of d)
    by (unfold expression_of; by rewrite He).
  rewrite Hex.
  destruct (Text.is_empty (expression_of d)) eqn:Hempty; [done|].
  destruct (Re.search DENYLIST (expression_of d)) eqn:Hdeny; [done|].
  cbn [fst snd].
  transitivity
    ((line_width <- read_line_width l ;;
      setitem l "lineWidth" (JFloat line_width) ;;
      g <- getitem DEFAULT_PAYLOAD "grid" ;;
      g <- get l "grid" g ;;
      setitem l "grid" (JBool (truthy g)) ;;
      ret l) (<[l := coerced default_items d x_min x_max n]> h)).
  { repeat first
      [ rewrite (step_setitem h l Hlen Hne H0)
      | rewrite (step_get h l Hlen Hne H0)
      | rewrite (step_or_default h l Hlen Hne H0) by (vm_compute; by eexists)
      | rewrite (step_truthy_or_default h l Hlen Hne H0) by (vm_compute; by eexists) ].
    reflexivity. }
  rewrite step_read_line_width, deref_insert_eq by done.
  replace (line_width_of (coerced default_items d x_min x_max n))
    with (line_width_of d)
    by (unfold line_width_of, coerced; by rewrite !lookup_insert_ne by done).
  destruct (line_width_of d) as [w|]; [|done].
  repeat first
    [ rewrite (step_setitem h l Hlen Hne H0)
    | rewrite (step_get h l Hlen Hne H0)
    | rewrite (step_default h l Hlen Hne H0) by (vm_compute; by eexists) ].
  reflexivity.
Qed.

Lemma validate_payload_run h l d :
  h !! l = Some d ->
  l <> DEFAULT_PAYLOAD ->
  h !! DEFAULT_PAYLOAD = Some default_items ->
  is_Some (d !! "expression") ->
  validate_payload l h =
    ((validation l default_items d).1, <[l := (validation l default_items d).2]> h).
Proof.
  intros Hl Hne H0 He.
  rewrite <- (list_insert_id h l d Hl) at 1.
  apply validate_payload_run_insert; [by eapply lookup_lt_Some|done..].
Qed.
End Runs.

(** ** Texts *)

(** The search on a few expressions, as [re.search] answers on them. *)
Example search_examples :
  map (Re.search DENYLIST)
    ["os"; "cos(x)"; "os.path"; "x_os"; "a os b"; "repos"; "__x";
     "reimported"; "exec"; "execx"; "sys+eval"; "sin(x)"; " os"; "x*os"]
  = [true; false; true; false; true; false; true;
     true; true; false; true; false; true; true].
Proof. reflexivity. Qed.

Example strip_example : Text.strip "  a b  " = "a b".
Proof. reflexivity. Qed.

Lemma append_nil (b : string) : "" +:+ b = b.
Proof. reflexivity. Qed.

Lemma append_cons c (a b : string) : String c a +:+ b = String c (a +:+ b).
Proof. reflexivity. Qed.

Lemma append_assoc (a b c : string) : (a +:+ b) +:+ c = a +:+ b +:+ c.
Proof.
  induction a as [|x a IH]; [done|]. rewrite !append_cons. by f_equal.
Qed.

Lemma last_char_append prev (a b : string) :
  Text.last_char prev (a +:+ b) = Text.last_char (Text.last_char prev a) b.
Proof.
  revert prev. induction a as [|x a IH]; intros prev; [done|].
  rewrite append_cons. simpl. apply IH.
Qed.

Lemma strip_prefix_Some w s rest :
  Text.strip_prefix w s = Some rest <-> s = w +:+ rest.
Proof.
  revert s. induction w as [|a w IH]; intros s; simpl.
  - rewrite append_nil. split; [by intros [= ->]|by intros ->].
  - rewrite append_cons. destruct s as [|c s].
    + split; [done|discriminate].
    + destruct (Ascii.eqb_spec a c) as [->|Hne].
      * rewrite IH. split; [by intros ->|by intros [= ->]].
      * split; [done|]. intros [= ? ?]. by destruct Hne.
Qed.

Lemma space_not_word c : Text.is_space c = true -> Text.is_word c = false.
Proof. destruct c as [[] [] [] [] [] [] [] []]; vm_compute; congruence. Qed.

(** An occurrence of an item of the pattern, found by the search. *)
Lemma search_from_spec alts prev s :
  Re.search_from alts prev s = true <->
  exists pre rest i,
    s = pre +:+ rest /\ In i alts
    /\ Re.match_here (Text.last_char prev pre) rest i = true.
Proof.
  revert prev. induction s as [|c s IH]; intros prev; simpl.
  - rewrite orb_false_r, existsb_exists. split.
    + intros (i & Hi & Hm). by exists "", "", i.
    + intros (pre & rest & i & Hs & Hi & Hm).
      destruct pre; [|done]. rewrite append_nil in Hs. subst rest. by exists i.
  - rewrite orb_true_iff, existsb_exists, IH. split.
    + intros [(i & Hi & Hm) | (pre & rest & i & -> & Hi & Hm)].
      * by exists "", (String c s), i.
      * by exists (String c pre), rest, i.
    + intros (pre & rest & i & Hs & Hi & Hm).
      destruct pre as [|c' pre].
      * rewrite append_nil in Hs. subst rest. left. by exists i.
      * rewrite append_cons in Hs. injection Hs as -> ->. right. by exists pre, rest, i.
Qed.

Lemma match_here_lit prev s w :
  Re.match_here prev s (Re.Lit w) = true <-> exists post, s = w +:+ post.
Proof.
  simpl. destruct (Text.strip_prefix w s) as [rest|] eqn:Hp.
  - apply strip_prefix_Some in Hp. split; [by exists rest|done].
  - split; [done|]. intros [post Hs%strip_prefix_Some]. congruence.
Qed.

Lemma match_here_word prev s w :
  wordy w ->
  Re.match_here prev s (Re.Word w) = true <->
  exists post,
    s = w +:+ post
    /\ Re.is_word_opt prev = false
    /\ Re.is_word_opt (Text.head post) = false.
Proof.
  intros [Hhead Hlast]. simpl. unfold Re.boundary.
  destruct (Text.strip_prefix w s) as [rest|] eqn:Hp.
  - apply strip_prefix_Some in Hp. subst s.
    assert (Hh : Text.head (w +:+ rest) = Text.head w).
    { destruct w; [done|done]. }
    rewrite Hh, Hhead, Hlast. rewrite andb_true_iff, !xorb_true_r, !negb_true_iff.
    split.
    + intros [? ?]. by exists rest.
    + intros (post & Heq & ? & ?). by apply String.app_inj in Heq as <-.
  - rewrite andb_false_r. split; [done|].
    intros (post & Hs%strip_prefix_Some & _). congruence.
Qed.

Lemma contains_spec prev sub s :
  contains sub s <->
  exists pre rest, s = pre +:+ rest /\ Re.match_here (Text.last_char prev pre) rest (Re.Lit sub) = true.
Proof.
  unfold contains. split.
  - intros (pre & post & ->). exists pre, (sub +:+ post). split; [done|].
    apply match_here_lit. by exists post.
  - intros (pre & rest & -> & [post ->]%match_here_lit). by exists pre, post.
Qed.

Lemma whole_word_spec w s :
  wordy w ->
  whole_word w s <->
  exists pre rest, s = pre +:+ rest /\ Re.match_here (Text.last_char None pre) rest (Re.Word w) = true.
Proof.
  intros Hw. unfold whole_word. split.
  - intros (pre & post & -> & Hb & Ha). exists pre, (w +:+ post). split; [done|].
    apply match_here_word; [done|]. by exists post.
  - intros (pre & rest & -> & (post & -> & Hb & Ha)%match_here_word); [|done].
    by exists pre, post.
Qed.

Lemma wordy_compute w :
  (match w with
   | String a _ => Text.is_word a && Re.is_word_opt (Text.last_char None w)
   | EmptyString => false
   end) = true -> wordy w.
Proof.
  destruct w as [|a w]; [done|]. intros [Ha Hl]%andb_true_iff. split; [done|].
  intros prev. simpl in *. revert Hl. generalize a. clear.
  induction w as [|b w IH]; intros a; simpl; [done|]. apply IH.
Qed.

(** The search for the denylist decides the property worded by the
    specification. *)
Lemma search_denylist_iff s : Re.search DENYLIST s = true <-> disallowed s.
Proof.
  unfold Re.search, disallowed. rewrite search_from_spec.
  rewrite !(contains_spec None).
  rewrite !whole_word_spec by (by apply wordy_compute).
  split.
  - intros (pre & rest & i & Hs & Hi & Hm). simpl in Hi.
    destruct Hi as [<-|[<-|[<-|[<-|[<-|[<-|[]]]]]]]; eauto 10.
  - intros [H|[H|[H|[H|[H|H]]]]]; destruct H as (pre & rest & Hs & Hm);
      exists pre, rest; eexists; (split; [done|]); (split; [|done]); simpl; tauto.
Qed.

(** ** Stripping does not change what the search finds *)

Lemma rstrip_cons c s :
  Text.rstrip (String c s) =
    if Text.is_empty (Text.rstrip s) && Text.is_space c then EmptyString
    else String c (Text.rstrip s).
Proof. simpl. destruct (Text.rstrip s); by destruct (Text.is_space c). Qed.

Lemma strip_prefix_rstrip w s :
  no_space w = true ->
  Text.strip_prefix w (Text.rstrip s) = Text.rstrip <$> Text.strip_prefix w s.
Proof.
  revert s. induction w as [|a w IH]; intros s Hw; [done|].
  simpl in Hw. apply andb_true_iff in Hw as [Ha%negb_true_iff Hw].
  destruct s as [|c s]; [done|].
  rewrite rstrip_cons.
  destruct (Text.is_empty (Text.rstrip s) && Text.is_space c) eqn:Hc; simpl.
  - apply andb_true_iff in Hc as [_ Hc].
    destruct (Ascii.eqb_spec a c) as [->|]; [congruence|done].
  - destruct (Ascii.eqb a c); [by apply IH|done].
Qed.

Lemma head_rstrip s :
  Re.is_word_opt (Text.head (Text.rstrip s)) = Re.is_word_opt (Text.head s).
Proof.
  destruct s as [|c s]; [done|]. rewrite rstrip_cons.
  destruct (Text.is_empty (Text.rstrip s) && Text.is_space c) eqn:Hc; [|done].
  apply andb_true_iff in Hc as [_ Hc]. simpl. by rewrite space_not_word.
Qed.

Lemma match_here_rstrip prev s i :
  solid i = true ->
  Re.match_here prev (Text.rstrip s) i = Re.match_here prev s i.
Proof.
  unfold solid. intros [_ Hw]%andb_true_iff.
  destruct i as [w|w]; simpl in *; rewrite strip_prefix_rstrip by done.
  - by destruct (Text.strip_prefix w s).
  - unfold Re.boundary. rewrite head_rstrip.
    destruct (Text.strip_prefix w s) as [rest|]; [|done]. simpl.
    by rewrite head_rstrip.
Qed.

Lemma match_here_empty prev i : solid i = true -> Re.match_here prev "" i = false.
Proof.
  unfold solid. intros [Hne _]%andb_true_iff.
  destruct i as [[|a w]|[|a w]]; simpl in *; try done. apply andb_false_r.
Qed.

Lemma existsb_false {A} (f : A -> bool) l :
  (forall x, In x l -> f x = false) -> existsb f l = false.
Proof.
  induction l as [|x l IH]; intros Hf; [done|]. simpl.
  rewrite Hf by (by left). apply IH. intros y Hy. apply Hf. by right.
Qed.

Lemma existsb_agree {A} (f g : A -> bool) l :
  (forall x, In x l -> f x = g x) -> existsb f l = existsb g l.
Proof.
  induction l as [|x l IH]; intros Hf; [done|]. simpl.
  rewrite Hf by (by left). f_equal. apply IH. intros y Hy. apply Hf. by right.
Qed.

Lemma forallb_In {A} (f : A -> bool) l x : forallb f l = true -> In x l -> f x = true.
Proof. intros Hall. by apply forallb_forall. Qed.

Lemma search_from_blank alts prev s :
  forallb solid alts = true ->
  Text.rstrip s = "" ->
  Re.search_from alts prev s = false.
Proof.
  intros Halts. revert prev. induction s as [|c s IH]; intros prev Hs; simpl.
  - rewrite orb_false_r. apply existsb_false. intros i Hi.
    apply match_here_empty. by eapply forallb_In.
  - apply orb_false_iff. split.
    + apply existsb_false. intros i Hi.
      rewrite <- match_here_rstrip by (by eapply forallb_In). rewrite Hs.
      apply match_here_empty. by eapply forallb_In.
    + apply IH. rewrite rstrip_cons in Hs.
      destruct (Text.rstrip s); [done|]. simpl in Hs. discriminate.
Qed.

Lemma search_from_cons alts prev c s :
  Re.search_from alts prev (String c s) =
    existsb (Re.match_here prev (String c s)) alts
    || Re.search_from alts (Some c) s.
Proof. reflexivity. Qed.

Lemma search_from_rstrip alts prev s :
  forallb solid alts = true ->
  Re.search_from alts prev (Text.rstrip s) = Re.search_from alts prev s.
Proof.
  intros Halts. revert prev. induction s as [|c s IH]; intros prev; [done|].
  destruct (Text.is_empty (Text.rstrip s) && Text.is_space c) eqn:Hc.
  - assert (Hr : Text.rstrip (String c s) = "") by (by rewrite rstrip_cons, Hc).
    rewrite (search_from_blank alts prev (String c s)) by done.
    rewrite Hr. by apply search_from_blank.
  - assert (Hr : Text.rstrip (String c s) = String c (Text.rstrip s))
      by (by rewrite rstrip_cons, Hc).
    rewrite Hr, !search_from_cons, IH. f_equal.
    apply existsb_agree. intros i Hi.
    rewrite <- Hr. apply match_here_rstrip. by eapply forallb_In.
Qed.

Lemma last_char_prev_irrelevant p1 p2 w :
  Re.is_word_opt p1 = Re.is_word_opt p2 ->
  Re.is_word_opt (Text.last_char p1 w) = Re.is_word_opt (Text.last_char p2 w).
Proof. by destruct w. Qed.

Lemma match_here_prev_irrelevant p1 p2 s i :
  Re.is_word_opt p1 = Re.is_word_opt p2 ->
  Re.match_here p1 s i = Re.match_here p2 s i.
Proof.
  intros Hp. destruct i as [w|w]; simpl; [done|].
  unfold Re.boundary. rewrite Hp.
  destruct (Text.strip_prefix w s); [|done].
  by rewrite (last_char_prev_irrelevant p1 p2).
Qed.

Lemma search_from_prev_irrelevant alts p1 p2 s :
  Re.is_word_opt p1 = Re.is_word_opt p2 ->
  Re.search_from alts p1 s = Re.search_from alts p2 s.
Proof.
  intros Hp. destruct s; simpl; f_equal; apply existsb_agree; intros i _;
    by apply match_here_prev_irrelevant.
Qed.

Lemma match_here_space prev c s i :
  solid i = true -> Text.is_space c = true ->
  Re.match_here prev (String c s) i = false.
Proof.
  unfold solid. intros [Hne Hw]%andb_true_iff Hc.
  assert (Hp : Text.strip_prefix (item_text i) (String c s) = None).
  { destruct (item_text i) as [|a w]; [done|]. simpl in *.
    apply andb_true_iff in Hw as [Ha%negb_true_iff _].
    destruct (Ascii.eqb_spec a c) as [->|]; [congruence|done]. }
  destruct i as [w|w]; simpl in *; rewrite Hp; [done|apply andb_false_r].
Qed.

Lemma search_lstrip alts s :
  forallb solid alts = true ->
  Re.search_from alts None (Text.lstrip s) = Re.search_from alts None s.
Proof.
  intros Halts. induction s as [|c s IH]; [done|].
  simpl Text.lstrip. destruct (Text.is_space c) eqn:Hc; [|done].
  rewrite IH. simpl.
  rewrite existsb_false.
  - simpl. apply search_from_prev_irrelevant. simpl. by rewrite space_not_word.
  - intros i Hi. apply match_here_space; [by eapply forallb_In|done].
Qed.

Lemma search_strip alts s :
  forallb solid alts = true ->
  Re.search alts (Text.strip s) = Re.search alts s.
Proof.
  intros Halts. unfold Re.search, Text.strip.
  rewrite search_from_rstrip by done. by apply search_lstrip.
Qed.

(** ** The validator *)

Section Validation.
Context `{Host}.

Lemma validation_first_failure l d0 d :
  (validation l d0 d).1 =
    match first_failure (checks d) with
    | Some msg => throw ValueError msg
    | None => ok l
    end.
Proof.
  unfold validation, checks, first_failure.
  destruct (interval_of d) as [[x_min x_max]|]; [|done].
  destruct (samples_of d) as [n|]; [|done].
  rewrite !bool_decide_eq_true_2 by eauto.
  destruct (Text.is_empty (expression_of d)); [done|].
  destruct (Re.search DENYLIST (expression_of d)); [done|].
  by destruct (line_width_of d).
Qed.

(** C7: validation reports the first check that fails, in the order interval,
    sample count, empty expression, denylist, line width; and a value that
    does not convert to a number is reported with the message of the
    range violation of its field. *)
Theorem validation_reports_first_failure h l d :
  h !! l = Some d ->
  l <> DEFAULT_PAYLOAD ->
  h !! DEFAULT_PAYLOAD = Some default_items ->
  is_Some (d !! "expression") ->
  (validate_payload l h).1 =
    match first_failure (checks d) with
    | Some msg => throw ValueError msg
    | None => ok l
    end
  /\ (forall k v, (k = "xMin" \/ k = "xMax") -> d !! k = Some v ->
        (forall x, py_float v <> inr x) ->
        (validate_payload l h).1 = throw ValueError Msg.interval)
  /\ (forall a b x_min x_max,
        d !! "xMin" = Some a -> d !! "xMax" = Some b ->
        py_float a = inr x_min -> py_float b = inr x_max ->
        Float.ge x_min x_max = true ->
        (validate_payload l h).1 = throw ValueError Msg.interval)
  /\ (is_Some (interval_of d) ->
      forall v, d !! "samples" = Some v ->
        (forall n, py_int v = inr n -> n < 2 \/ 10000 < n) ->
        (validate_payload l h).1 = throw ValueError Msg.samples)
  /\ (is_Some (interval_of d) -> is_Some (samples_of d) ->
      Text.is_empty (expression_of d) = false ->
      Re.search DENYLIST (expression_of d) = false ->
      forall v, d !! "lineWidth" = Some v ->
        (forall w, py_float v = inr w ->
           Float.le (Float.of_ratio 1 10) w = false
           \/ Float.le w (Float.of_Z 10) = false) ->
        (validate_payload l h).1 = throw ValueError Msg.line_width).
Proof.
  intros Hl Hne H0 He.
  rewrite (validate_payload_run h l d) by done. cbn [fst].
  split; [apply validation_first_failure|].
  unfold validation.
  split; [|split; [|split]].
  - intros k v Hk Hv Hnum. unfold interval_of.
    destruct Hk as [-> | ->]; rewrite Hv.
    + destruct (d !! "xMax"); [|done].
      destruct (py_float v) as [?|x]; [done|]. by destruct (Hnum x).
    + destruct (d !! "xMin") as [a|]; [|done].
      destruct (py_float a); [done|].
      destruct (py_float v) as [?|x]; [done|]. by destruct (Hnum x).
  - intros a b x_min x_max Ha Hb Hx Hy Hge.
    unfold interval_of. by rewrite Ha, Hb, Hx, Hy, Hge.
  - intros [[x_min x_max] ->] v Hv Hn.
    unfold samples_of. rewrite Hv.
    destruct (py_int v) as [?|n]; [done|].
    destruct (Hn n eq_refl) as [Hlt | Hgt].
    + by replace (2 <=? n) with false by lia.
    + replace (n <=? 10000) with false by lia. by rewrite andb_false_r.
  - intros [[x_min x_max] ->] [n ->] -> -> v Hv Hw.
    unfold line_width_of. rewrite Hv.
    destruct (py_float v) as [?|w]; [done|].
    destruct (Hw w eq_refl) as [-> | ->]; [done|].
    by rewrite andb_false_r.
Qed.

Lemma first_failure_None d :
  first_failure (checks d) = None <->
    is_Some (interval_of d) /\ is_Some (samples_of d)
    /\ Text.is_empty (expression_of d) = false
    /\ Re.search DENYLIST (expression_of d) = false
    /\ is_Some (line_width_of d).
Proof.
  unfold checks, first_failure. split.
  - destruct (bool_decide_reflect (is_Some (interval_of d))) as [Hi|]; [|done].
    destruct (bool_decide_reflect (is_Some (samples_of d))) as [Hs|]; [|done].
    destruct (Text.is_empty (expression_of d)); [done|].
    destruct (Re.search DENYLIST (expression_of d)); [done|].
    by destruct (bool_decide_reflect (is_Some (line_width_of d))).
  - intros (Hi & Hs & -> & -> & Hw). by rewrite !bool_decide_eq_true_2.
Qed.

Lemma interval_of_insert k v d :
  k <> "xMin" -> k <> "xMax" -> interval_of (<[k := v]> d) = interval_of d.
Proof. intros. unfold interval_of. by rewrite !lookup_insert_ne. Qed.

Lemma samples_of_insert k v d :
  k <> "samples" -> samples_of (<[k := v]> d) = samples_of d.
Proof. intros. unfold samples_of. by rewrite !lookup_insert_ne. Qed.

Lemma expression_of_insert k v d :
  k <> "expression" -> expression_of (<[k := v]> d) = expression_of d.
Proof. intros. unfold expression_of. by rewrite !lookup_insert_ne. Qed.

Lemma line_width_of_insert k v d :
  k <> "lineWidth" -> line_width_of (<[k := v]> d) = line_width_of d.
Proof. intros. unfold line_width_of. by rewrite !lookup_insert_ne. Qed.

(** The outcome of validation when the sample count alone is replaced. *)
Lemma validate_with_samples h l d v :
  (l < length h)%nat ->
  l <> DEFAULT_PAYLOAD ->
  h !! DEFAULT_PAYLOAD = Some default_items ->
  is_Some (d !! "expression") ->
  first_failure (checks d) = None ->
  (validate_payload l (<[l := <["samples" := v]> d]> h)).1 =
    match py_int v with
    | inr n => if (2 <=? n) && (n <=? 10000) then ok l
               else throw ValueError Msg.samples
    | inl _ => throw ValueError Msg.samples
    end.
Proof.
  intros Hlen Hne H0 He (Hi & _ & Hempty & Hdeny & Hw)%first_failure_None.
  rewrite validate_payload_run_insert by (by rewrite ?lookup_insert_ne).
  cbn [fst]. rewrite validation_first_failure. unfold checks.
  rewrite interval_of_insert, expression_of_insert, line_width_of_insert by done.
  rewrite Hempty, Hdeny. cbn [first_failure negb].
  rewrite !(bool_decide_eq_true_2 _ Hi), !(bool_decide_eq_true_2 _ Hw).
  unfold samples_of. rewrite lookup_insert_eq.
  destruct (py_int v) as [?|n]; [done|].
  by destruct ((2 <=? n) && (n <=? 10000)).
Qed.

(** The outcome of validation when the line width alone is replaced. *)
Lemma validate_with_line_width h l d v :
  (l < length h)%nat ->
  l <> DEFAULT_PAYLOAD ->
  h !! DEFAULT_PAYLOAD = Some default_items ->
  is_Some (d !! "expression") ->
  first_failure (checks d) = None ->
  (validate_payload l (<[l := <["lineWidth" := v]> d]> h)).1 =
    match py_float v with
    | inr w =>
        if Float.le (Float.of_ratio 1 10) w && Float.le w (Float.of_Z 10)
        then ok l else throw ValueError Msg.line_width
    | inl _ => throw ValueError Msg.line_width
    end.
Proof.
  intros Hlen Hne H0 He (Hi & Hs & Hempty & Hdeny & _)%first_failure_None.
  rewrite validate_payload_run_insert by (by rewrite ?lookup_insert_ne).
  cbn [fst]. rewrite validation_first_failure. unfold checks.
  rewrite interval_of_insert, expression_of_insert, samples_of_insert by done.
  rewrite Hempty, Hdeny. cbn [first_failure negb].
  rewrite !(bool_decide_eq_true_2 _ Hi), !(bool_decide_eq_true_2 _ Hs).
  unfold line_width_of. rewrite lookup_insert_eq.
  destruct (py_float v) as [?|w]; [done|].
  by destruct (Float.le (Float.of_ratio 1 10) w && Float.le w (Float.of_Z 10)).
Qed.

(** C8: on a payload that is otherwise valid, the sample counts 2 and 10000
    are accepted, 1 and 10001 rejected; the line widths 0.1 and 10 are
    accepted, 0.09 and 10.01 rejected. *)
Theorem validation_bounds_inclusive h l d :
  (l < length h)%nat ->
  l <> DEFAULT_PAYLOAD ->
  h !! DEFAULT_PAYLOAD = Some default_items ->
  is_Some (d !! "expression") ->
  first_failure (checks d) = None ->
  let validate k v := (validate_payload l (<[l := <[k := v]> d]> h)).1 in
  validate "samples" (JInt 2) = ok l
  /\ validate "samples" (JInt 10000) = ok l
  /\ validate "samples" (JInt 1) = throw ValueError Msg.samples
  /\ validate "samples" (JInt 10001) = throw ValueError Msg.samples
  /\ validate "lineWidth" (JFloat (Float.of_ratio 1 10)) = ok l
  /\ validate "lineWidth" (JInt 10) = ok l
  /\ validate "lineWidth" (JFloat (Float.of_ratio 9 100)) = throw ValueError Msg.line_width
  /\ validate "lineWidth" (JFloat (Float.of_ratio 1001 100)) = throw ValueError Msg.line_width.
Proof.
  intros Hlen Hne H0 He Hok validate. unfold validate.
  rewrite !validate_with_samples, !validate_with_line_width by done.
  repeat split; reflexivity.
Qed.

Lemma validation_passed l d0 d x_min x_max n w :
  interval_of d = Some (x_min, x_max) ->
  samples_of d = Some n ->
  Text.is_empty (expression_of d) = false ->
  Re.search DENYLIST (expression_of d) = false ->
  line_width_of d = Some w ->
  validation l d0 d = (ok l, validated d0 d x_min x_max n w).
Proof. unfold validation. by intros -> -> -> -> ->. Qed.

Lemma validated_samples d0 d x_min x_max n w :
  validated d0 d x_min x_max n w !! "samples" = Some (JInt n).
Proof.
  unfold validated, coerced.
  rewrite !lookup_insert_ne by done. apply lookup_insert_eq.
Qed.

Lemma int_of_float_truncates s m e z :
  int_of_float (S754_finite s m e) = ok z ->
  z = (if s then - Z.abs z else Z.abs z)
  /\ Z.abs z * 2 ^ Z.max 0 (- e) <= Zpos m * 2 ^ Z.max 0 e
     < (Z.abs z + 1) * 2 ^ Z.max 0 (- e).
Proof.
  unfold int_of_float, ok. intros [= <-].
  set (a := Z.shiftl (Zpos m) e).
  assert (Ha : 0 <= a) by (apply Z.shiftl_nonneg; lia).
  replace (Z.abs (if s then - a else a)) with a by (destruct s; lia).
  split; [done|].
  destruct (Z.le_gt_cases 0 e) as [He | He].
  - replace (Z.max 0 (- e)) with 0 by lia. replace (Z.max 0 e) with e by lia.
    unfold a. rewrite Z.shiftl_mul_pow2 by done. lia.
  - replace (Z.max 0 (- e)) with (- e) by lia. replace (Z.max 0 e) with 0 by lia.
    unfold a. rewrite Z.shiftl_div_pow2 by lia.
    assert (Hp : 0 < 2 ^ (- e)) by (apply Z.pow_pos_nonneg; lia).
    pose proof (Z.div_mod (Zpos m) (2 ^ (- e))) as Hdm.
    pose proof (Z.mod_pos_bound (Zpos m) (2 ^ (- e)) Hp) as Hmod.
    nia.
Qed.

(** C10: a sample count given as a float is converted to the integer
    towards zero before the range check; when that integer is within the
    bounds the payload is accepted and holds the integer. *)
Theorem fractional_samples_are_truncated h l d f n :
  (l < length h)%nat ->
  l <> DEFAULT_PAYLOAD ->
  h !! DEFAULT_PAYLOAD = Some default_items ->
  is_Some (d !! "expression") ->
  first_failure (checks d) = None ->
  py_int (JFloat f) = ok n ->
  2 <= n <= 10000 ->
  let run := validate_payload l (<[l := <["samples" := JFloat f]> d]> h) in
  run.1 = ok l
  /\ deref l run.2 !! "samples" = Some (JInt n)
  /\ (forall s m e, f = S754_finite s m e ->
        n = (if s then - Z.abs n else Z.abs n)
        /\ Z.abs n * 2 ^ Z.max 0 (- e) <= Zpos m * 2 ^ Z.max 0 e
           < (Z.abs n + 1) * 2 ^ Z.max 0 (- e)).
Proof.
  intros Hlen Hne H0 He Hok Hn Hrange run.
  assert (Hin : (2 <=? n) && (n <=? 10000) = true)
    by (apply andb_true_intro; split; apply Z.leb_le; lia).
  split; [|split].
  - unfold run. rewrite validate_with_samples by done. rewrite Hn.
    unfold ok. by rewrite Hin.
  - apply first_failure_None in Hok as ([[x_min x_max] Hi] & _ & Hempty & Hdeny & [w Hw]).
    unfold run.
    rewrite validate_payload_run_insert by (by rewrite ?lookup_insert_ne).
    cbn [snd]. rewrite deref_insert_eq by done.
    erewrite validation_passed.
    + apply validated_samples.
    + by rewrite interval_of_insert.
    + unfold samples_of. rewrite lookup_insert_eq, Hn.
      unfold ok. by rewrite Hin.
    + by rewrite expression_of_insert.
    + by rewrite expression_of_insert.
    + by rewrite line_width_of_insert.
  - intros s m e ->. by apply int_of_float_truncates.
Qed.
End Validation.


(** C7 on a payload whose sample count and line width are both not numbers:
    the sample count is reported. *)
Lemma validation_reports_first_failure_witness :
  (validate_payload (H := Reference.host) 1 (custom_heap not_numbers)).1
  = throw ValueError Msg.samples.
Proof.
  pose proof (validation_reports_first_failure (H := Reference.host)
    (custom_heap not_numbers) 1%nat not_numbers eq_refl) as Hthm.
  destruct Hthm as (_ & _ & _ & Hs & _).
  - discriminate.
  - reflexivity.
  - eexists. reflexivity.
  - apply (Hs ltac:(eexists; reflexivity) (JList [])).
    + reflexivity.
    + intros n Hn. discriminate Hn.
Defined.

(** ** The normaliser *)

Section Normaliser.
Context `{Host}.

Lemma is_empty_false s : s <> "" -> Text.is_empty s = false.
Proof. by destruct s. Qed.

Lemma deref_app_new (h : heap) d : deref (length h) (h ++ [d]) = d.
Proof. unfold deref. by rewrite lookup_app_r, Nat.sub_diag by lia. Qed.

Lemma insert_app_new (h : heap) d d' : <[length h := d']> (h ++ [d]) = h ++ [d'].
Proof. by rewrite insert_app_r_alt, Nat.sub_diag by lia. Qed.

Lemma parse_payload_empty h :
  parse_payload "" h = (ok (length h), h ++ [deref DEFAULT_PAYLOAD h]).
Proof. reflexivity. Qed.

Lemma parse_payload_object body data h :
  body <> "" ->
  json_loads body = ok (JDict data) ->
  parse_payload body h =
    (ok (length h),
     h ++ [filter (fun kv => is_None kv.2 = false) data ∪ deref DEFAULT_PAYLOAD h]).
Proof.
  intros Hb Hj. unfold parse_payload. rewrite is_empty_false by done.
  unfold bind, try_except, lift, dict_copy, update, ret. rewrite Hj. simpl.
  by rewrite deref_app_new, insert_app_new.
Qed.

Lemma parse_payload_not_object body v h :
  body <> "" ->
  json_loads body = ok v ->
  (forall m, v <> JDict m) ->
  parse_payload body h =
    (throw AttributeError ("'" +:+ type_name v +:+ "' object has no attribute 'items'"),
     h ++ [deref DEFAULT_PAYLOAD h]).
Proof.
  intros Hb Hj Hv. unfold parse_payload. rewrite is_empty_false by done.
  unfold bind, try_except, lift, dict_copy, update, ret. rewrite Hj. simpl.
  destruct v; try done. by destruct (Hv m).
Qed.

Lemma parse_payload_malformed body exc h :
  body <> "" ->
  json_loads body = inl exc ->
  parse_payload body h =
    (if is_JSONDecodeError exc
     then throw ValueError (Msg.unreadable +:+ exn_msg exc)
     else inl exc, h).
Proof.
  intros Hb Hj. unfold parse_payload. rewrite is_empty_false by done.
  unfold bind, try_except, lift, raise. rewrite Hj. simpl.
  by destruct (is_JSONDecodeError exc).
Qed.

Lemma merged_lookup (data d0 : dict) k :
  (filter (fun kv => is_None kv.2 = false) data ∪ d0) !! k =
    match data !! k with
    | Some v => if is_None v then d0 !! k else Some v
    | None => d0 !! k
    end.
Proof.
  rewrite lookup_union.
  destruct (data !! k) as [v|] eqn:Hk.
  - destruct (is_None v) eqn:Hv.
    + rewrite map_lookup_filter_None_2; [by destruct (d0 !! k)|].
      right. intros v' Hv'. simpl. congruence.
    + erewrite map_lookup_filter_Some_2; [by destruct (d0 !! k)|done..].
  - rewrite map_lookup_filter_None_2 by (by left). by destruct (d0 !! k).
Qed.

(** C4, as amended: an empty body yields a fresh copy of the defaults; for a
    body that decodes to an object, every key of the output holds the
    incoming value when there is one that is not null and the default
    otherwise, so the keys of the output are those of the defaults together
    with the keys of the input whose value is not null. *)
Theorem parse_payload_merges_over_defaults h :
  let d0 := deref DEFAULT_PAYLOAD h in
  (exists payload h',
     parse_payload "" h = (ok payload, h')
     /\ h !! payload = None
     /\ deref payload h' = d0)
  /\ (forall body data,
        body <> "" ->
        json_loads body = ok (JDict data) ->
        exists payload h',
          parse_payload body h = (ok payload, h')
          /\ h !! payload = None
          /\ (forall k, deref payload h' !! k =
                          match data !! k with
                          | Some v => if is_None v then d0 !! k else Some v
                          | None => d0 !! k
                          end)
          /\ dom (deref payload h') =
               dom d0 ∪ dom (filter (fun kv => is_None kv.2 = false) data)).
Proof.
  intros d0. split.
  - exists (length h), (h ++ [d0]). rewrite parse_payload_empty.
    split; [done|]. split; [by apply lookup_ge_None|apply deref_app_new].
  - intros body data Hb Hj.
    exists (length h), (h ++ [filter (fun kv => is_None kv.2 = false) data ∪ d0]).
    rewrite (parse_payload_object body data) by done.
    split; [done|]. split; [by apply lookup_ge_None|].
    rewrite deref_app_new.
    split; [apply merged_lookup|]. by rewrite dom_union_L, (comm_L (∪)).
Qed.
End Normaliser.

(** ** The handler *)

Section Handling.
Context `{Host}.

Lemma do_POST_run cl sent body h :
  cl <= max_message_len ->
  decode_utf8 (if cl =? 0 then [] else sent) = ok body ->
  do_POST cl sent h =
    match (payload <- parse_payload body ;;
           payload <- validate_payload payload ;;
           r <- render_plot payload ;;
           ret (build_response 200
                  (ImageBody ("data:image/png;base64," +:+ r.1) r.2 false))) h with
    | (inr resp, h') => (inr resp, h')
    | (inl exc, h') =>
        if Exception exc
        then (ok (if is_ValueError exc
                  then build_response 400 (ErrorBody (exn_msg exc))
                  else build_response 500 (ErrorBody (Msg.internal +:+ exn_msg exc))),
              h')
        else (inl exc, h')
    end.
Proof.
  intros Hcl Hd. unfold do_POST.
  replace (cl >? max_message_len) with false by lia.
  cbv zeta. unfold bind at 1, lift. rewrite Hd. unfold ok. cbv beta iota.
  unfold try_except.
  match goal with
  | |- context [bind ?m ?k h] => destruct (bind m k h) as [[exc|resp] h']
  end; [|done].
  destruct (Exception exc); [|done]. by destruct (is_ValueError exc).
Qed.

(** The body is decoded before the [try] block: what the decoding raises
    is raised by the handler. *)
Lemma do_POST_undecoded cl sent exc h :
  cl <= max_message_len ->
  decode_utf8 (if cl =? 0 then [] else sent) = inl exc ->
  do_POST cl sent h = (inl exc, h).
Proof.
  intros Hcl Hd. unfold do_POST.
  replace (cl >? max_message_len) with false by lia.
  cbv zeta. unfold bind, lift. by rewrite Hd.
Qed.

(** C3: a body that decodes to a JSON value that is not an object makes
    [data.items()] raise [AttributeError], which is not a [ValueError]: the
    answer is a 500, not a 400. *)
Theorem post_non_object_is_internal_error cl sent body v h :
  cl <= max_message_len ->
  cl <> 0 ->
  decode_utf8 sent = ok body ->
  body <> "" ->
  json_loads body = ok v ->
  (forall m, v <> JDict m) ->
  (do_POST cl sent h).1 =
    ok (build_response 500
          (ErrorBody (Msg.internal +:+ "'" +:+ type_name v
                      +:+ "' object has no attribute 'items'"))).
Proof.
  intros Hcl Hne Hd Hs Hj Hv.
  rewrite (do_POST_run cl sent body) by (done || by replace (cl =? 0) with false by lia).
  unfold bind at 1. by rewrite (parse_payload_not_object body v).
Qed.

Lemma post_malformed_is_bad_request cl sent body exc h :
  cl <= max_message_len ->
  cl <> 0 ->
  decode_utf8 sent = ok body ->
  body <> "" ->
  json_loads body = inl exc ->
  is_JSONDecodeError exc = true ->
  do_POST cl sent h =
    (ok (build_response 400 (ErrorBody (Msg.unreadable +:+ exn_msg exc))), h).
Proof.
  intros Hcl Hne Hd Hs Hj Hexc.
  rewrite (do_POST_run cl sent body) by (done || by replace (cl =? 0) with false by lia).
  unfold bind at 1. by rewrite (parse_payload_malformed body exc), Hexc.
Qed.
End Handling.

(** C3 on the body [5]. *)
Lemma post_non_object_is_internal_error_witness :
  (do_POST (H := Reference.host) 1 (ascii_bytes "5") initial_heap).1 =
    ok (build_response 500
          (ErrorBody (Msg.internal +:+ "'int' object has no attribute 'items'"))).
Proof.
  apply (post_non_object_is_internal_error (H := Reference.host) 1
           (ascii_bytes "5") "5" (JInt 5)).
  - vm_compute. discriminate.
  - discriminate.
  - reflexivity.
  - discriminate.
  - reflexivity.
  - discriminate.
Defined.

Lemma bind_ok {A B} (m : M A) (k : A -> M B) h a h' :
  m h = (ok a, h') -> bind m k h = k a h'.
Proof. unfold bind. by intros ->. Qed.

Lemma bind_throw {A B} (m : M A) (k : A -> M B) h c msg h' :
  m h = (throw c msg, h') -> bind m k h = (throw c msg, h').
Proof. unfold bind. by intros ->. Qed.

(** ** The denylist in the pipeline *)

Section Denylist.
Context `{Host}.

Lemma search_expression d s :
  d !! "expression" = Some (JStr s) ->
  Re.search DENYLIST (expression_of d) = Re.search DENYLIST s.
Proof.
  intros Hs. unfold expression_of. rewrite Hs. simpl. by apply search_strip.
Qed.

Lemma search_nonempty s : Re.search DENYLIST s = true -> Text.is_empty s = false.
Proof. by destruct s. Qed.

Lemma validation_disallowed l d0 d s :
  d !! "expression" = Some (JStr s) ->
  is_Some (interval_of d) ->
  is_Some (samples_of d) ->
  disallowed s ->
  validation l d0 d = (throw ValueError Msg.disallowed, d).
Proof.
  intros Hs [[x_min x_max] Hi] [n Hn] Hdis%search_denylist_iff.
  rewrite <- (search_expression d s) in Hdis by done.
  unfold validation. by rewrite Hi, Hn, (search_nonempty _ Hdis), Hdis.
Qed.

(** C5: an expression in which the denylist occurs makes validation fail,
    the heap untouched; once the interval and the sample count are accepted
    the failure carries the disallowed-elements message and the handler
    answers 400 with it, whatever the evaluator of the host.  An expression
    in which the denylist does not occur is not rejected with that
    message. *)
Theorem denylist_rejects_before_evaluation h l d s :
  h !! l = Some d ->
  l <> DEFAULT_PAYLOAD ->
  h !! DEFAULT_PAYLOAD = Some default_items ->
  d !! "expression" = Some (JStr s) ->
  (disallowed s ->
   (exists msg, validate_payload l h = (throw ValueError msg, h))
   /\ (is_Some (interval_of d) -> is_Some (samples_of d) ->
       validate_payload l h = (throw ValueError Msg.disallowed, h)
       /\ forall cl sent body data h0,
            cl <= max_message_len -> cl <> 0 ->
            decode_utf8 sent = ok body -> body <> "" ->
            json_loads body = ok (JDict data) ->
            h0 !! DEFAULT_PAYLOAD = Some default_items ->
            filter (fun kv => is_None kv.2 = false) data ∪ default_items = d ->
            do_POST cl sent h0 =
              (ok (build_response 400 (ErrorBody Msg.disallowed)), h0 ++ [d])))
  /\ (~ disallowed s ->
      (validate_payload l h).1 <> throw ValueError Msg.disallowed).
Proof.
  intros Hl Hne H0 Hs.
  assert (Hrun := validate_payload_run h l d Hl Hne H0 ltac:(by rewrite Hs)).
  split.
  - intros Hdis.
    assert (Hsearch : Re.search DENYLIST (expression_of d) = true).
    { rewrite (search_expression d s) by done. by apply search_denylist_iff. }
    split; [|intros Hi Hn; split].
    + rewrite Hrun. unfold validation.
      destruct (interval_of d) as [[x_min x_max]|];
        [|cbn [fst snd]; rewrite list_insert_id by done; eauto].
      destruct (samples_of d) as [n|];
        [|cbn [fst snd]; rewrite list_insert_id by done; eauto].
      rewrite (search_nonempty _ Hsearch), Hsearch.
      cbn [fst snd]. rewrite list_insert_id by done. eauto.
    + rewrite Hrun, (validation_disallowed l default_items d s) by done.
      cbn [fst snd]. by rewrite list_insert_id.
    + intros cl sent body data h0 Hcl Hcl0 Hdec Hsent Hj Hd0 Hd.
      rewrite (do_POST_run cl sent body)
        by (done || by replace (cl =? 0) with false by lia).
      assert (Hlen : (0 < length h0)%nat) by (by eapply lookup_lt_Some).
      erewrite bind_ok; [|by apply parse_payload_object].
      rewrite (deref_lookup _ _ _ Hd0), Hd.
      erewrite bind_throw; cycle 1.
      { rewrite (validate_payload_run (h0 ++ [d]) (length h0) d).
        - rewrite (validation_disallowed _ default_items d s) by done.
          cbn [fst snd]. by rewrite insert_app_new.
        - by rewrite lookup_app_r, Nat.sub_diag by lia.
        - unfold DEFAULT_PAYLOAD. lia.
        - by rewrite lookup_app_l.
        - by rewrite Hs. }
      reflexivity.
  - intros Hok. rewrite Hrun. cbn [fst].
    assert (Hsearch : Re.search DENYLIST (expression_of d) = false).
    { rewrite (search_expression d s) by done.
      destruct (Re.search DENYLIST s) eqn:Hd; [|done].
      by apply search_denylist_iff in Hd. }
    unfold validation.
    destruct (interval_of d) as [[x_min x_max]|]; [|by vm_compute].
    destruct (samples_of d) as [n|]; [|by vm_compute].
    rewrite Hsearch.
    destruct (Text.is_empty (expression_of d)); [by vm_compute|].
    destruct (line_width_of d); [done|by vm_compute].
Qed.
End Denylist.

(** ** What a computation leaves untouched *)

Create HintDb frame.

Lemma reads_frame {A} l (m : M A) : reads m -> frame l m.
Proof. intros Hm h l' _. by rewrite Hm. Qed.

Lemma reads_ret {A} (a : A) : reads (ret a).
Proof. done. Qed.

Lemma reads_raise {A} c msg : reads (raise (A := A) c msg).
Proof. done. Qed.

Lemma reads_lift {A} (r : result A) : reads (lift r).
Proof. done. Qed.

Lemma reads_getitem l k : reads (getitem l k).
Proof. intros h. unfold getitem. by destruct (deref l h !! k). Qed.

Lemma reads_get l k dflt : reads (get l k dflt).
Proof. done. Qed.

Lemma reads_bind {A B} (m : M A) (k : A -> M B) :
  reads m -> (forall a, reads (k a)) -> reads (bind m k).
Proof.
  intros Hm Hk h. unfold bind. specialize (Hm h).
  destruct (m h) as [[e|a] h1]; simpl in *; subst; [done|apply Hk].
Qed.

Lemma reads_try {A} c (m : M A) handler :
  reads m -> (forall e, reads (handler e)) -> reads (try_except c m handler).
Proof.
  intros Hm Hk h. unfold try_except. specialize (Hm h).
  destruct (m h) as [[e|a] h1]; simpl in *; subst; [|done].
  destruct (c e); [apply Hk|done].
Qed.

Lemma reads_if {A} (b : bool) (m1 m2 : M A) :
  reads m1 -> reads m2 -> reads (if b then m1 else m2).
Proof. by destruct b. Qed.

Lemma frame_setitem l k v : frame l (setitem l k v).
Proof. intros h l' Hne. unfold setitem. simpl. by apply list_lookup_insert_ne. Qed.

Lemma frame_bind {A B} l (m : M A) (k : A -> M B) :
  frame l m -> (forall a, frame l (k a)) -> frame l (bind m k).
Proof.
  intros Hm Hk h l' Hne. unfold bind. specialize (Hm h l' Hne).
  destruct (m h) as [[e|a] h1]; simpl in *; [done|].
  by rewrite Hk.
Qed.

Lemma frame_if {A} l (b : bool) (m1 m2 : M A) :
  frame l m1 -> frame l m2 -> frame l (if b then m1 else m2).
Proof. by destruct b. Qed.

#[local] Hint Resolve reads_ret reads_raise reads_lift reads_getitem reads_get
  reads_bind reads_try reads_if : frame.
#[local] Hint Resolve frame_setitem frame_bind frame_if reads_frame : frame.

Section Frames.
Context `{Host}.

Lemma reads_read_interval l : reads (read_interval l).
Proof. unfold read_interval. auto 20 with frame. Qed.

Lemma reads_read_samples l : reads (read_samples l).
Proof. unfold read_samples. auto 20 with frame. Qed.

Lemma reads_read_line_width l : reads (read_line_width l).
Proof. unfold read_line_width. auto 20 with frame. Qed.

Lemma reads_or_default s k : reads (or_default s k).
Proof. unfold or_default. auto with frame. Qed.

Hint Resolve reads_read_interval reads_read_samples reads_read_line_width
  reads_or_default : frame.

(** The validator writes to the payload it is given and to nothing else. *)
Lemma validate_payload_frame l : frame l (validate_payload l).
Proof. unfold validate_payload. auto 60 with frame. Qed.

End Frames.

(** ** More on texts *)

Lemma rstrip_idempotent s : Text.rstrip (Text.rstrip s) = Text.rstrip s.
Proof.
  induction s as [|c s IH]; [done|].
  rewrite rstrip_cons.
  destruct (Text.is_empty (Text.rstrip s) && Text.is_space c) eqn:Hc; [done|].
  by rewrite rstrip_cons, IH, Hc.
Qed.

Lemma lstrip_head s :
  match Text.lstrip s with
  | String c _ => Text.is_space c = false
  | EmptyString => True
  end.
Proof.
  induction s as [|c s IH]; [done|]. simpl.
  by destruct (Text.is_space c) eqn:Hc.
Qed.

Lemma rstrip_last s :
  match Text.last_char None (Text.rstrip s) with
  | Some c => Text.is_space c = false
  | None => True
  end.
Proof.
  induction s as [|c s IH]; [done|]. rewrite rstrip_cons.
  destruct (Text.is_empty (Text.rstrip s) && Text.is_space c) eqn:Hc; [done|].
  simpl. destruct (Text.rstrip s) as [|c' r]; simpl in *.
  - by destruct (Text.is_space c).
  - done.
Qed.

Lemma rstrip_keeps_head s :
  match Text.rstrip s with
  | String c _ => Text.head s = Some c
  | EmptyString => True
  end.
Proof.
  destruct s as [|c s]; [done|]. rewrite rstrip_cons.
  by destruct (Text.is_empty (Text.rstrip s) && Text.is_space c).
Qed.

Lemma lstrip_id s :
  match s with
  | String c _ => Text.is_space c = false
  | EmptyString => True
  end -> Text.lstrip s = s.
Proof. destruct s as [|c s]; [done|]. simpl. by intros ->. Qed.

(** What [strip] returns has no white space at either end, and stripping it
    again changes nothing. *)
Lemma strip_ends s :
  match Text.head (Text.strip s) with
  | Some c => Text.is_space c = false
  | None => True
  end
  /\ match Text.last_char None (Text.strip s) with
     | Some c => Text.is_space c = false
     | None => True
     end.
Proof.
  unfold Text.strip. split; [|apply rstrip_last].
  pose proof (lstrip_head s) as Hl. pose proof (rstrip_keeps_head (Text.lstrip s)) as Hr.
  destruct (Text.rstrip (Text.lstrip s)) as [|c r]; [done|]. simpl.
  destruct (Text.lstrip s) as [|c' t]; [done|]. simpl in Hr. by injection Hr as ->.
Qed.

Lemma strip_idempotent s : Text.strip (Text.strip s) = Text.strip s.
Proof.
  unfold Text.strip at 1. rewrite lstrip_id.
  - apply rstrip_idempotent.
  - pose proof (proj1 (strip_ends s)) as Hh.
    by destruct (Text.strip s).
Qed.
(** ** The validated record *)

Section Validated.
Context `{Host}.
Variables (d0 d : dict) (x_min x_max : float) (n : Z) (w : float).

Lemma coerced_other k :
  k ∉ FIELDS -> coerced d0 d x_min x_max n !! k = d !! k.
Proof.
  intros Hk. unfold coerced. cbv zeta.
  rewrite !lookup_insert_ne;
    [done|intros <-; apply Hk, list_elem_of_In; simpl; tauto..].
Qed.

Lemma validated_other k :
  k ∉ FIELDS -> validated d0 d x_min x_max n w !! k = d !! k.
Proof.
  intros Hk. unfold validated. cbv zeta.
  rewrite !lookup_insert_ne by (intros <-; apply Hk, list_elem_of_In; simpl; tauto).
  by apply coerced_other.
Qed.

Lemma validated_xMin : validated d0 d x_min x_max n w !! "xMin" = Some (JFloat x_min).
Proof. unfold validated, coerced. by simplify_map_eq. Qed.

Lemma validated_xMax : validated d0 d x_min x_max n w !! "xMax" = Some (JFloat x_max).
Proof. unfold validated, coerced. by simplify_map_eq. Qed.

Lemma validated_expression :
  validated d0 d x_min x_max n w !! "expression" = Some (JStr (expression_of d)).
Proof. unfold validated, coerced. by simplify_map_eq. Qed.

Lemma validated_title :
  validated d0 d x_min x_max n w !! "title"
  = Some (text_or (default JNull (d0 !! "title")) (default (JStr "") (d !! "title"))).
Proof. unfold validated, coerced. by simplify_map_eq. Qed.

Lemma validated_xLabel :
  validated d0 d x_min x_max n w !! "xLabel"
  = Some (text_or (default JNull (d0 !! "xLabel")) (default (JStr "") (d !! "xLabel"))).
Proof. unfold validated, coerced. by simplify_map_eq. Qed.

Lemma validated_yLabel :
  validated d0 d x_min x_max n w !! "yLabel"
  = Some (text_or (default JNull (d0 !! "yLabel")) (default (JStr "") (d !! "yLabel"))).
Proof. unfold validated, coerced. by simplify_map_eq. Qed.

Lemma validated_color :
  validated d0 d x_min x_max n w !! "color"
  = Some (JStr (py_str (if truthy (default JNull (d !! "color"))
                        then default JNull (d !! "color")
                        else default JNull (d0 !! "color")))).
Proof. unfold validated, coerced. by simplify_map_eq. Qed.

Lemma validated_marker :
  validated d0 d x_min x_max n w !! "marker"
  = Some (JStr (py_str (if truthy (default JNull (d !! "marker"))
                        then default JNull (d !! "marker")
                        else JStr ""))).
Proof. unfold validated, coerced. by simplify_map_eq. Qed.

Lemma validated_lineWidth :
  validated d0 d x_min x_max n w !! "lineWidth" = Some (JFloat w).
Proof. unfold validated, coerced. by simplify_map_eq. Qed.

Lemma validated_grid :
  validated d0 d x_min x_max n w !! "grid"
  = Some (JBool (truthy (default (default JNull (d0 !! "grid")) (d !! "grid")))).
Proof. unfold validated, coerced. by simplify_map_eq. Qed.
End Validated.

(** ** Outcomes of the validator *)

Section Outcomes.
Context `{Host}.

(** Without its expression a payload is never accepted: the lookup raises
    [KeyError] once the interval and the sample count are accepted. *)
Lemma validate_payload_without_expression h l d :
  h !! l = Some d ->
  d !! "expression" = None ->
  validate_payload l h =
    (match interval_of d with
     | None => throw ValueError Msg.interval
     | Some _ =>
         match samples_of d with
         | None => throw ValueError Msg.samples
         | Some _ => throw KeyError "'expression'"
         end
     end, h).
Proof.
  intros Hl He. unfold validate_payload.
  rewrite step_read_interval, (deref_lookup _ _ _ Hl).
  destruct (interval_of d) as [iv|]; [|done].
  rewrite step_read_samples, (deref_lookup _ _ _ Hl).
  destruct (samples_of d) as [n|]; [|done].
  unfold bind, getitem. by rewrite (deref_lookup _ _ _ Hl), He.
Qed.

Lemma validate_payload_accepts h l d :
  h !! l = Some d ->
  l <> DEFAULT_PAYLOAD ->
  h !! DEFAULT_PAYLOAD = Some default_items ->
  (validate_payload l h).1 = ok l ->
  exists x_min x_max n w,
    interval_of d = Some (x_min, x_max)
    /\ samples_of d = Some n
    /\ Text.is_empty (expression_of d) = false
    /\ Re.search DENYLIST (expression_of d) = false
    /\ line_width_of d = Some w
    /\ (validate_payload l h).2
       = <[l := validated default_items d x_min x_max n w]> h.
Proof.
  intros Hl Hne H0 Hok.
  destruct (d !! "expression") as [e|] eqn:He.
  - rewrite (validate_payload_run h l d) in * by (by rewrite ?He).
    cbn [fst snd] in *. unfold validation in *.
    destruct (interval_of d) as [[x_min x_max]|]; [|done].
    destruct (samples_of d) as [n|]; [|done].
    destruct (Text.is_empty (expression_of d)); [done|].
    destruct (Re.search DENYLIST (expression_of d)); [done|].
    destruct (line_width_of d) as [w|]; [|done].
    by exists x_min, x_max, n, w.
  - rewrite (validate_payload_without_expression h l d) in Hok by done.
    cbn [fst] in Hok. destruct (interval_of d); [|done]. by destruct (samples_of d).
Qed.

Lemma interval_of_Some d x_min x_max :
  interval_of d = Some (x_min, x_max) -> Float.ge x_min x_max = false.
Proof.
  unfold interval_of. destruct (d !! "xMin") as [a|]; [|done].
  destruct (d !! "xMax") as [b|]; [|done].
  destruct (py_float a) as [|x]; [done|]. destruct (py_float b) as [|y]; [done|].
  destruct (Float.ge x y) eqn:Hge; [done|]. by intros [= <- <-].
Qed.

Lemma samples_of_Some d n : samples_of d = Some n -> 2 <= n <= 10000.
Proof.
  unfold samples_of. destruct (d !! "samples") as [a|]; [|done].
  destruct (py_int a) as [|m]; [done|].
  destruct ((2 <=? m) && (m <=? 10000)) eqn:Hm; [|done].
  intros [= <-]. apply andb_true_iff in Hm. lia.
Qed.

Lemma line_width_of_Some d w :
  line_width_of d = Some w ->
  Float.le (Float.of_ratio 1 10) w = true /\ Float.le w (Float.of_Z 10) = true.
Proof.
  unfold line_width_of. destruct (d !! "lineWidth") as [a|]; [|done].
  destruct (py_float a) as [|v]; [done|].
  destruct (Float.le (Float.of_ratio 1 10) v && Float.le v (Float.of_Z 10)) eqn:Hv; [|done].
  intros [= <-]. by apply andb_true_iff in Hv.
Qed.

Lemma text_or_text s v :
  s <> "" -> exists t, text_or (JStr s) v = JStr t /\ t <> "".
Proof.
  intros Hs. unfold text_or.
  destruct (Text.strip (py_str v)) as [|c t] eqn:Ht; simpl; [by exists s|].
  by exists (String c t).
Qed.

(** X1: when the validator accepts a payload, the record it leaves holds
    [xMin] and [xMax] as floats for which [xMin >= xMax] is false, [samples]
    as an integer between 2 and 10000, [expression] as a text that is not
    empty, has no white space at its ends and in which the denylist does not
    occur, the title and the two labels as texts that are not empty, the
    color and the marker as texts, [lineWidth] as a float between 0.1 and 10,
    and [grid] as a boolean. *)
Theorem validated_payload_is_well_formed h l d :
  h !! l = Some d ->
  l <> DEFAULT_PAYLOAD ->
  h !! DEFAULT_PAYLOAD = Some default_items ->
  (validate_payload l h).1 = ok l ->
  let d' := deref l (validate_payload l h).2 in
  exists x_min x_max n e title xLabel yLabel color marker w g,
    d' !! "xMin" = Some (JFloat x_min)
    /\ d' !! "xMax" = Some (JFloat x_max)
    /\ Float.ge x_min x_max = false
    /\ d' !! "samples" = Some (JInt n) /\ 2 <= n <= 10000
    /\ d' !! "expression" = Some (JStr e)
    /\ e <> "" /\ Text.strip e = e /\ ~ disallowed e
    /\ d' !! "title" = Some (JStr title) /\ title <> ""
    /\ d' !! "xLabel" = Some (JStr xLabel) /\ xLabel <> ""
    /\ d' !! "yLabel" = Some (JStr yLabel) /\ yLabel <> ""
    /\ d' !! "color" = Some (JStr color)
    /\ d' !! "marker" = Some (JStr marker)
    /\ d' !! "lineWidth" = Some (JFloat w)
    /\ Float.le (Float.of_ratio 1 10) w = true
    /\ Float.le w (Float.of_Z 10) = true
    /\ d' !! "grid" = Some (JBool g).
Proof.
  intros Hl Hne H0 Hok d'.
  destruct (validate_payload_accepts h l d Hl Hne H0 Hok)
    as (x_min & x_max & n & w & Hi & Hn & Hempty & Hdeny & Hw & Hheap).
  assert (Hd' : d' = validated default_items d x_min x_max n w).
  { unfold d'. rewrite Hheap. apply deref_insert_eq. by eapply lookup_lt_Some. }
  destruct (text_or_text ("Courbe param" +:+ Msg.e_acute +:+ "trable")
              (default (JStr "") (d !! "title"))) as (title & Ht & Htne); [done|].
  destruct (text_or_text "x" (default (JStr "") (d !! "xLabel")))
    as (xl & Hxl & Hxlne); [done|].
  destruct (text_or_text "f(x)" (default (JStr "") (d !! "yLabel")))
    as (yl & Hyl & Hylne); [done|].
  exists x_min, x_max, n, (expression_of d), title, xl, yl.
  eexists _, _, w, _. rewrite Hd'.
  rewrite validated_xMin, validated_xMax, validated_samples, validated_expression,
    validated_title, validated_xLabel, validated_yLabel, validated_color,
    validated_marker, validated_lineWidth, validated_grid.
  change (default JNull (default_items !! "title"))
    with (JStr ("Courbe param" +:+ Msg.e_acute +:+ "trable")).
  change (default JNull (default_items !! "xLabel")) with (JStr "x").
  change (default JNull (default_items !! "yLabel")) with (JStr "f(x)").
  rewrite Ht, Hxl, Hyl.
  destruct (line_width_of_Some d w Hw) as [Hw1 Hw2].
  pose proof (interval_of_Some d _ _ Hi). pose proof (samples_of_Some d n Hn).
  assert (He : expression_of d <> "")
    by (intros Heq; by rewrite Heq in Hempty).
  assert (Hs : Text.strip (expression_of d) = expression_of d)
    by (unfold expression_of; apply strip_idempotent).
  assert (Hd : ~ disallowed (expression_of d))
    by (intros Hdis%search_denylist_iff; congruence).
  repeat split; done || lia.
Qed.

Lemma validation_keeps d0 d l k :
  (k ∉ FIELDS -> (validation l d0 d).2 !! k = d !! k)
  /\ (is_Some (d !! k) -> is_Some ((validation l d0 d).2 !! k)).
Proof.
  assert (Hc : forall x y n,
             (k ∉ FIELDS -> coerced d0 d x y n !! k = d !! k)
             /\ (is_Some (d !! k) -> is_Some (coerced d0 d x y n !! k))).
  { intros x y n. split; [apply coerced_other|].
    intros Hk. unfold coerced. cbv zeta.
    repeat (apply lookup_insert_is_Some'; right). done. }
  unfold validation.
  destruct (interval_of d) as [[x_min x_max]|]; [|done].
  destruct (samples_of d) as [n|]; [|done].
  destruct (Text.is_empty (expression_of d)); [done|].
  destruct (Re.search DENYLIST (expression_of d)); [done|].
  destruct (line_width_of d) as [w|]; cbn [snd]; [|apply Hc].
  split; [apply validated_other|].
  intros Hk. unfold validated. cbv zeta.
  repeat (apply lookup_insert_is_Some'; right). done.
Qed.

(** X2: the validator changes the value of no key other than the eleven it
    assigns, and removes no key, whether it accepts the payload or not. *)
Theorem validation_keeps_other_keys h l d :
  h !! l = Some d ->
  l <> DEFAULT_PAYLOAD ->
  h !! DEFAULT_PAYLOAD = Some default_items ->
  let d' := deref l (validate_payload l h).2 in
  (forall k, k ∉ FIELDS -> d' !! k = d !! k)
  /\ (forall k, is_Some (d !! k) -> is_Some (d' !! k)).
Proof.
  intros Hl Hne H0 d'.
  assert (Hlen : (l < length h)%nat) by (by eapply lookup_lt_Some).
  destruct (d !! "expression") as [e|] eqn:He.
  - assert (Hd' : d' = (validation l default_items d).2).
    { unfold d'. rewrite (validate_payload_run h l d) by (by rewrite ?He).
      cbn [snd]. by apply deref_insert_eq. }
    rewrite Hd'. split; intros k; apply validation_keeps.
  - assert (Hd' : d' = d).
    { unfold d'. rewrite (validate_payload_without_expression h l d) by done.
      by apply deref_lookup. }
    by rewrite Hd'.
Qed.

Lemma line_width_message_differs msg :
  In msg [Msg.interval; Msg.samples; Msg.empty; Msg.disallowed] ->
  throw (A := loc) ValueError msg <> throw ValueError Msg.line_width.
Proof.
  simpl. intros [<-|[<-|[<-|[<-|[]]]]] Heq; vm_compute in Heq; discriminate Heq.
Qed.

(** X3: a payload rejected for its interval, its sample count or its
    expression is left as it was; a payload rejected for its line width has
    been rewritten before: it holds the converted bounds and sample count
    and the stripped expression. *)
Theorem rejected_payload_footprint h l d :
  h !! l = Some d ->
  l <> DEFAULT_PAYLOAD ->
  h !! DEFAULT_PAYLOAD = Some default_items ->
  is_Some (d !! "expression") ->
  (forall msg,
     (validate_payload l h).1 = throw ValueError msg ->
     msg <> Msg.line_width ->
     (validate_payload l h).2 = h)
  /\ ((validate_payload l h).1 = throw ValueError Msg.line_width ->
      exists x_min x_max n,
        interval_of d = Some (x_min, x_max)
        /\ samples_of d = Some n
        /\ (validate_payload l h).2 = <[l := coerced default_items d x_min x_max n]> h
        /\ deref l (validate_payload l h).2 !! "xMin" = Some (JFloat x_min)
        /\ deref l (validate_payload l h).2 !! "xMax" = Some (JFloat x_max)
        /\ deref l (validate_payload l h).2 !! "samples" = Some (JInt n)
        /\ deref l (validate_payload l h).2 !! "expression"
           = Some (JStr (expression_of d))).
Proof.
  intros Hl Hne H0 He.
  assert (Hlen : (l < length h)%nat) by (by eapply lookup_lt_Some).
  rewrite (validate_payload_run h l d) by done. cbn [fst snd].
  unfold validation.
  destruct (interval_of d) as [[x_min x_max]|];
    [|cbn [fst snd]; split; [intros; by apply list_insert_id
                         |intros Heq; by apply line_width_message_differs in Heq; [|simpl; tauto]]].
  destruct (samples_of d) as [n|];
    [|cbn [fst snd]; split; [intros; by apply list_insert_id
                         |intros Heq; by apply line_width_message_differs in Heq; [|simpl; tauto]]].
  destruct (Text.is_empty (expression_of d));
    [cbn [fst snd]; split; [intros; by apply list_insert_id
                         |intros Heq; by apply line_width_message_differs in Heq; [|simpl; tauto]]|].
  destruct (Re.search DENYLIST (expression_of d));
    [cbn [fst snd]; split; [intros; by apply list_insert_id
                         |intros Heq; by apply line_width_message_differs in Heq; [|simpl; tauto]]|].
  destruct (line_width_of d) as [w|]; cbn [fst snd].
  - split; [done|done].
  - split; [intros msg [= <-] Hmsg; by destruct Hmsg|].
    intros _. exists x_min, x_max, n. rewrite deref_insert_eq by done.
    repeat split; unfold coerced; by simplify_map_eq.
Qed.

(** X4: a bound that converts to not-a-number passes the check of the
    interval, a comparison with it being false; a line width that converts
    to not-a-number fails the check of the line width. *)
Theorem nan_passes_interval_not_line_width h l d :
  h !! l = Some d ->
  (forall a b x_min x_max,
     d !! "xMin" = Some a -> d !! "xMax" = Some b ->
     py_float a = ok x_min -> py_float b = ok x_max ->
     x_min = S754_nan \/ x_max = S754_nan ->
     read_interval l h = (ok (x_min, x_max), h))
  /\ (forall a,
        d !! "lineWidth" = Some a -> py_float a = ok S754_nan ->
        read_line_width l h = (throw ValueError Msg.line_width, h)).
Proof.
  intros Hl. split.
  - intros a b x_min x_max Ha Hb Hx Hy Hnan.
    rewrite read_interval_run, (deref_lookup _ _ _ Hl).
    unfold interval_of. rewrite Ha, Hb, Hx, Hy. unfold ok.
    assert (Hge : Float.ge x_min x_max = false).
    { destruct Hnan as [-> | ->]; [by destruct x_max|by destruct x_min]. }
    by rewrite Hge.
  - intros a Ha Hw.
    rewrite read_line_width_run, (deref_lookup _ _ _ Hl).
    unfold line_width_of. by rewrite Ha, Hw.
Qed.

Lemma text_or_idempotent s0 v :
  s0 <> "" -> Text.strip s0 = s0 ->
  text_or (JStr s0) (text_or (JStr s0) v) = text_or (JStr s0) v.
Proof.
  intros Hne Hs0. unfold text_or. cbv zeta.
  destruct (Text.is_empty (Text.strip (py_str v))) eqn:Hv; cbn [py_str].
  - rewrite Hs0. by destruct (Text.is_empty s0).
  - by rewrite strip_idempotent, Hv.
Qed.

Lemma in_FIELDS k :
  k ∈ FIELDS ->
  k = "xMin" \/ k = "xMax" \/ k = "samples" \/ k = "expression" \/ k = "title"
  \/ k = "xLabel" \/ k = "yLabel" \/ k = "color" \/ k = "marker"
  \/ k = "lineWidth" \/ k = "grid".
Proof.
  unfold FIELDS. intros Hk.
  repeat (apply elem_of_cons in Hk as [->|Hk]; [tauto|]).
  by apply elem_of_nil in Hk.
Qed.

(** X5: validating an accepted payload a second time accepts it and changes
    nothing, when the color it holds is not the empty text. *)
Theorem validation_is_idempotent h l d :
  h !! l = Some d ->
  l <> DEFAULT_PAYLOAD ->
  h !! DEFAULT_PAYLOAD = Some default_items ->
  (validate_payload l h).1 = ok l ->
  deref l (validate_payload l h).2 !! "color" <> Some (JStr "") ->
  validate_payload l (validate_payload l h).2 = (ok l, (validate_payload l h).2).
Proof.
  intros Hl Hne H0 Hok Hcolor.
  assert (Hlen : (l < length h)%nat) by (by eapply lookup_lt_Some).
  destruct (validate_payload_accepts h l d Hl Hne H0 Hok)
    as (x_min & x_max & n & w & Hi & Hn & Hempty & Hdeny & Hw & Hheap).
  rewrite Hheap in *. rewrite deref_insert_eq in Hcolor by done.
  set (d1 := validated default_items d x_min x_max n w) in *.
  assert (He1 : expression_of d1 = expression_of d).
  { unfold expression_of at 1. unfold d1. rewrite validated_expression. simpl.
    unfold expression_of. apply strip_idempotent. }
  assert (Hi1 : interval_of d1 = Some (x_min, x_max)).
  { unfold interval_of, d1. rewrite validated_xMin, validated_xMax.
    cbn [py_float]. unfold ok. by rewrite (interval_of_Some d _ _ Hi). }
  assert (Hn1 : samples_of d1 = Some n).
  { unfold samples_of, d1. rewrite validated_samples.
    cbn [py_int]. unfold ok.
    pose proof (samples_of_Some d n Hn).
    by replace ((2 <=? n) && (n <=? 10000)) with true by lia. }
  assert (Hw1 : line_width_of d1 = Some w).
  { unfold line_width_of, d1. rewrite validated_lineWidth.
    cbn [py_float]. unfold ok.
    destruct (line_width_of_Some d w Hw) as [Hw1 Hw2]. by rewrite Hw1, Hw2. }
  rewrite validate_payload_run_insert;
    [|done|done|done|unfold d1; rewrite validated_expression; eauto].
  erewrite validation_passed; [|done|done|by rewrite He1|by rewrite He1|done].
  cbn [fst snd]. f_equal. f_equal.
  apply map_eq. intros k.
  destruct (decide (k ∈ FIELDS)) as [Hk|Hk];
    [|rewrite validated_other by done; done].
  unfold d1 at 2.
  apply in_FIELDS in Hk
    as [->|[->|[->|[->|[->|[->|[->|[->|[->|[->| ->]]]]]]]]]].
  - by rewrite !validated_xMin.
  - by rewrite !validated_xMax.
  - by rewrite !validated_samples.
  - rewrite !validated_expression. by rewrite He1.
  - rewrite !validated_title. unfold d1. rewrite validated_title. simpl.
    f_equal. by apply text_or_idempotent.
  - rewrite !validated_xLabel. unfold d1. rewrite validated_xLabel. simpl.
    f_equal. by apply text_or_idempotent.
  - rewrite !validated_yLabel. unfold d1. rewrite validated_yLabel. simpl.
    f_equal. by apply text_or_idempotent.
  - rewrite !validated_color. unfold d1 in *. rewrite validated_color in *. simpl.
    match type of Hcolor with
    | Some (JStr ?s) <> _ => destruct s as [|c s'] eqn:Hc
    end; [done|]. reflexivity.
  - rewrite !validated_marker. unfold d1. rewrite validated_marker. simpl.
    match goal with
    | |- context [JStr (py_str ?v)] => by destruct (py_str v)
    end.
  - by rewrite !validated_lineWidth.
  - rewrite !validated_grid. unfold d1. rewrite validated_grid. simpl.
    by destruct (truthy _).
Qed.
End Outcomes.

Section Expression.
Context `{Host}.

(** X6: a payload without the key [expression] whose interval and sample
    count are accepted makes the validator raise [KeyError], which is not a
    [ValueError], and is left as it was. *)
Theorem missing_expression_is_a_key_error h l d :
  h !! l = Some d ->
  d !! "expression" = None ->
  is_Some (interval_of d) ->
  is_Some (samples_of d) ->
  validate_payload l h = (throw KeyError "'expression'", h)
  /\ is_ValueError (Exn KeyError "'expression'") = false.
Proof.
  intros Hl He [iv Hi] [n Hn].
  rewrite (validate_payload_without_expression h l d) by done.
  by rewrite Hi, Hn.
Qed.
End Expression.

(** ** The rendering *)

Section Drawing.
Context `{Host}.

(** The rendering reads the payload, evaluates, and reads the payload
    again: the heap it leaves is the one the evaluation left. *)
Lemma render_plot_run l h :
  render_plot l h =
    match grid_of (deref l h) with
    | inl exc => (inl exc, h)
    | inr (e, x) =>
        match evaluate_expression e x h with
        | (inl exc, h') => (inl exc, h')
        | (inr r, h') => (drawn (deref l h') r, h')
        end
    end.
Proof.
  unfold render_plot, grid_of, drawn, item, bind, getitem, lift, ret, rbind.
  destruct (deref l h !! "xMin") as [a|]; [|done].
  destruct (deref l h !! "xMax") as [b|]; [|done].
  destruct (deref l h !! "samples") as [n|]; [|done].
  unfold ok. destruct (np_linspace a b n) as [|x]; [done|].
  destruct (deref l h !! "expression") as [e|]; [|done].
  destruct (evaluate_expression e x h) as [[exc|r] h']; [done|].
  cbv beta iota zeta.
  destruct (savefig (deref l h') r.2 r.1); [done|].
  destruct (deref l h' !! "xMin") as [a'|]; [|done].
  destruct (deref l h' !! "xMax") as [b'|]; [|done].
  by destruct (deref l h' !! "samples") as [n'|].
Qed.

(** The heap after a rendering. *)
Lemma render_plot_heap l h :
  (render_plot l h).2 = h
  \/ exists e x, (render_plot l h).2 = (evaluate_expression e x h).2.
Proof.
  rewrite render_plot_run.
  destruct (grid_of (deref l h)) as [exc|[e x]]; [by left|].
  right. exists e, x. by destruct (evaluate_expression e x h) as [[exc|r] h'].
Qed.

Lemma do_GET_run h :
  do_GET h =
    match render_plot DEFAULT_PAYLOAD h with
    | (inl exc, h') => (inl exc, h')
    | (inr r, h') =>
        (ok (build_response 200
               (ImageBody ("data:image/png;base64," +:+ r.1) r.2 true)), h')
    end.
Proof. unfold do_GET, bind, ret. by destruct (render_plot _ h) as [[|] ?]. Qed.

(** A name on its own is looked up, and no code runs. *)
Lemma py_eval_name s id x h globals locals :
  ast_parse s = ok (Name id) ->
  py_eval globals locals (JStr s) x h = (load_name globals locals id, x, h).
Proof. intros Hs. unfold py_eval. by rewrite Hs. Qed.

Lemma sized_length (a : ndarray) : length (data a) = product (shape a).
Proof.
  destruct a as [s d Hs]. simpl.
  by apply Nat.eqb_eq, Is_true_true.
Qed.

(** Arrays of one shape have as many elements. *)
Lemma same_shape_same_length (a b : ndarray) :
  shape a = shape b -> length (data a) = length (data b).
Proof. intros Hs. by rewrite !sized_length, Hs. Qed.
End Drawing.

(** ** The pipeline of a POST *)

Section Pipeline.
Context `{Host}.

(** What the normaliser returns on a heap that holds the defaults: nothing
    but a new dictionary that has an expression. *)
Lemma parse_payload_intact body h payload :
  intact h ->
  (parse_payload body h).1 = ok payload ->
  payload = length h
  /\ exists d, (parse_payload body h).2 = h ++ [d]
       /\ (forall k, is_Some (default_items !! k) -> is_Some (d !! k))
       /\ (forall k v, d !! k = Some v -> is_None v = false).
Proof.
  intros Hh. assert (H0 : deref DEFAULT_PAYLOAD h = default_items) by (by apply deref_lookup).
  assert (Hnn : forall k v, default_items !! k = Some v -> is_None v = false).
  { intros k v Hk. unfold default_items in Hk. apply elem_of_list_to_map_2 in Hk.
    repeat (apply elem_of_cons in Hk as [[= -> ->]|Hk]; [done|]).
    by apply elem_of_nil in Hk. }
  unfold parse_payload. destruct (Text.is_empty body).
  { intros [= <-]. split; [done|]. exists default_items. simpl. rewrite H0. by eauto. }
  unfold bind, try_except, lift, raise, dict_copy, update, ret.
  destruct (json_loads body) as [exc|data]; simpl.
  { by destruct (is_JSONDecodeError exc). }
  destruct (items data) as [exc|its]; simpl; [done|].
  rewrite deref_app_new, insert_app_new, H0.
  intros [= <-]. split; [done|]. eexists. split; [done|]. split.
  - intros k Hk. rewrite merged_lookup.
    destruct (its !! k) as [v|]; [|done]. by destruct (is_None v).
  - intros k v. rewrite merged_lookup.
    destruct (its !! k) as [v'|] eqn:Hk; [|by apply Hnn].
    destruct (is_None v') eqn:Hv; [by apply Hnn|]. by intros [= <-].
Qed.

Lemma parse_payload_object_intact body data h :
  intact h ->
  body <> "" ->
  json_loads body = ok (JDict data) ->
  parse_payload body h =
    (ok (length h),
     h ++ [filter (fun kv => is_None kv.2 = false) data ∪ default_items]).
Proof.
  intros Hh Hs Hj. rewrite (parse_payload_object body data) by done.
  by rewrite (deref_lookup _ _ _ Hh).
Qed.

Lemma merged_has_expression (data : dict) :
  is_Some ((filter (fun kv => is_None kv.2 = false) data ∪ default_items) !! "expression").
Proof.
  rewrite merged_lookup. destruct (data !! "expression") as [v|]; [|by eexists].
  destruct (is_None v); by eexists.
Qed.

Lemma validation_accepts l d0 d p :
  (validation l d0 d).1 = ok p ->
  exists x_min x_max n w,
    interval_of d = Some (x_min, x_max)
    /\ samples_of d = Some n
    /\ line_width_of d = Some w
    /\ (validation l d0 d).2 = validated d0 d x_min x_max n w.
Proof.
  unfold validation.
  destruct (interval_of d) as [[x_min x_max]|]; [|done].
  destruct (samples_of d) as [n|]; [|done].
  destruct (Text.is_empty (expression_of d)); [done|].
  destruct (Re.search DENYLIST (expression_of d)); [done|].
  destruct (line_width_of d) as [w|]; [|done].
  intros _. by exists x_min, x_max, n, w.
Qed.


(** The answer to a request within the limit whose payload holds [d] after
    the normaliser. *)
Lemma do_POST_payload cl sent body h d :
  cl <= max_message_len ->
  decode_utf8 (if cl =? 0 then [] else sent) = ok body ->
  intact h ->
  parse_payload body h = (ok (length h), h ++ [d]) ->
  is_Some (d !! "expression") ->
  do_POST cl sent h =
    match (validation (length h) default_items d).1 with
    | inl exc =>
        (ok (post_answer (inl exc)), h ++ [(validation (length h) default_items d).2])
    | inr _ =>
        match render_plot (length h)
                (h ++ [(validation (length h) default_items d).2]) with
        | (inr r, h') => (ok (post_answer (inr r)), h')
        | (inl exc, h') =>
            if Exception exc then (ok (post_answer (inl exc)), h') else (inl exc, h')
        end
    end.
Proof.
  intros Hcl Hd Hh Hp He. rewrite (do_POST_run cl sent body) by done.
  assert (Hlen : (0 < length h)%nat) by (by eapply lookup_lt_Some).
  erewrite bind_ok by exact Hp.
  unfold bind at 1.
  rewrite (validate_payload_run (h ++ [d]) (length h) d);
    [|by rewrite lookup_app_r, Nat.sub_diag by lia
     |unfold DEFAULT_PAYLOAD; lia
     |by rewrite lookup_app_l by done
     |done].
  rewrite insert_app_new.
  pose proof (validation_first_failure (length h) default_items d) as Hf.
  destruct (validation (length h) default_items d) as [[exc|p] d'] eqn:Hv;
    cbn [fst snd] in *.
  { destruct (first_failure (checks d)) as [msg|]; [|done].
    injection Hf as ->. done. }
  assert (p = length h) as ->.
  { destruct (first_failure (checks d)); [done|]. by injection Hf. }
  unfold bind, ret.
  by destruct (render_plot (length h) (h ++ [d'])) as [[exc|r] h'].
Qed.

Lemma do_POST_unparsed cl sent body h exc h' :
  cl <= max_message_len ->
  decode_utf8 (if cl =? 0 then [] else sent) = ok body ->
  parse_payload body h = (inl exc, h') ->
  do_POST cl sent h =
    if Exception exc then (ok (post_answer (inl exc)), h') else (inl exc, h').
Proof.
  intros Hcl Hd Hp. rewrite (do_POST_run cl sent body) by done.
  unfold bind at 1. by rewrite Hp.
Qed.
End Pipeline.

(** ** The evaluator *)

Section Names.
Context `{Host}.
Variable x : ndarray.

Lemma load_name_resolves id :
  (exists v, load_name eval_globals (safe_locals x) id = ok v) <->
  id ∈ dom SAFE_FUNCTIONS \/ id = "x" \/ id = "__builtins__".
Proof.
  unfold load_name, safe_locals, eval_globals.
  destruct (decide (id = "x")) as [->|Hx].
  { rewrite lookup_insert_eq. split; eauto. }
  rewrite lookup_insert_ne by done.
  destruct (SAFE_FUNCTIONS !! id) as [v|] eqn:Hs.
  { split; [|eauto]. intros _. left. apply elem_of_dom. eauto. }
  destruct (decide (id = "__builtins__")) as [->|Hb].
  { rewrite lookup_singleton_eq. split; eauto. }
  rewrite lookup_singleton_ne by done. rewrite lookup_singleton_eq, lookup_empty.
  split; [by intros [v [=]]|].
  intros [Hd%elem_of_dom|[?|?]]; [|done..].
  rewrite Hs in Hd. by destruct Hd.
Qed.

Lemma load_name_unknown id :
  id ∉ dom SAFE_FUNCTIONS -> id <> "x" -> id <> "__builtins__" ->
  load_name eval_globals (safe_locals x) id
  = throw NameError ("name '" +:+ id +:+ "' is not defined").
Proof.
  intros Hd Hx Hb. unfold load_name, safe_locals, eval_globals.
  rewrite lookup_insert_ne by done.
  apply not_elem_of_dom in Hd. rewrite Hd.
  rewrite lookup_singleton_ne by done.
  by rewrite lookup_singleton_eq, lookup_empty.
Qed.
End Names.

Section Evaluation.
Context `{Host}.

Lemma evaluate_expression_returned expression x h raw x' h' :
  py_eval eval_globals (safe_locals x) expression x h = (ok raw, x', h') ->
  evaluate_expression expression x h =
    (result <-r as_ndarray raw ;;
     if negb (bool_decide (array_shape result = shape x'))
     then throw ValueError Msg.shape
     else
       finite <-r all_finite result ;;
       if negb finite then throw ValueError Msg.non_finite
       else ok (result, x'),
     h').
Proof. intros He. unfold evaluate_expression. by rewrite He. Qed.

Lemma evaluate_expression_raised expression x h exc x' h' :
  py_eval eval_globals (safe_locals x) expression x h = (inl exc, x', h') ->
  evaluate_expression expression x h =
    (if Exception exc
     then throw ValueError (Msg.evaluation +:+ exn_msg exc)
     else inl exc, h').
Proof.
  intros He. unfold evaluate_expression. rewrite He.
  by destruct (Exception exc).
Qed.

(** C2, as amended: a raw result that is a scalar is turned into an array of
    no dimension holding that scalar, it is not broadcast; unless [x] has no
    dimension either, the shapes differ and the evaluation fails with the
    message of the shape check. *)
Theorem scalar_result_is_not_broadcast expression x raw f h x' h' :
  py_eval eval_globals (safe_locals x) expression x h = (ok raw, x', h') ->
  raw = VFloat f
  \/ (exists z, raw = VInt z /\ f = Float.of_Z z /\ Float.is_inf f = false) ->
  as_ndarray raw = ok (Floats (NdArray [] [f]))
  /\ (shape x' <> [] ->
      evaluate_expression expression x h = (throw ValueError Msg.shape, h'))
  /\ (shape x' = [] -> Float.isfinite f = true ->
      evaluate_expression expression x h = (ok (Floats (NdArray [] [f]), x'), h')).
Proof.
  intros Heval Hraw.
  assert (Ha : as_ndarray raw = ok (Floats (NdArray [] [f]))).
  { destruct Hraw as [->|(z & -> & -> & Hz)]; simpl; [done|by rewrite Hz]. }
  split; [done|].
  rewrite (evaluate_expression_returned _ _ _ _ _ _ Heval), Ha. simpl.
  split.
  - intros Hx. by rewrite bool_decide_eq_false_2.
  - intros Hx Hf. rewrite bool_decide_eq_true_2 by done. simpl. by rewrite Hf.
Qed.

(** C6: the evaluator returns an array only when its shape is that of [x]
    and all its values are finite; an array of [float64] has then as many
    values as [x]; when the numbers of values or the shapes differ it fails
    with the message of the shape check, and when the shapes agree and a
    value is infinite or not a number it fails with the message of the
    finiteness check. *)
Theorem evaluation_checks_shape_and_finiteness expression x h :
  (forall y x' h',
     evaluate_expression expression x h = (ok (y, x'), h') ->
     array_shape y = shape x'
     /\ all_finite y = ok true
     /\ forall a, y = Floats a ->
          length (data a) = length (data x')
          /\ Forall (fun v => Float.isfinite v = true) (data a))
  /\ (forall raw a x' h',
        py_eval eval_globals (safe_locals x) expression x h = (ok raw, x', h') ->
        as_ndarray raw = ok (Floats a) ->
        (length (data a) <> length (data x') \/ shape a <> shape x' ->
         evaluate_expression expression x h = (throw ValueError Msg.shape, h'))
        /\ (shape a = shape x' ->
            Exists (fun v => Float.isfinite v = false) (data a) ->
            evaluate_expression expression x h
            = (throw ValueError Msg.non_finite, h'))).
Proof.
  split.
  - intros y x' h'.
    destruct (py_eval eval_globals (safe_locals x) expression x h)
      as [[[exc|raw] x1] h1] eqn:Heval.
    { rewrite (evaluate_expression_raised _ _ _ _ _ _ Heval).
      by destruct (Exception exc). }
    rewrite (evaluate_expression_returned _ _ _ _ _ _ Heval).
    destruct (as_ndarray raw) as [exc|r]; [done|]. simpl.
    case_bool_decide as Hshape; [|done]. simpl.
    destruct (all_finite r) as [exc|fin] eqn:Hfin; [done|]. simpl.
    destruct fin; [|done]. simpl. intros [= <- <- <-].
    split; [done|]. split; [done|].
    intros a ->. simpl in *. split; [by apply same_shape_same_length|].
    injection Hfin as Hfin.
    apply Forall_forall. intros v Hv.
    rewrite forallb_forall in Hfin. apply Hfin. by apply list_elem_of_In.
  - intros raw a x' h' Heval Ha.
    rewrite (evaluate_expression_returned _ _ _ _ _ _ Heval), Ha. simpl. split.
    + intros Hdiff. rewrite bool_decide_eq_false_2; [done|].
      destruct Hdiff as [Hlen|Hshape]; [|done].
      intros Heq. apply Hlen. by apply same_shape_same_length.
    + intros Hshape Hex. rewrite bool_decide_eq_true_2 by done. simpl.
      assert (Hfin : forallb Float.isfinite (data a) = false).
      { apply not_true_iff_false. rewrite forallb_forall. intros Hall.
        apply Exists_exists in Hex as (v & Hv & Hnf).
        apply list_elem_of_In in Hv. rewrite (Hall v Hv) in Hnf. done. }
      by rewrite Hfin.
Qed.
End Evaluation.

(** ** An expression that leaves the namespace *)

Section Escape.
Context `{Host}.

Lemma escape_allowed : ~ disallowed escape.
Proof. intros Hd%search_denylist_iff. by vm_compute in Hd. Qed.

(** The checks of the validator accept it. *)
Lemma escape_accepted : first_failure (checks escaping) = None.
Proof.
  unfold checks, first_failure.
  replace (interval_of escaping)
    with (Some (Float.mul (Float.of_Z (-2)) Float.pi, Float.mul (Float.of_Z 2) Float.pi))
    by (by vm_compute).
  replace (samples_of escaping) with (Some 500) by (by vm_compute).
  replace (expression_of escaping) with escape by (by vm_compute).
  replace (Text.is_empty escape) with false by (by vm_compute).
  replace (Re.search DENYLIST escape) with false by (by vm_compute).
  replace (line_width_of escaping) with (Some (Float.of_Z 2)) by (by vm_compute).
  rewrite !bool_decide_eq_true_2 by eauto. done.
Qed.

(** Its evaluation empties the defaults and returns [x]. *)
Lemma evaluate_escape x h :
  escapes ->
  evaluate_expression (JStr escape) x h =
    (if forallb Float.isfinite (data x)
     then ok (Floats x, x)
     else throw ValueError Msg.non_finite,
     <[DEFAULT_PAYLOAD := ∅]> h).
Proof.
  intros [Hparse Hrun].
  rewrite (evaluate_expression_returned (JStr escape) x h (VArr x) x
             (<[DEFAULT_PAYLOAD := ∅]> h)).
  - simpl. rewrite bool_decide_eq_true_2 by done. simpl.
    by destruct (forallb Float.isfinite (data x)).
  - unfold py_eval. by rewrite Hparse, Hrun.
Qed.

Lemma evaluation_message_differs msg :
  throw (A := array * ndarray) ValueError Msg.non_finite
  <> throw ValueError (Msg.evaluation +:+ msg).
Proof.
  unfold Msg.evaluation. rewrite !append_cons. intros Heq.
  vm_compute in Heq. discriminate Heq.
Qed.

(** C1: the namespace of the evaluation holds the names of
    [SAFE_FUNCTIONS], [x] and [__builtins__], bound to an empty dictionary,
    and a name on its own that is none of them fails with the message of
    the evaluation; yet the namespace does not bound what an expression
    reaches.  [escape], in which the denylist does not occur and which the
    checks of the validator accept, is evaluated without the error of the
    evaluation, and its evaluation empties [DEFAULT_PAYLOAD], which no name
    of the namespace denotes; it returns [x] when [x] is finite. *)
Theorem evaluation_is_not_isolated x h :
  escapes ->
  (forall id,
     (exists v, load_name eval_globals (safe_locals x) id = ok v) <->
     id ∈ dom SAFE_FUNCTIONS \/ id = "x" \/ id = "__builtins__")
  /\ (forall s id,
        ast_parse s = ok (Name id) ->
        id ∉ dom SAFE_FUNCTIONS -> id <> "x" -> id <> "__builtins__" ->
        evaluate_expression (JStr s) x h
        = (throw ValueError
             (Msg.evaluation +:+ "name '" +:+ id +:+ "' is not defined"), h))
  /\ ~ disallowed escape
  /\ first_failure (checks (<["expression" := JStr escape]> default_items)) = None
  /\ (forall msg,
        (evaluate_expression (JStr escape) x h).1
        <> throw ValueError (Msg.evaluation +:+ msg))
  /\ (evaluate_expression (JStr escape) x h).2 = <[DEFAULT_PAYLOAD := ∅]> h
  /\ (Forall (fun v => Float.isfinite v = true) (data x) ->
      evaluate_expression (JStr escape) x h
      = (ok (Floats x, x), <[DEFAULT_PAYLOAD := ∅]> h)).
Proof.
  intros Hesc.
  split; [apply load_name_resolves|].
  split.
  { intros s id Hs Hd Hx Hb.
    rewrite (evaluate_expression_raised (JStr s) x h
               (Exn NameError ("name '" +:+ id +:+ "' is not defined")) x h); [done|].
    by rewrite (py_eval_name s id), load_name_unknown. }
  split; [apply escape_allowed|]. split; [apply escape_accepted|].
  rewrite (evaluate_escape x h Hesc). cbn [fst snd].
  split; [|split; [done|]].
  - intros msg. destruct (forallb Float.isfinite (data x)); [done|].
    apply evaluation_message_differs.
  - intros Hfin.
    assert (Hall : forallb Float.isfinite (data x) = true).
    { apply forallb_forall. intros v Hv. rewrite Forall_forall in Hfin.
      apply Hfin. by apply list_elem_of_In. }
    by rewrite Hall.
Qed.
End Escape.

(** ** The defaults *)

Section Defaults.
Context `{Host}.

(** The normaliser only adds a dictionary, and returns its address. *)
Lemma parse_payload_extends body h :
  (forall l, (l < length h)%nat -> (parse_payload body h).2 !! l = h !! l)
  /\ (forall payload, (parse_payload body h).1 = ok payload ->
        payload = length h
        /\ (exists d, (parse_payload body h).2 = h ++ [d])).
Proof.
  unfold parse_payload. destruct (Text.is_empty body).
  { split; [intros l Hl; by apply lookup_app_l|].
    intros payload [= <-]. eauto. }
  unfold bind, try_except, lift, raise, dict_copy, update, ret.
  destruct (json_loads body) as [exc|data]; simpl.
  { destruct (is_JSONDecodeError exc); by split. }
  destruct (items data) as [exc|its]; simpl.
  { split; [intros l Hl; by apply lookup_app_l|done]. }
  rewrite deref_app_new, insert_app_new.
  split; [intros l Hl; by apply lookup_app_l|].
  intros payload [= <-]. eauto.
Qed.


(** A heap whose defaults are empty: GET raises, and a POST without a body
    is refused for its interval. *)
Lemma do_GET_emptied h :
  deref DEFAULT_PAYLOAD h = ∅ ->
  do_GET h = (throw KeyError "'xMin'", h).
Proof.
  intros Hd. rewrite do_GET_run, render_plot_run, Hd. reflexivity.
Qed.

Lemma do_POST_emptied sent h :
  decode_utf8 [] = ok "" ->
  deref DEFAULT_PAYLOAD h = ∅ ->
  do_POST 0 sent h
  = (ok (build_response 400 (ErrorBody Msg.interval)), h ++ [∅]).
Proof.
  intros Hdec Hd. rewrite (do_POST_run 0 sent "") by done.
  erewrite bind_ok by apply parse_payload_empty. rewrite Hd.
  erewrite (bind_throw (validate_payload (length h)))
    by (unfold validate_payload;
        rewrite step_read_interval, deref_app_new; reflexivity).
  reflexivity.
Qed.

(** C9: the normaliser returns the address of a new dictionary and the
    validator writes to the dictionary it is given and to no other; yet
    the defaults do not stay as they were after every sequence of
    requests.  A POST whose expression is [escape] passes validation, and
    the evaluation empties [DEFAULT_PAYLOAD]: from then on GET raises
    [KeyError], and a POST without a body is answered 400 for its
    interval. *)
Theorem defaults_are_emptied_by_an_expression cl sent body x h :
  escapes ->
  cl <= max_message_len ->
  cl <> 0 ->
  decode_utf8 sent = ok body ->
  body <> "" ->
  json_loads body = ok (JDict {["expression" := JStr escape]}) ->
  np_linspace (JFloat (Float.mul (Float.of_Z (-2)) Float.pi))
    (JFloat (Float.mul (Float.of_Z 2) Float.pi)) (JInt 500) = ok x ->
  decode_utf8 [] = ok "" ->
  intact h ->
  let h' := (do_POST cl sent h).2 in
  h' !! DEFAULT_PAYLOAD = Some ∅
  /\ serve [POST cl sent] h !! DEFAULT_PAYLOAD <> Some default_items
  /\ do_GET h' = (throw KeyError "'xMin'", h')
  /\ (forall sent',
        (do_POST 0 sent' h').1 = ok (build_response 400 (ErrorBody Msg.interval)))
  /\ (forall body h payload,
        intact h ->
        (parse_payload body h).1 = ok payload ->
        payload <> DEFAULT_PAYLOAD
        /\ h !! payload = None
        /\ intact (parse_payload body h).2)
  /\ (forall payload h l,
        l <> payload ->
        (validate_payload payload h).2 !! l = h !! l).
Proof.
  intros Hesc Hcl Hne Hdec Hbody Hj Hx Hdec0 Hh h'.
  assert (Hlen : (0 < length h)%nat) by (by eapply lookup_lt_Some).
  assert (Hempty : h' !! DEFAULT_PAYLOAD = Some ∅).
  { unfold h'.
    rewrite (do_POST_payload cl sent body h escaping);
      [|done|by replace (cl =? 0) with false by lia|done| |by vm_compute; eexists].
    2:{ rewrite (parse_payload_object_intact body _ h Hh Hbody Hj).
        do 3 f_equal. }
    pose proof (validation_first_failure (length h) default_items escaping) as Hf.
    rewrite escape_accepted in Hf. rewrite Hf.
    destruct (validation_accepts (length h) default_items escaping (length h) Hf)
      as (x_min & x_max & n & w & Hi & Hn & Hw & ->).
    assert (Hi' : interval_of escaping
                  = Some (Float.mul (Float.of_Z (-2)) Float.pi,
                          Float.mul (Float.of_Z 2) Float.pi)) by (by vm_compute).
    assert (Hn' : samples_of escaping = Some 500) by (by vm_compute).
    assert (Ha : x_min = Float.mul (Float.of_Z (-2)) Float.pi) by congruence.
    assert (Hb : x_max = Float.mul (Float.of_Z 2) Float.pi) by congruence.
    assert (Hs : n = 500) by congruence.
    rewrite <- Ha, <- Hb, <- Hs in Hx. clear Hi' Hn' Ha Hb Hs.
    rewrite render_plot_run, deref_app_new.
    unfold grid_of, item.
    rewrite validated_xMin, validated_xMax, validated_samples, validated_expression.
    cbn [rbind ok]. rewrite Hx. cbn [rbind ok].
    replace (expression_of escaping) with escape by (by vm_compute).
    rewrite (evaluate_escape x _ Hesc).
    assert (Hins : forall g : heap, (0 < length g)%nat ->
                     <[DEFAULT_PAYLOAD := ∅]> g !! DEFAULT_PAYLOAD = Some (∅ : dict)).
    { intros g Hg. by apply list_lookup_insert_eq. }
    destruct (forallb Float.isfinite (data x)); unfold ok, throw; cbv beta iota.
    - destruct (drawn _ _) as [exc|r]; [destruct (Exception exc)|];
        cbn [fst snd]; apply Hins; rewrite length_app; lia.
    - change (Exception (Exn ValueError Msg.non_finite)) with true.
      cbn [fst snd]. apply Hins. rewrite length_app. lia. }
  assert (Hd : deref DEFAULT_PAYLOAD h' = ∅) by (by apply deref_lookup).
  split; [done|]. split.
  { cbn [serve handle]. fold h'. rewrite Hempty. by intros [= Heq]. }
  split; [by apply do_GET_emptied|].
  split; [intros sent'; by rewrite do_POST_emptied|].
  split.
  - intros body' g payload Hg Hp.
    assert (Hlen' : (DEFAULT_PAYLOAD < length g)%nat) by (by eapply lookup_lt_Some).
    destruct (parse_payload_extends body' g) as [Hold Hnew].
    destruct (Hnew payload Hp) as [-> _].
    split; [lia|]. split; [by apply lookup_ge_None|].
    unfold intact. by rewrite Hold.
  - intros payload g l Hl. by apply validate_payload_frame.
Qed.
End Defaults.

(** ** The statements at concrete inputs *)

(** C1 on a host whose interpreter runs [escape] as CPython does: the
    evaluation returns the grid and leaves the defaults empty. *)
Lemma evaluation_is_not_isolated_witness :
  ~ disallowed escape
  /\ evaluate_expression (H := Escaping.host) (JStr escape) grid2 initial_heap
     = (ok (Floats grid2, grid2), [∅]).
Proof.
  destruct (evaluation_is_not_isolated (H := Escaping.host) grid2 initial_heap)
    as (_ & _ & Hallowed & _ & _ & _ & Hrun).
  - split; [reflexivity|]. intros x h. reflexivity.
  - split; [exact Hallowed|]. apply Hrun.
    repeat constructor.
Defined.

(** Against C2 as stated: the constant expression [1] over a grid of two
    points has the scalar 1 as its raw result; the evaluation does not
    return the array [[1., 1.]], it fails with the message of the shape
    check. *)
Lemma constant_expression_is_rejected :
  py_eval (H := Reference.host) eval_globals (safe_locals grid2) (JStr "1")
    grid2 initial_heap
  = (ok (VInt 1), grid2, initial_heap)
  /\ evaluate_expression (H := Reference.host) (JStr "1") grid2 initial_heap
     = (throw ValueError Msg.shape, initial_heap)
  /\ (evaluate_expression (H := Reference.host) (JStr "1") grid2 initial_heap).1
     <> ok (Floats (NdArray [2%nat] [Float.of_Z 1; Float.of_Z 1]), grid2).
Proof. split; [reflexivity|]. split; [reflexivity|discriminate]. Qed.

(** C2 as amended, on the constant expression [1]. *)
Lemma scalar_result_is_not_broadcast_witness :
  evaluate_expression (H := Reference.host) (JStr "1") grid2 initial_heap
  = (throw ValueError Msg.shape, initial_heap).
Proof.
  apply (scalar_result_is_not_broadcast (H := Reference.host)
           (JStr "1") grid2 (VInt 1) (Float.of_Z 1) initial_heap grid2 initial_heap).
  - reflexivity.
  - right. exists 1. repeat split.
  - discriminate.
Defined.

(** C6 on [1/x] over the grid [-1, 0, 1]: the value at 0 is infinite. *)
Lemma evaluation_checks_shape_and_finiteness_witness :
  evaluate_expression (H := Reference.host) (JStr "1/x") grid3 initial_heap
  = (throw ValueError Msg.non_finite, initial_heap).
Proof.
  refine (proj2 (proj2 (evaluation_checks_shape_and_finiteness
                   (H := Reference.host) (JStr "1/x") grid3 initial_heap)
            (VArr (NdArray [3%nat]
                     [Float.of_Z (-1); S754_infinity false; Float.of_Z 1]))
            (NdArray [3%nat] [Float.of_Z (-1); S754_infinity false; Float.of_Z 1])
            grid3 initial_heap _ _) _ _).
  - reflexivity.
  - reflexivity.
  - reflexivity.
  - apply Exists_cons_tl, Exists_cons_hd. reflexivity.
Defined.

(** Against C4 as stated: the body [{"foo": 1}] decodes to an object with the
    one key [foo], which the defaults do not have; the output record holds
    that key, so its keys are not those of the defaults. *)
Lemma unknown_keys_are_kept :
  json_loads (Host := Reference.host) body_unknown_key
  = ok (JDict {["foo" := JInt 1]})
  /\ parse_payload (H := Reference.host) body_unknown_key initial_heap
     = (ok 1%nat, initial_heap ++ [<["foo" := JInt 1]> default_items])
  /\ deref 1 (initial_heap ++ [<["foo" := JInt 1]> default_items]) !! "foo"
     = Some (JInt 1)
  /\ deref DEFAULT_PAYLOAD initial_heap !! "foo" = None
  /\ dom (deref 1 (initial_heap ++ [<["foo" := JInt 1]> default_items]))
     <> dom (deref DEFAULT_PAYLOAD initial_heap).
Proof.
  split; [reflexivity|]. split; [reflexivity|].
  split; [reflexivity|]. split; [reflexivity|].
  intros Heq.
  assert (Hin : "foo" ∈ dom (deref DEFAULT_PAYLOAD initial_heap)).
  { rewrite <- Heq. apply elem_of_dom. by eexists. }
  apply elem_of_dom in Hin as [v Hv]. discriminate Hv.
Qed.

(** C4 as amended, on a body that sets [xMin] and gives null for [color]. *)
Lemma parse_payload_merges_over_defaults_witness :
  exists payload h',
    parse_payload (H := Reference.host) body_partial initial_heap = (ok payload, h')
    /\ deref payload h' !! "xMin" = Some (JInt 5)
    /\ deref payload h' !! "color" = Some (JStr "#2563eb").
Proof.
  destruct (proj2 (parse_payload_merges_over_defaults (H := Reference.host) initial_heap)
              body_partial (<["xMin" := JInt 5]> {["color" := JNull]}))
    as (payload & h' & Hrun & _ & Hkeys & _).
  - discriminate.
  - reflexivity.
  - exists payload, h'. split; [exact Hrun|].
    split; rewrite Hkeys; reflexivity.
Defined.

(** C5 on the expression [os.getcwd()]. *)
Lemma denylist_rejects_before_evaluation_witness :
  validate_payload (H := Reference.host) 1 (custom_heap denied)
  = (throw ValueError Msg.disallowed, custom_heap denied).
Proof.
  destruct (denylist_rejects_before_evaluation (H := Reference.host)
              (custom_heap denied) 1%nat denied "os.getcwd()"
              eq_refl ltac:(discriminate) eq_refl eq_refl) as [Hdenied _].
  destruct Hdenied as [_ Hmsg].
  - apply search_denylist_iff. reflexivity.
  - apply Hmsg; eexists; reflexivity.
Defined.

(** C8 on the defaults with another sample count or line width. *)
Lemma validation_bounds_inclusive_witness :
  (validate_payload (H := Reference.host) 1
     (<[1%nat := <["samples" := JInt 10000]> default_items]>
        (custom_heap default_items))).1 = ok 1%nat
  /\ (validate_payload (H := Reference.host) 1
        (<[1%nat := <["lineWidth" := JFloat (Float.of_ratio 9 100)]> default_items]>
           (custom_heap default_items))).1 = throw ValueError Msg.line_width.
Proof.
  destruct (validation_bounds_inclusive (H := Reference.host)
              (custom_heap default_items) 1%nat default_items)
    as (_ & Hs & _ & _ & _ & _ & Hw & _).
  - simpl. lia.
  - discriminate.
  - reflexivity.
  - eexists. reflexivity.
  - reflexivity.
  - split; [exact Hs|exact Hw].
Defined.

(** C10 on the defaults with 2.9 samples. *)
Lemma fractional_samples_are_truncated_witness :
  let run := validate_payload (H := Reference.host) 1
               (<[1%nat := <["samples" := JFloat (Float.of_ratio 29 10)]> default_items]>
                  (custom_heap default_items)) in
  run.1 = ok 1%nat /\ deref 1 run.2 !! "samples" = Some (JInt 2).
Proof.
  destruct (fractional_samples_are_truncated (H := Reference.host)
              (custom_heap default_items) 1%nat default_items
              (Float.of_ratio 29 10) 2)
    as (Hok & Hsamples & _).
  - simpl. lia.
  - discriminate.
  - reflexivity.
  - eexists. reflexivity.
  - reflexivity.
  - reflexivity.
  - lia.
  - split; [exact Hok|exact Hsamples].
Defined.

(** C9 on a first POST whose expression is [escape], on a host whose
    interpreter runs it as CPython does: the defaults are empty afterwards
    and GET raises. *)
Lemma defaults_are_emptied_by_an_expression_witness :
  let h' := (do_POST (H := Escaping.host) 136 (ascii_bytes body_escape)
               initial_heap).2 in
  h' !! DEFAULT_PAYLOAD = Some ∅
  /\ do_GET (H := Escaping.host) h' = (throw KeyError "'xMin'", h').
Proof.
  destruct (defaults_are_emptied_by_an_expression (H := Escaping.host)
              136 (ascii_bytes body_escape) body_escape default_grid initial_heap)
    as (Hempty & _ & Hget & _).
  - split; [reflexivity|]. intros x h. reflexivity.
  - by vm_compute.
  - discriminate.
  - by vm_compute.
  - discriminate.
  - by vm_compute.
  - by vm_compute.
  - reflexivity.
  - reflexivity.
  - split; [exact Hempty|exact Hget].
Defined.

(** The JSON number [2.9] is the float of the example above. *)
Example json_2_9 :
  json_loads (Host := Reference.host) "2.9" = ok (JFloat (Float.of_ratio 29 10)).
Proof. reflexivity. Qed.

(** ** The service *)

Section Service.
Context `{Host}.

(** The validator raises [ValueError], or [KeyError] for want of an
    expression. *)
Lemma validate_payload_raises h l d exc :
  h !! l = Some d ->
  l <> DEFAULT_PAYLOAD ->
  h !! DEFAULT_PAYLOAD = Some default_items ->
  is_Some (d !! "expression") ->
  (validate_payload l h).1 = inl exc ->
  exists msg, exc = Exn ValueError msg /\ first_failure (checks d) = Some msg.
Proof.
  intros Hl Hne H0 He.
  rewrite (validate_payload_run h l d) by done.
  cbn [fst]. rewrite validation_first_failure.
  destruct (first_failure (checks d)) as [msg|]; [|done].
  intros [= <-]. by exists msg.
Qed.

Lemma keeps_prefix (h h' : heap) :
  (forall l, (l < length h)%nat -> h' !! l = h !! l) -> h `prefix_of` h'.
Proof.
  intros Hk. exists (drop (length h) h').
  rewrite <- (take_drop (length h) h') at 1. f_equal.
  apply list_eq. intros i.
  destruct (decide (i < length h)%nat) as [Hi|Hi].
  - by rewrite lookup_take_lt, Hk.
  - rewrite lookup_take_ge by lia. symmetry. apply lookup_ge_None. lia.
Qed.

(** The heap that a POST leaves: the one it found with its payload added,
    or what the evaluation of an expression made of that. *)
Lemma do_POST_heap cl sent h :
  exists g,
    h `prefix_of` g
    /\ ((do_POST cl sent h).2 = g
        \/ exists e x, (do_POST cl sent h).2 = (evaluate_expression e x g).2).
Proof.
  unfold do_POST. destruct (cl >? max_message_len); [exists h; by split; [|left]|].
  cbv zeta. unfold bind at 1, lift.
  destruct (decode_utf8 _) as [exc|body]; [exists h; by split; [|left]|].
  destruct (parse_payload_extends body h) as [Hold Hnew].
  unfold try_except, bind.
  destruct (parse_payload body h) as [[exc|payload] h1] eqn:Hp; simpl in *.
  { exists h1. split; [by apply keeps_prefix|]. left.
    destruct (Exception exc); [|done]. by destruct (is_ValueError exc). }
  destruct (Hnew payload eq_refl) as [-> _].
  pose proof (validate_payload_frame (length h) h1) as Hv.
  destruct (validate_payload (length h) h1) as [[exc|payload] h2]; simpl in *.
  { exists h2. split.
    - apply keeps_prefix. intros l Hl. rewrite Hv by lia. by apply Hold.
    - left. destruct (Exception exc); [|done]. by destruct (is_ValueError exc). }
  exists h2. split.
  { apply keeps_prefix. intros l Hl. rewrite Hv by lia. by apply Hold. }
  destruct (render_plot_heap payload h2) as [Hr|(e & x & Hr)].
  - left. destruct (render_plot payload h2) as [[exc|r] h3]; simpl in *; subst h3.
    + destruct (Exception exc); [|done]. by destruct (is_ValueError exc).
    + done.
  - right. exists e, x. rewrite <- Hr.
    destruct (render_plot payload h2) as [[exc|r] h3]; simpl.
    + destruct (Exception exc); [|done]. by destruct (is_ValueError exc).
    + done.
Qed.

Lemma handle_heap r h :
  exists g,
    h `prefix_of` g
    /\ ((handle r h).2 = g
        \/ exists e x, (handle r h).2 = (evaluate_expression e x g).2).
Proof.
  destruct r as [| |cl sent]; simpl.
  - exists h. by split; [|left].
  - exists h. split; [done|]. rewrite do_GET_run.
    destruct (render_plot_heap DEFAULT_PAYLOAD h) as [Hr|(e & x & Hr)].
    + left. by destruct (render_plot DEFAULT_PAYLOAD h) as [[exc|r] h'].
    + right. exists e, x. rewrite <- Hr.
      by destruct (render_plot DEFAULT_PAYLOAD h) as [[exc|r] h'].
  - apply do_POST_heap.
Qed.

(** X15: a request changes a dictionary that existed before only through
    the evaluation of an expression: the heap it leaves is the heap it
    found, possibly with dictionaries added, or what the evaluation of an
    expression made of that; on a host whose evaluations leave the heap as
    it is, serving requests only adds dictionaries. *)
Theorem earlier_payloads_change_only_by_evaluation r h :
  (exists g,
     h `prefix_of` g
     /\ ((handle r h).2 = g
         \/ exists e x, (handle r h).2 = (evaluate_expression e x g).2))
  /\ ((forall e x g, (evaluate_expression e x g).2 = g) ->
      forall rs, h `prefix_of` serve rs h).
Proof.
  split; [apply handle_heap|].
  intros Hq rs. revert h. induction rs as [|r' rs IH]; intros h; simpl; [done|].
  etrans; [|apply IH].
  destruct (handle_heap r' h) as (g & Hg & [->|(e & x & ->)]); [done|].
  by rewrite Hq.
Qed.

(** The answers of [do_POST]. *)
Lemma do_POST_envelope cl sent h resp :
  (do_POST cl sent h).1 = ok resp ->
  headers resp =
    [("Content-Type", "application/json; charset=utf-8");
     ("Cache-Control", "no-cache");
     ("Access-Control-Allow-Origin", "*");
     ("Access-Control-Allow-Methods", "GET, POST, OPTIONS");
     ("Access-Control-Allow-Headers", "Content-Type")]
  /\ (status resp = 200 \/ status resp = 400 \/ status resp = 413 \/ status resp = 500)
  /\ (status resp = 413 <-> cl > max_message_len)
  /\ (status resp = 200 <-> exists image md, content resp = ImageBody image md false)
  /\ (status resp <> 200 <-> exists msg, content resp = ErrorBody msg).
Proof.
  destruct (decide (cl > max_message_len)) as [Hcl|Hcl].
  - unfold do_POST. replace (cl >? max_message_len) with true by lia.
    intros [= <-]. simpl.
    repeat split; try done; try tauto; try lia.
    + by intros (? & ? & ?).
    + by eauto.
  - destruct (decode_utf8 (if cl =? 0 then [] else sent)) as [exc|body] eqn:Hd.
    { by rewrite (do_POST_undecoded cl sent exc) by (done || lia). }
    rewrite (do_POST_run cl sent body) by (done || lia).
    match goal with
    | |- context [bind ?m ?k h] => destruct (bind m k h) as [[exc|resp'] h'] eqn:Hb
    end.
    + destruct (Exception exc); [|done]. cbn [fst]. intros [= <-].
      destruct (is_ValueError exc); simpl;
        (repeat split; try done; try tauto; try lia);
        try (by intros (? & ? & ?)); by eauto.
    + cbn [fst]. intros [= <-].
      assert (exists r, resp' = build_response 200
                (ImageBody ("data:image/png;base64," +:+ r.1) r.2 false)) as [r ->].
      { unfold bind in Hb.
        destruct (parse_payload _ h) as [[?|p] h1]; [done|].
        destruct (validate_payload p h1) as [[?|p'] h2]; [done|].
        destruct (render_plot p' h2) as [[?|r] h3]; [done|].
        exists r. unfold ret in Hb. by injection Hb as <- _. }
      simpl. repeat split; try done; try tauto; try lia.
      * by eauto.
      * by intros (? & ?).
Qed.


(** X10: a body that decodes to an object whose merge over the defaults
    fails a check of the validator is answered 400 with the message of the
    first check that fails, and no dictionary that existed is changed. *)
Theorem post_reports_first_failure cl sent body data h msg :
  cl <= max_message_len ->
  cl <> 0 ->
  decode_utf8 sent = ok body ->
  body <> "" ->
  intact h ->
  json_loads body = ok (JDict data) ->
  first_failure (checks (filter (fun kv => is_None kv.2 = false) data ∪ default_items))
    = Some msg ->
  (do_POST cl sent h).1 = ok (build_response 400 (ErrorBody msg))
  /\ forall l, (l < length h)%nat -> (do_POST cl sent h).2 !! l = h !! l.
Proof.
  intros Hcl Hne Hd Hs Hh Hj Hf.
  rewrite (do_POST_payload cl sent body h
             (filter (fun kv => is_None kv.2 = false) data ∪ default_items));
    [|done|by replace (cl =? 0) with false by lia|done
     |by apply parse_payload_object_intact|apply merged_has_expression].
  rewrite validation_first_failure, Hf. cbn [fst snd throw]. split; [done|].
  intros l Hl. by rewrite lookup_app_l.
Qed.

(** What the payload holds when the evaluation begins and what the answer
    carries. *)
Lemma drawn_metadata d r out :
  drawn d r = ok out ->
  d !! "xMin" = Some (md_xMin out.2)
  /\ d !! "xMax" = Some (md_xMax out.2)
  /\ d !! "samples" = Some (md_samples out.2).
Proof.
  unfold drawn, item, rbind.
  destruct (savefig d r.2 r.1); [done|].
  destruct (d !! "xMin") as [a|]; [|done].
  destruct (d !! "xMax") as [b|]; [|done].
  destruct (d !! "samples") as [n|]; [|done].
  by intros [= <-].
Qed.

(** X11: a 200 answer to a POST carries the image as a data URL, [default]
    false, and as metadata what the payload holds for [xMin], [xMax] and
    [samples] once the expression is evaluated.  When the evaluation began
    the payload held the bounds as floats and the sample count as an
    integer between 2 and 10000, whatever the types the request gave them:
    these are the metadata when the evaluation left the payload as it
    was. *)
Theorem post_success_echoes_numbers cl sent h resp :
  intact h ->
  (do_POST cl sent h).1 = ok resp ->
  status resp = 200 ->
  let h' := (do_POST cl sent h).2 in
  exists encoded a b c e x d x_min x_max n,
    content resp =
      ImageBody ("data:image/png;base64," +:+ encoded) (Metadata a b c) false
    /\ deref (length h) h' !! "xMin" = Some a
    /\ deref (length h) h' !! "xMax" = Some b
    /\ deref (length h) h' !! "samples" = Some c
    /\ h' = (evaluate_expression e x (h ++ [d])).2
    /\ d !! "xMin" = Some (JFloat x_min)
    /\ d !! "xMax" = Some (JFloat x_max)
    /\ d !! "samples" = Some (JInt n)
    /\ d !! "expression" = Some e
    /\ Float.ge x_min x_max = false
    /\ 2 <= n <= 10000
    /\ (deref (length h) h' = d ->
        a = JFloat x_min /\ b = JFloat x_max /\ c = JInt n).
Proof.
  intros Hh Hresp Hst h'. unfold h'. clear h'.
  destruct (decide (cl > max_message_len)) as [Hcl|Hcl].
  { unfold do_POST in Hresp. replace (cl >? max_message_len) with true in Hresp by lia.
    injection Hresp as <-. done. }
  destruct (decode_utf8 (if cl =? 0 then [] else sent)) as [exc|body] eqn:Hd.
  { by rewrite (do_POST_undecoded cl sent exc) in Hresp by (done || lia). }
  destruct (parse_payload body h) as [[exc|payload] h1] eqn:Hp.
  { rewrite (do_POST_unparsed cl sent body h exc h1) in Hresp by (done || lia).
    destruct (Exception exc); [|done].
    injection Hresp as <-. simpl in Hst. by destruct (is_ValueError exc). }
  destruct (parse_payload_intact body h payload Hh)
    as (-> & d & Hh1 & Hkeys & _); [by rewrite Hp|].
  rewrite Hp in Hh1. cbn [snd] in Hh1. subst h1.
  rewrite (do_POST_payload cl sent body h d) in Hresp |- *;
    [|lia|done|done|done|apply Hkeys; vm_compute; by eexists
     |lia|done|done|done|apply Hkeys; vm_compute; by eexists].
  pose proof (validation_first_failure (length h) default_items d) as Hf.
  destruct (validation (length h) default_items d) as [[exc|p] d'] eqn:Hv;
    cbn [fst snd] in *.
  { injection Hresp as <-.
    destruct (first_failure (checks d)); [|done]. by injection Hf as ->. }
  destruct (validation_accepts (length h) default_items d p) as
    (x_min & x_max & n & w & Hi & Hn & Hw & Hd'); [by rewrite Hv|].
  rewrite Hv in Hd'. cbn [snd] in Hd'. subst d'.
  rewrite render_plot_run, deref_app_new in Hresp |- *.
  destruct (grid_of _) as [exc|[e x]] eqn:Hg.
  { destruct (Exception exc); [|done]. injection Hresp as <-.
    simpl in Hst. by destruct (is_ValueError exc). }
  assert (He : validated default_items d x_min x_max n w !! "expression" = Some e).
  { unfold grid_of, item in Hg.
    rewrite validated_xMin, validated_xMax, validated_samples in Hg.
    cbn [rbind ok] in Hg. destruct (np_linspace _ _ _); [done|].
    cbn [rbind ok] in Hg.
    destruct (_ !! "expression") as [e'|]; [|done]. by injection Hg as <- _. }
  destruct (evaluate_expression e x _) as [[exc|r] h2] eqn:Hev.
  { destruct (Exception exc); [|done]. injection Hresp as <-.
    simpl in Hst. by destruct (is_ValueError exc). }
  destruct (drawn (deref (length h) h2) r) as [exc|out] eqn:Hout.
  { destruct (Exception exc); [|done]. injection Hresp as <-.
    simpl in Hst. by destruct (is_ValueError exc). }
  cbn [fst snd] in *. injection Hresp as <-.
  destruct (drawn_metadata _ _ _ Hout) as (Ha & Hb & Hc).
  destruct out as [enc [a b c]]. simpl in *.
  exists enc, a, b, c, e, x, (validated default_items d x_min x_max n w),
    x_min, x_max, n.
  rewrite Hev. cbn [snd].
  split; [done|]. split; [done|]. split; [done|]. split; [done|].
  split; [done|]. split; [apply validated_xMin|]. split; [apply validated_xMax|].
  split; [apply validated_samples|]. split; [done|].
  split; [by eapply interval_of_Some|]. split; [by eapply samples_of_Some|].
  intros Heq. rewrite Heq in Ha, Hb, Hc.
  rewrite validated_xMin in Ha. rewrite validated_xMax in Hb.
  rewrite validated_samples in Hc. by simplify_eq.
Qed.

(** The defaults pass validation and are left as they are. *)
Lemma validation_defaults l :
  validation l default_items default_items = (ok l, default_items).
Proof.
  unfold validation.
  replace (interval_of default_items)
    with (Some (Float.mul (Float.of_Z (-2)) Float.pi, Float.mul (Float.of_Z 2) Float.pi))
    by (by vm_compute).
  replace (samples_of default_items) with (Some 500) by (by vm_compute).
  replace (expression_of default_items) with "sin(2 * pi * x)" by (by vm_compute).
  replace (Text.is_empty "sin(2 * pi * x)") with false by (by vm_compute).
  replace (Re.search DENYLIST "sin(2 * pi * x)") with false by (by vm_compute).
  replace (line_width_of default_items) with (Some (Float.of_Z 2)) by (by vm_compute).
  reflexivity.
Qed.

(** What the rendering reads in the defaults. *)
Lemma grid_of_defaults :
  grid_of default_items =
    (x <-r np_linspace (JFloat (Float.mul (Float.of_Z (-2)) Float.pi))
             (JFloat (Float.mul (Float.of_Z 2) Float.pi)) (JInt 500) ;;
     ok (JStr "sin(2 * pi * x)", x)).
Proof.
  unfold grid_of, item.
  replace (default_items !! "xMin")
    with (Some (JFloat (Float.mul (Float.of_Z (-2)) Float.pi))) by (by vm_compute).
  replace (default_items !! "xMax")
    with (Some (JFloat (Float.mul (Float.of_Z 2) Float.pi))) by (by vm_compute).
  replace (default_items !! "samples") with (Some (JInt 500)) by (by vm_compute).
  replace (default_items !! "expression")
    with (Some (JStr "sin(2 * pi * x)")) by (by vm_compute).
  cbn [rbind ok]. by destruct (np_linspace _ _ _).
Qed.

(** X12: a POST of declared length 0 is served from a copy of the defaults
    whatever was sent.  The empty bytes being decoded to the empty text,
    and the evaluation of the default expression on the default grid being
    quiet, it answers with the image and the metadata of GET and [default]
    false, and leaves the heap with that copy added; where GET raises, the
    rendering having failed, the POST answers 400 or 500 with the message
    of the exception, or raises it when it is not an [Exception]. *)
Theorem empty_post_matches_get sent h :
  intact h ->
  decode_utf8 [] = ok "" ->
  (forall x,
     np_linspace (JFloat (Float.mul (Float.of_Z (-2)) Float.pi))
       (JFloat (Float.mul (Float.of_Z 2) Float.pi)) (JInt 500) = ok x ->
     quiet (JStr "sin(2 * pi * x)") x) ->
  (forall image md,
     (do_GET h).1 = ok (build_response 200 (ImageBody image md true))
     <-> (do_POST 0 sent h).1 = ok (build_response 200 (ImageBody image md false)))
  /\ (forall exc,
        (do_GET h).1 = inl exc ->
        (do_POST 0 sent h).1 =
          if Exception exc
          then ok (if is_ValueError exc
                   then build_response 400 (ErrorBody (exn_msg exc))
                   else build_response 500 (ErrorBody (Msg.internal +:+ exn_msg exc)))
          else inl exc)
  /\ (do_GET h).2 = h
  /\ (do_POST 0 sent h).2 = h ++ [default_items].
Proof.
  intros Hh Hdec Hq.
  rewrite (do_POST_payload 0 sent "" h default_items);
    [|done|done|done| |vm_compute; by eexists].
  2:{ by rewrite parse_payload_empty, (deref_lookup _ _ _ Hh). }
  rewrite do_GET_run, validation_defaults. cbn [fst snd].
  rewrite !render_plot_run, deref_app_new, (deref_lookup _ _ _ Hh).
  rewrite grid_of_defaults.
  assert (Hraise : forall (exc : exn) (g g' : heap),
    (forall image md,
       (@inl exn response exc, g).1 = ok (build_response 200 (ImageBody image md true))
       <-> (if Exception exc then (ok (post_answer (inl exc)), g')
            else (inl exc, g')).1
           = ok (build_response 200 (ImageBody image md false)))
    /\ (forall exc',
          (@inl exn response exc, g).1 = inl exc' ->
          (if Exception exc then (ok (post_answer (inl exc)), g')
           else (inl exc, g')).1 =
            if Exception exc'
            then ok (if is_ValueError exc'
                     then build_response 400 (ErrorBody (exn_msg exc'))
                     else build_response 500 (ErrorBody (Msg.internal +:+ exn_msg exc')))
            else inl exc')
    /\ (@inl exn response exc, g).2 = g
    /\ (if Exception exc then (ok (post_answer (inl exc)), g')
        else (@inl exn response exc, g')).2 = g').
  { intros exc g g'. split; [|split; [|split]].
    - intros image md. split; [done|].
      destruct (Exception exc); [|done]. simpl. by destruct (is_ValueError exc).
    - intros exc' [= <-]. by destruct (Exception exc).
    - done.
    - by destruct (Exception exc). }
  destruct (np_linspace _ _ _) as [exc|x] eqn:Hx; cbn [rbind ok].
  { apply Hraise. }
  destruct (Hq x eq_refl) as [r Hr]. rewrite !Hr.
  destruct r as [exc|r]; [apply Hraise|].
  rewrite deref_app_new, (deref_lookup _ _ _ Hh).
  destruct (drawn default_items r) as [exc|out]; [apply Hraise|].
  split; [|split; [|by split]].
  - intros image md. simpl. split; intros [= <- <-]; done.
  - done.
Qed.

(** X13: an expression that is the name of a function or of the module of
    [SAFE_FUNCTIONS], not applied, is evaluated without an exception; the
    conversion of its value to an array raises a [TypeError] outside the
    [try] block, the heap being left as it was, and a POST whose payload
    passes validation with such an expression is answered 500, not 400. *)
Theorem function_value_is_internal_error s id x :
  ast_parse s = ok (Name id) ->
  ((exists f, SAFE_FUNCTIONS !! id = Some (VUfunc f))
   \/ (exists m, SAFE_FUNCTIONS !! id = Some (VModule m))) ->
  (exists msg, forall h, evaluate_expression (JStr s) x h = (throw TypeError msg, h))
  /\ forall cl sent body data h x_min x_max n,
       cl <= max_message_len -> cl <> 0 ->
       decode_utf8 sent = ok body -> body <> "" ->
       intact h ->
       json_loads body = ok (JDict data) ->
       let d := filter (fun kv => is_None kv.2 = false) data ∪ default_items in
       first_failure (checks d) = None ->
       expression_of d = s ->
       interval_of d = Some (x_min, x_max) ->
       samples_of d = Some n ->
       np_linspace (JFloat x_min) (JFloat x_max) (JInt n) = ok x ->
       exists msg,
         (do_POST cl sent h).1
         = ok (build_response 500 (ErrorBody (Msg.internal +:+ msg))).
Proof.
  intros Hs Hid.
  assert (Hx : id <> "x").
  { intros ->. by destruct Hid as [[f Hf]|[m Hm]]. }
  assert (He : exists msg, forall h,
             evaluate_expression (JStr s) x h = (throw TypeError msg, h)).
  { destruct Hid as [[f Hf]|[m Hm]]; eexists; intros h.
    - rewrite (evaluate_expression_returned (JStr s) x h (VUfunc f) x h); [done|].
      rewrite (py_eval_name s id) by done.
      unfold load_name, safe_locals. by rewrite lookup_insert_ne, Hf.
    - rewrite (evaluate_expression_returned (JStr s) x h (VModule m) x h); [done|].
      rewrite (py_eval_name s id) by done.
      unfold load_name, safe_locals. by rewrite lookup_insert_ne, Hm. }
  split; [done|]. destruct He as [msg He].
  intros cl sent body data h x_min x_max n Hcl Hne Hdec Hbody Hh Hj d Hf Hexp Hi Hn Hx'.
  rewrite (do_POST_payload cl sent body h d);
    [|done|by replace (cl =? 0) with false by lia|done
     |by apply parse_payload_object_intact|apply merged_has_expression].
  pose proof (validation_first_failure (length h) default_items d) as Hv.
  rewrite Hf in Hv.
  destruct (validation_accepts (length h) default_items d (length h) Hv)
    as (x_min' & x_max' & n' & w & Hi' & Hn' & Hw & Hd').
  rewrite Hv, Hd'. rewrite Hi in Hi'. rewrite Hn in Hn'.
  injection Hi' as <- <-. injection Hn' as <-.
  rewrite render_plot_run, deref_app_new.
  unfold grid_of, item.
  rewrite validated_xMin, validated_xMax, validated_samples, validated_expression.
  cbn [rbind ok]. rewrite Hx'. cbn [rbind ok]. rewrite Hexp, He.
  simpl. by eexists.
Qed.

Lemma FIELDS_are_defaults k : k ∈ FIELDS -> is_Some (default_items !! k).
Proof.
  intros Hk. apply in_FIELDS in Hk
    as [->|[->|[->|[->|[->|[->|[->|[->|[->|[->| ->]]]]]]]]]];
    vm_compute; by eexists.
Qed.

(** X8: the payload that the normaliser returns holds every key that the
    validator and the rendering read, and no null; validating it raises
    nothing but a [ValueError] with one of the five messages. *)
Theorem parsed_payload_is_complete body h payload :
  intact h ->
  (parse_payload body h).1 = ok payload ->
  let h' := (parse_payload body h).2 in
  (forall k, k ∈ FIELDS -> is_Some (deref payload h' !! k))
  /\ (forall k v, deref payload h' !! k = Some v -> is_None v = false)
  /\ (forall exc, (validate_payload payload h').1 = inl exc ->
        exists msg,
          exc = Exn ValueError msg
          /\ msg ∈ [Msg.interval; Msg.samples; Msg.empty; Msg.disallowed; Msg.line_width]).
Proof.
  intros Hh Hp h'.
  destruct (parse_payload_intact body h payload Hh Hp) as (-> & d & Hh' & Hkeys & Hnn).
  assert (Hlen : (0 < length h)%nat) by (by eapply lookup_lt_Some).
  unfold h'. rewrite Hh', deref_app_new.
  split; [intros k Hk; by apply Hkeys, FIELDS_are_defaults|]. split; [done|].
  intros exc Hexc.
  destruct (validate_payload_raises (h ++ [d]) (length h) d exc) as (msg & -> & Hf).
  - by rewrite lookup_app_r, Nat.sub_diag by lia.
  - unfold DEFAULT_PAYLOAD. lia.
  - by rewrite lookup_app_l by done.
  - apply Hkeys. vm_compute. by eexists.
  - done.
  - exists msg. split; [done|].
    unfold checks, first_failure in Hf.
    repeat match type of Hf with
           | (if ?b then _ else _) = _ => destruct b
           end; try discriminate Hf; injection Hf as <-;
      rewrite !elem_of_cons; tauto.
Qed.

(** X17: without a Content-Length header, or with an empty one, a POST is
    served as one of declared length 0, the host reading the text [0] as the
    number 0, and nothing of what was sent is read; a header that is not a
    number makes the handler raise a [ValueError] outside the [try] block,
    so that nothing is answered; a header above the limit is answered
    413. *)
Theorem content_length_header sent h :
  (int_of_str "0" = Some 0 ->
   do_POST_header None sent h = do_POST 0 [] h
   /\ do_POST_header (Some "") sent h = do_POST 0 [] h)
  /\ (forall s, s <> "" -> int_of_str s = None ->
        exists msg, do_POST_header (Some s) sent h = (throw ValueError msg, h))
  /\ (forall s n, s <> "" -> int_of_str s = Some n -> n > max_message_len ->
        do_POST_header (Some s) sent h
        = (ok (build_response 413 (ErrorBody Msg.too_large)), h)).
Proof.
  unfold do_POST_header, read_content_length, bind, lift. simpl.
  split; [|split].
  - intros ->. by split.
  - intros s Hs Hn. rewrite is_empty_false by done. rewrite Hn. by eexists.
  - intros s n Hs Hn Hgt. rewrite is_empty_false by done. rewrite Hn.
    unfold ok, do_POST. by replace (n >? max_message_len) with true by lia.
Qed.

(** X7: in an accepted payload the title and the labels are the stripped
    text of what was given, or the default when that is empty; the color is
    the text of what was given, not stripped, or the default when what was
    given counts as false; the marker likewise, with the empty text; the grid
    is the truth value of what was given, true when nothing was, so that any
    text that is not empty turns the grid on. *)
Theorem display_fields_fall_back h l d :
  h !! l = Some d ->
  l <> DEFAULT_PAYLOAD ->
  h !! DEFAULT_PAYLOAD = Some default_items ->
  (validate_payload l h).1 = ok l ->
  let d' := deref l (validate_payload l h).2 in
  (forall k, k ∈ ["title"; "xLabel"; "yLabel"] ->
     let s := Text.strip (py_str (default (JStr "") (d !! k))) in
     d' !! k = if Text.is_empty s then default_items !! k else Some (JStr s))
  /\ d' !! "color"
     = Some (JStr (match d !! "color" with
                   | Some v => if truthy v then py_str v else "#2563eb"
                   | None => "#2563eb"
                   end))
  /\ d' !! "marker"
     = Some (JStr (match d !! "marker" with
                   | Some v => if truthy v then py_str v else ""
                   | None => ""
                   end))
  /\ d' !! "grid"
     = Some (JBool (match d !! "grid" with
                    | Some v => truthy v
                    | None => true
                    end))
  /\ (forall s, s <> "" -> d !! "grid" = Some (JStr s) -> d' !! "grid" = Some (JBool true)).
Proof.
  intros Hl Hne H0 Hok d'.
  destruct (validate_payload_accepts h l d Hl Hne H0 Hok)
    as (x_min & x_max & n & w & Hi & Hn & Hempty & Hdeny & Hw & Hheap).
  assert (Hd' : d' = validated default_items d x_min x_max n w).
  { unfold d'. rewrite Hheap. apply deref_insert_eq. by eapply lookup_lt_Some. }
  rewrite Hd'.
  assert (Hgrid : validated default_items d x_min x_max n w !! "grid"
     = Some (JBool (match d !! "grid" with
                    | Some v => truthy v
                    | None => true
                    end))).
  { rewrite validated_grid. by destruct (d !! "grid"). }
  split; [|split; [|split; [|split]]].
  - intros k Hk s.
    assert (Hcases : k = "title" \/ k = "xLabel" \/ k = "yLabel").
    { rewrite !elem_of_cons in Hk. destruct Hk as [?|[?|[?|Hk]]]; try tauto.
      by apply elem_of_nil in Hk. }
    destruct Hcases as [->|[->| ->]].
    + rewrite validated_title. unfold text_or. fold s. by destruct (Text.is_empty s).
    + rewrite validated_xLabel. unfold text_or. fold s. by destruct (Text.is_empty s).
    + rewrite validated_yLabel. unfold text_or. fold s. by destruct (Text.is_empty s).
  - rewrite validated_color.
    destruct (d !! "color") as [v|]; simpl; [|done]. by destruct (truthy v).
  - rewrite validated_marker.
    destruct (d !! "marker") as [v|]; simpl; [|done]. by destruct (truthy v).
  - done.
  - intros s Hs Hg. rewrite Hgrid, Hg. by destruct s.
Qed.

(** X16: every answer carries the same five headers, the three of
    cross-origin access among them; OPTIONS is answered 200 with an empty
    object and leaves the heap as it was; GET is answered 200 with an image
    and [default] true, and leaves the heap that the evaluation of the
    expression of the defaults left, which is the heap as it was when that
    evaluation is quiet. *)
Theorem every_answer_carries_the_same_headers r h resp :
  (handle r h).1 = ok resp ->
  headers resp =
    [("Content-Type", "application/json; charset=utf-8");
     ("Cache-Control", "no-cache");
     ("Access-Control-Allow-Origin", "*");
     ("Access-Control-Allow-Methods", "GET, POST, OPTIONS");
     ("Access-Control-Allow-Headers", "Content-Type")]
  /\ (r = OPTIONS -> resp = build_response 200 EmptyBody /\ (handle r h).2 = h)
  /\ (r = GET ->
      status resp = 200
      /\ (exists image md, content resp = ImageBody image md true)
      /\ exists e x,
           grid_of (deref DEFAULT_PAYLOAD h) = ok (e, x)
           /\ (handle r h).2 = (evaluate_expression e x h).2
           /\ (quiet e x -> (handle r h).2 = h)).
Proof.
  destruct r as [| |cl sent]; simpl.
  - intros [= <-]. by repeat split.
  - rewrite do_GET_run, render_plot_run.
    destruct (grid_of (deref DEFAULT_PAYLOAD h)) as [exc|[e x]]; [done|].
    destruct (evaluate_expression e x h) as [[exc|y] h'] eqn:Hev; [done|].
    destruct (drawn (deref DEFAULT_PAYLOAD h') y) as [exc|out]; [done|].
    cbn [fst snd]. intros [= <-].
    split; [done|]. split; [done|]. intros _.
    split; [done|]. split; [by eauto|].
    exists e, x. split; [done|]. split; [by rewrite Hev|].
    intros [r Hq]. rewrite Hq in Hev. by injection Hev as _ <-.
  - intros Hresp.
    destruct (do_POST_envelope cl sent h resp Hresp) as (Hh & _). by repeat split.
Qed.
End Service.

(** ** Further statements at concrete inputs *)

(** The interpreter of the reference host runs no code of any object:
    its evaluations are quiet. *)
Lemma reference_quiet expression x : quiet (H := Reference.host) expression x.
Proof.
  exists (evaluate_expression (H := Reference.host) expression x []).1.
  intros h. unfold evaluate_expression, py_eval.
  destruct expression as [| | | |s| |]; try reflexivity.
  simpl. destruct (Reference.ast_parse s) as [exc|[v|id|]]; try reflexivity.
  - by destruct (Exception exc).
  - destruct (load_name _ _ id) as [exc|raw]; [|done]. by destruct (Exception exc).
  - unfold Reference.py_eval_composite.
    destruct (_ <-r Reference.Parser.ast_parse s ;; _) as [exc|raw]; [|done].
    by destruct (Exception exc).
Qed.

(** X6 on the defaults without their expression. *)
Lemma missing_expression_is_a_key_error_witness :
  validate_payload (H := Reference.host) 1 (custom_heap without_expression)
  = (throw KeyError "'expression'", custom_heap without_expression).
Proof.
  apply (missing_expression_is_a_key_error (H := Reference.host)
           (custom_heap without_expression) 1%nat without_expression).
  - reflexivity.
  - reflexivity.
  - eexists. reflexivity.
  - eexists. reflexivity.
Defined.

(** X1 on a copy of the defaults. *)
Lemma validated_payload_is_well_formed_witness :
  let d' := deref 1 (validate_payload (H := Reference.host) 1
                       (custom_heap default_items)).2 in
  exists x_min x_max n e,
    d' !! "xMin" = Some (JFloat x_min)
    /\ d' !! "xMax" = Some (JFloat x_max)
    /\ d' !! "samples" = Some (JInt n) /\ 2 <= n <= 10000
    /\ d' !! "expression" = Some (JStr e) /\ e <> "".
Proof.
  destruct (validated_payload_is_well_formed (H := Reference.host)
              (custom_heap default_items) 1%nat default_items)
    as (x_min & x_max & n & e & title & xLabel & yLabel & color & marker & w & g
        & Ha & Hb & _ & Hn & Hn' & He & He' & _).
  - reflexivity.
  - discriminate.
  - reflexivity.
  - reflexivity.
  - intros d'. exists x_min, x_max, n, e. repeat split; try assumption; lia.
Defined.

(** X2 on a payload with a key that nothing reads. *)
Lemma validation_keeps_other_keys_witness :
  deref 1 (validate_payload (H := Reference.host) 1 (custom_heap with_note)).2 !! "note"
  = Some (JStr "draft").
Proof.
  destruct (validation_keeps_other_keys (H := Reference.host)
              (custom_heap with_note) 1%nat with_note) as [Hk _].
  - reflexivity.
  - discriminate.
  - reflexivity.
  - rewrite Hk; [reflexivity|]. unfold FIELDS. rewrite !elem_of_cons.
    intros [?|[?|[?|[?|[?|[?|[?|[?|[?|[?|[?|Hnil]]]]]]]]]]]; try discriminate.
    by apply elem_of_nil in Hnil.
Defined.

(** X3 on a denied expression, and on a line width that is not a number. *)
Lemma rejected_payload_footprint_witness :
  (validate_payload (H := Reference.host) 1 (custom_heap denied)).2 = custom_heap denied
  /\ deref 1 (validate_payload (H := Reference.host) 1 (custom_heap with_nan)).2 !! "samples"
     = Some (JInt 500).
Proof.
  split.
  - destruct (rejected_payload_footprint (H := Reference.host)
                (custom_heap denied) 1%nat denied) as [Hsame _].
    + reflexivity.
    + discriminate.
    + reflexivity.
    + eexists. reflexivity.
    + apply (Hsame Msg.disallowed); [reflexivity|]. vm_compute. discriminate.
  - destruct (rejected_payload_footprint (H := Reference.host)
                (custom_heap with_nan) 1%nat with_nan) as [_ Hlw].
    + reflexivity.
    + discriminate.
    + reflexivity.
    + eexists. reflexivity.
    + destruct Hlw as (x_min & x_max & n & _ & Hn & _ & _ & _ & Hs & _); [reflexivity|].
      rewrite Hs. f_equal. f_equal.
      assert (Hn' : samples_of (H := Reference.host) with_nan = Some 500) by reflexivity.
      congruence.
Defined.

(** X4 on bounds and a line width that are not numbers. *)
Lemma nan_passes_interval_not_line_width_witness :
  read_interval (H := Reference.host) 1 (custom_heap with_nan)
  = (ok (S754_nan, Float.mul (Float.of_Z 2) Float.pi), custom_heap with_nan)
  /\ read_line_width (H := Reference.host) 1 (custom_heap with_nan)
     = (throw ValueError Msg.line_width, custom_heap with_nan).
Proof.
  destruct (nan_passes_interval_not_line_width (H := Reference.host)
              (custom_heap with_nan) 1%nat with_nan eq_refl) as [Hi Hw].
  split.
  - apply (Hi (JFloat S754_nan) (JFloat (Float.mul (Float.of_Z 2) Float.pi)));
      try reflexivity. by left.
  - apply (Hw (JFloat S754_nan)); reflexivity.
Defined.

(** X5 on a payload with a blank title. *)
Lemma validation_is_idempotent_witness :
  let h1 := (validate_payload (H := Reference.host) 1 (custom_heap blank_title)).2 in
  validate_payload (H := Reference.host) 1 h1 = (ok 1%nat, h1).
Proof.
  apply (validation_is_idempotent (H := Reference.host)
           (custom_heap blank_title) 1%nat blank_title).
  - reflexivity.
  - discriminate.
  - reflexivity.
  - reflexivity.
  - vm_compute. discriminate.
Defined.

(** X7 on a blank title, an empty color and the text [false] for the grid. *)
Lemma display_fields_fall_back_witness :
  let d' := deref 1 (validate_payload (H := Reference.host) 1 (custom_heap blank_title)).2 in
  d' !! "title" = default_items !! "title"
  /\ d' !! "color" = Some (JStr "#2563eb")
  /\ d' !! "grid" = Some (JBool true).
Proof.
  destruct (display_fields_fall_back (H := Reference.host)
              (custom_heap blank_title) 1%nat blank_title)
    as (Ht & Hc & _ & _ & Hg).
  - reflexivity.
  - discriminate.
  - reflexivity.
  - reflexivity.
  - intros d'. split; [|split].
    + apply (Ht "title"). rewrite !elem_of_cons. tauto.
    + exact Hc.
    + apply (Hg "false"); [discriminate|reflexivity].
Defined.

(** X15 on a heap with one payload, the host being the reference one. *)
Lemma earlier_payloads_change_only_by_evaluation_witness :
  custom_heap with_note
    `prefix_of` serve (H := Reference.host)
                  [POST 14 (ascii_bytes body_one_sample); GET]
                  (custom_heap with_note).
Proof.
  apply (proj2 (earlier_payloads_change_only_by_evaluation (H := Reference.host)
                  OPTIONS (custom_heap with_note))).
  intros e x g. destruct (reference_quiet e x) as [r Hr]. by rewrite Hr.
Defined.


(** X10 on a body that asks for one sample. *)
Lemma post_reports_first_failure_witness :
  (do_POST (H := Reference.host) 14 (ascii_bytes body_one_sample) initial_heap).1
  = ok (build_response 400 (ErrorBody Msg.samples)).
Proof.
  apply (post_reports_first_failure (H := Reference.host) 14
           (ascii_bytes body_one_sample) body_one_sample
           {["samples" := JInt 1]} initial_heap Msg.samples).
  - by vm_compute.
  - discriminate.
  - reflexivity.
  - discriminate.
  - reflexivity.
  - reflexivity.
  - reflexivity.
Defined.

(** X11 on the identity over three points. *)
Lemma post_success_echoes_numbers_witness :
  exists resp encoded x_min x_max,
    (do_POST (H := Reference.host) 33 (ascii_bytes body_identity) initial_heap).1
    = ok resp
    /\ content resp =
         ImageBody ("data:image/png;base64," +:+ encoded)
           (Metadata (JFloat x_min) (JFloat x_max) (JInt 3)) false.
Proof.
  destruct (post_success_echoes_numbers (H := Reference.host) 33
              (ascii_bytes body_identity) initial_heap
              (build_response 200
                 (ImageBody "data:image/png;base64,PNG"
                    (Metadata (JFloat (Float.mul (Float.of_Z (-2)) Float.pi))
                       (JFloat (Float.mul (Float.of_Z 2) Float.pi)) (JInt 3)) false)))
    as (encoded & a & b & c & e & x & d & x_min & x_max & n & Hc & _).
  - reflexivity.
  - vm_compute. reflexivity.
  - reflexivity.
  - eexists _, "PNG", _, _. split; [vm_compute; reflexivity|reflexivity].
Defined.

(** X12 on the first request. *)
Lemma empty_post_matches_get_witness :
  (do_POST (H := Reference.host) 0 (ascii_bytes body_identity) initial_heap).2
  = initial_heap ++ [default_items].
Proof.
  apply (empty_post_matches_get (H := Reference.host)
           (ascii_bytes body_identity) initial_heap).
  - reflexivity.
  - reflexivity.
  - intros x _. apply reference_quiet.
Defined.

(** X13 on the expression [sin]. *)
Lemma function_value_is_internal_error_witness :
  (exists msg, forall h,
     evaluate_expression (H := Reference.host) (JStr "sin") grid3 h
     = (throw TypeError msg, h))
  /\ exists msg,
       (do_POST (H := Reference.host) 35 (ascii_bytes body_function) initial_heap).1
       = ok (build_response 500 (ErrorBody (Msg.internal +:+ msg))).
Proof.
  destruct (function_value_is_internal_error (H := Reference.host) "sin" "sin"
              (NdArray [3%nat]
                 (Reference.linspace (Float.mul (Float.of_Z (-2)) Float.pi)
                    (Float.mul (Float.of_Z 2) Float.pi) 3)))
    as [_ Hpost].
  - reflexivity.
  - left. eexists. reflexivity.
  - split.
    + apply (function_value_is_internal_error (H := Reference.host) "sin" "sin" grid3).
      * reflexivity.
      * left. eexists. reflexivity.
    + apply (Hpost 35 (ascii_bytes body_function) body_function
               (<["expression" := JStr "sin"]> {["samples" := JInt 3]}) initial_heap
               (Float.mul (Float.of_Z (-2)) Float.pi)
               (Float.mul (Float.of_Z 2) Float.pi) 3).
      * vm_compute. discriminate.
      * discriminate.
      * reflexivity.
      * discriminate.
      * reflexivity.
      * vm_compute. reflexivity.
      * vm_compute. reflexivity.
      * vm_compute. reflexivity.
      * vm_compute. reflexivity.
      * vm_compute. reflexivity.
      * vm_compute. reflexivity.
Defined.

(** X8 on a body that gives null for the color. *)
Lemma parsed_payload_is_complete_witness :
  let h' := (parse_payload (H := Reference.host) body_partial initial_heap).2 in
  is_Some (deref 1 h' !! "color")
  /\ forall v, deref 1 h' !! "color" = Some v -> is_None v = false.
Proof.
  destruct (parsed_payload_is_complete (H := Reference.host) body_partial initial_heap 1%nat)
    as (Hkeys & Hnn & _).
  - reflexivity.
  - reflexivity.
  - intros h'. split.
    + apply Hkeys. unfold FIELDS. rewrite !elem_of_cons. tauto.
    + intros v. apply Hnn.
Defined.

(** X17 on a missing header and on a header that is a word. *)
Lemma content_length_header_witness :
  do_POST_header (H := Reference.host) None (ascii_bytes body_identity) initial_heap
  = do_POST (H := Reference.host) 0 [] initial_heap
  /\ exists msg,
       do_POST_header (H := Reference.host) (Some "many")
         (ascii_bytes body_identity) initial_heap
       = (throw ValueError msg, initial_heap).
Proof.
  destruct (content_length_header (H := Reference.host)
              (ascii_bytes body_identity) initial_heap)
    as (Hzero & Hbad & _).
  split.
  - apply Hzero. reflexivity.
  - apply (Hbad "many"); [discriminate|reflexivity].
Defined.

(** X16 on OPTIONS. *)
Lemma every_answer_carries_the_same_headers_witness :
  headers (build_response 200 EmptyBody) =
    [("Content-Type", "application/json; charset=utf-8");
     ("Cache-Control", "no-cache");
     ("Access-Control-Allow-Origin", "*");
     ("Access-Control-Allow-Methods", "GET, POST, OPTIONS");
     ("Access-Control-Allow-Headers", "Content-Type")]
  /\ (handle (H := Reference.host) OPTIONS initial_heap).2 = initial_heap.
Proof.
  destruct (every_answer_carries_the_same_headers (H := Reference.host) OPTIONS
              initial_heap (build_response 200 EmptyBody) eq_refl)
    as (Hh & Ho & _).
  split; [exact Hh|]. apply Ho. reflexivity.
Defined.
